(** * infrastructure-manager: request validation and cluster-lifecycle workflows

    A shallow embedding of the two Go packages of the repository:

    - [entities]       (internal/pkg/entities/validator.go): the request
                       validators;
    - [infrastructure] (the manager): the workflows that drive a cluster
                       through provisioning, installation, scaling and
                       uninstallation, and the completion callbacks that
                       the operation monitors invoke.

    Data.  Go strings are [string]; [int64] is [Z]; a pointer or slice that
    may be nil is an [option] or a [list]; a Go pair [(value, error)] is a
    [Result]; a [derrors.Error] that may be nil is an [option Error].  A Go
    map is the list of its entries in the order a [range] loop visits them.
    A protobuf message is a record with the fields the repository reads or
    writes, an enum an inductive type with the constants the repository
    names and one constructor for all the others.

    Effects.  The validators are pure.  A method of the manager is a
    function from a world to an outcome (a returned value or a panic) and a
    world.  The world holds what the method has done so far: the calls it
    issued to its collaborators, in order, the lines it logged, and the
    monitors it launched.  Each client of the manager is a record of answer
    functions: given the number of calls issued so far and a request, the
    answer is a response or an error.  A deadline that expires is an error
    answer; contexts are not represented otherwise.  A monitor runs on its
    own after [LaunchMonitor]; its completion is the invocation of a
    callback of the manager, which is an entry point of its own here. *)

From Stdlib Require Import String List Bool ZArith Lia.
Import ListNotations.
Local Open Scope string_scope.

(* ===================================================================== *)
(** * github.com/nalej/derrors *)
(* ===================================================================== *)

Module derrors.

(** The kinds of error the repository creates or branches on; every other
    kind a remote service may answer with is [GenericError]. *)
Inductive ErrorType : Type :=
| GenericError
| InvalidArgument
| FailedPrecondition
| Unimplemented
| Internal.

Record Error : Type := mkError { errType : ErrorType; Message : string }.

Definition NewInvalidArgumentError (msg : string) : Error := mkError InvalidArgument msg.
Definition NewFailedPreconditionError (msg : string) : Error := mkError FailedPrecondition msg.
Definition NewUnimplementedError (msg : string) : Error := mkError Unimplemented msg.
Definition NewInternalError (msg : string) : Error := mkError Internal msg.
Definition NewGenericError (msg : string) : Error := mkError GenericError msg.

(** [derrors.AsError(err, msg)]: a generic error with the given message
    wrapping its cause. *)
Definition AsError (cause : Error) (msg : string) : Error := mkError GenericError msg.

End derrors.

(** A Go result pair [(value, error)] in which exactly one side is nil. *)
Inductive Result (A : Type) : Type :=
| Ok (a : A)
| Err (e : derrors.Error).
Arguments Ok {A} a.
Arguments Err {A} e.

(** [conversions.ToDerror] and [conversions.ToGRPCError] (grpc-utils) carry an
    error between its gRPC and its derrors representation; both are
    represented by [derrors.Error] here. *)
Module conversions.
Definition ToDerror (e : derrors.Error) : derrors.Error := e.
Definition ToGRPCError (e : derrors.Error) : derrors.Error := e.
End conversions.

(** Go's [s == ""]. *)
Definition is_empty (s : string) : bool :=
  match s with EmptyString => true | String _ _ => false end.

(* ===================================================================== *)
(** * Wire types (the fields the repository reads or writes) *)
(* ===================================================================== *)

Module grpc_common_go.

Inductive OpStatus : Type :=
| OpStatus_FAILED
| OpStatus_OTHER (code : Z).

Module OpResponse.
Record t : Type := mk {
  OrganizationId : string;
  RequestId : string;
  Status : OpStatus;
  Error : string
}.
End OpResponse.

Inductive Success : Type := mkSuccess.

End grpc_common_go.

Module grpc_organization_go.
Module OrganizationId.
Record t : Type := mk { OrganizationId : string }.
End OrganizationId.
End grpc_organization_go.

Module grpc_connectivity_manager_go.
Inductive ClusterStatus : Type :=
| ClusterStatus_ONLINE_CORDON
| ClusterStatus_OFFLINE_CORDON
| ClusterStatus_OTHER (code : Z).

Definition ClusterStatus_eqb (a b : ClusterStatus) : bool :=
  match a, b with
  | ClusterStatus_ONLINE_CORDON, ClusterStatus_ONLINE_CORDON => true
  | ClusterStatus_OFFLINE_CORDON, ClusterStatus_OFFLINE_CORDON => true
  | ClusterStatus_OTHER x, ClusterStatus_OTHER y => Z.eqb x y
  | _, _ => false
  end.
End grpc_connectivity_manager_go.

Module grpc_infrastructure_go.
Import grpc_connectivity_manager_go.

Inductive ClusterState : Type :=
| ClusterState_PROVISIONING
| ClusterState_PROVISIONED
| ClusterState_INSTALL_IN_PROGRESS
| ClusterState_INSTALLED
| ClusterState_SCALING
| ClusterState_FAILURE
| ClusterState_UNINSTALLING.

Definition ClusterState_eqb (a b : ClusterState) : bool :=
  match a, b with
  | ClusterState_PROVISIONING, ClusterState_PROVISIONING
  | ClusterState_PROVISIONED, ClusterState_PROVISIONED
  | ClusterState_INSTALL_IN_PROGRESS, ClusterState_INSTALL_IN_PROGRESS
  | ClusterState_INSTALLED, ClusterState_INSTALLED
  | ClusterState_SCALING, ClusterState_SCALING
  | ClusterState_FAILURE, ClusterState_FAILURE
  | ClusterState_UNINSTALLING, ClusterState_UNINSTALLING => true
  | _, _ => false
  end.

Inductive ClusterType : Type :=
| ClusterType_KUBERNETES
| ClusterType_OTHER (code : Z).

(** Node status and node state are passed through, never inspected. *)
Definition NodeStatus : Type := Z.
Definition NodeState : Type := Z.

Module ClusterId.
Record t : Type := mk { OrganizationId : string; ClusterId : string }.
End ClusterId.

Module Cluster.
Record t : Type := mk {
  OrganizationId : string;
  ClusterId : string;
  Name : string;
  Hostname : string;
  ControlPlaneHostname : string;
  State : ClusterState;
  ClusterStatus : ClusterStatus
}.
End Cluster.

Module AddClusterRequest.
Record t : Type := mk {
  RequestId : string;
  OrganizationId : string;
  Name : string;
  Hostname : string;
  ControlPlaneHostname : string
}.
End AddClusterRequest.

(** [State] is [None] where a struct literal leaves the field at its
    zero value. *)
Module UpdateClusterRequest.
Record t : Type := mk {
  OrganizationId : string;
  ClusterId : string;
  UpdateClusterState : bool;
  State : option ClusterState;
  UpdateHostname : bool;
  Hostname : string;
  UpdateControlPlaneHostname : bool;
  ControlPlaneHostname : string;
  AddLabels : bool;
  Labels : list (string * string)
}.
End UpdateClusterRequest.

Module RemoveClusterRequest.
Record t : Type := mk {
  RequestId : string;
  OrganizationId : string;
  ClusterId : string
}.
End RemoveClusterRequest.

Module SetClusterStatusRequest.
Record t : Type := mk { ClusterId : ClusterId.t; Cordon : bool }.
End SetClusterStatusRequest.

Module Node.
Record t : Type := mk {
  OrganizationId : string;
  ClusterId : string;
  NodeId : string;
  Status : NodeStatus
}.
End Node.

Module NodeList.
Record t : Type := mk { Nodes : list Node.t }.
End NodeList.

Module AddNodeRequest.
Record t : Type := mk {
  RequestId : string;
  OrganizationId : string;
  Ip : string;
  Labels : list (string * string)
}.
End AddNodeRequest.

Module AttachNodeRequest.
Record t : Type := mk {
  RequestId : string;
  OrganizationId : string;
  ClusterId : string;
  NodeId : string
}.
End AttachNodeRequest.

Module UpdateNodeRequest.
Record t : Type := mk {
  OrganizationId : string;
  NodeId : string;
  UpdateStatus : bool;
  Status : NodeStatus;
  UpdateState : bool;
  State : NodeState;
  AddLabels : bool;
  Labels : list (string * string)
}.
End UpdateNodeRequest.

Module RemoveNodesRequest.
Record t : Type := mk {
  RequestId : string;
  OrganizationId : string;
  Nodes : list string
}.
End RemoveNodesRequest.

End grpc_infrastructure_go.

Module grpc_installer_go.
Import grpc_infrastructure_go.

Inductive Platform : Type :=
| Platform_AZURE
| Platform_OTHER (code : Z).

Definition is_AZURE (p : Platform) : bool :=
  match p with Platform_AZURE => true | Platform_OTHER _ => false end.

Module InstallRequest.
Record t : Type := mk {
  RequestId : string;
  OrganizationId : string;
  ClusterId : string;
  ClusterType : ClusterType;
  InstallBaseSystem : bool;
  KubeConfigRaw : string;
  Hostname : string;
  Username : string;
  PrivateKey : string;
  Nodes : list string;
  TargetPlatform : Platform;
  StaticIpAddresses : option string
}.

(** [request.ClusterId = id]: assignment through the request pointer. *)
Definition set_ClusterId (r : t) (id : string) : t :=
  mk (RequestId r) (OrganizationId r) id (ClusterType r) (InstallBaseSystem r)
     (KubeConfigRaw r) (Hostname r) (Username r) (PrivateKey r) (Nodes r)
     (TargetPlatform r) (StaticIpAddresses r).
End InstallRequest.

Module UninstallClusterRequest.
Record t : Type := mk {
  RequestId : string;
  OrganizationId : string;
  ClusterId : string;
  ClusterType : ClusterType;
  KubeConfigRaw : string;
  TargetPlatform : Platform
}.

Definition set_TargetPlatform (r : t) (p : Platform) : t :=
  mk (RequestId r) (OrganizationId r) (ClusterId r) (ClusterType r) (KubeConfigRaw r) p.
End UninstallClusterRequest.

End grpc_installer_go.

Module grpc_provisioner_go.
Import grpc_infrastructure_go grpc_installer_go.

Inductive ProvisionProgress : Type :=
| ProvisionProgress_ERROR
| ProvisionProgress_OTHER (code : Z).

(** Only presence is checked by the repository. *)
Module AzureCredentials.
Record t : Type := mk { content : string }.
End AzureCredentials.

Module AzureOptions.
Record t : Type := mk { ResourceGroup : string }.
End AzureOptions.

Module ProvisionClusterRequest.
Record t : Type := mk {
  RequestId : string;
  OrganizationId : string;
  ClusterId : string;
  ClusterName : string;
  KubernetesVersion : string;
  NumNodes : Z;
  NodeType : string;
  IsManagementCluster : bool;
  TargetPlatform : Platform;
  AzureCredentials : option AzureCredentials.t;
  AzureOptions : option AzureOptions.t
}.

Definition set_ClusterId (r : t) (id : string) : t :=
  mk (RequestId r) (OrganizationId r) id (ClusterName r) (KubernetesVersion r)
     (NumNodes r) (NodeType r) (IsManagementCluster r) (TargetPlatform r)
     (AzureCredentials r) (AzureOptions r).

Definition set_Azure (r : t) (c : option AzureCredentials.t) (o : option AzureOptions.t) : t :=
  mk (RequestId r) (OrganizationId r) (ClusterId r) (ClusterName r) (KubernetesVersion r)
     (NumNodes r) (NodeType r) (IsManagementCluster r) (TargetPlatform r) c o.
End ProvisionClusterRequest.

Module ProvisionClusterResponse.
Record t : Type := mk {
  RequestId : string;
  State : ProvisionProgress;
  Error : string;
  RawKubeConfig : string;
  Hostname : string;
  StaticIpAddresses : option string
}.
End ProvisionClusterResponse.

Module ScaleClusterRequest.
Record t : Type := mk {
  RequestId : string;
  OrganizationId : string;
  ClusterId : string;
  IsManagementCluster : bool;
  TargetPlatform : Platform;
  AzureCredentials : option AzureCredentials.t;
  AzureOptions : option AzureOptions.t
}.

Definition set_Azure (r : t) (c : option AzureCredentials.t) (o : option AzureOptions.t) : t :=
  mk (RequestId r) (OrganizationId r) (ClusterId r) (IsManagementCluster r)
     (TargetPlatform r) c o.
End ScaleClusterRequest.

Module ScaleClusterResponse.
Record t : Type := mk {
  RequestId : string;
  State : ProvisionProgress;
  Error : string
}.
End ScaleClusterResponse.

Module DecommissionClusterRequest.
Record t : Type := mk {
  RequestId : string;
  OrganizationId : string;
  ClusterId : string;
  ClusterType : ClusterType;
  IsManagementCluster : bool;
  TargetPlatform : Platform;
  AzureCredentials : option AzureCredentials.t;
  AzureOptions : option AzureOptions.t
}.

Definition set_Azure (r : t) (c : option AzureCredentials.t) (o : option AzureOptions.t) : t :=
  mk (RequestId r) (OrganizationId r) (ClusterId r) (ClusterType r)
     (IsManagementCluster r) (TargetPlatform r) c o.
End DecommissionClusterRequest.

(** The request of the management interface ([GetKubeConfig]). *)
Module ClusterRequest.
Record t : Type := mk {
  RequestId : string;
  OrganizationId : string;
  ClusterId : string;
  ClusterType : ClusterType;
  IsManagementCluster : bool;
  TargetPlatform : Platform;
  AzureCredentials : option AzureCredentials.t;
  AzureOptions : option AzureOptions.t
}.
End ClusterRequest.

Module KubeConfigResponse.
Record t : Type := mk { RawKubeConfig : string }.
End KubeConfigResponse.

End grpc_provisioner_go.

Module grpc_infrastructure_manager_go.
Import grpc_provisioner_go.
Module ProvisionerResponse.
Record t : Type := mk {
  RequestId : string;
  OrganizationId : string;
  ClusterId : string;
  State : ProvisionProgress;
  Error : string
}.
End ProvisionerResponse.
End grpc_infrastructure_manager_go.

Module grpc_application_go.
Module ServiceInstance.
Record t : Type := mk { OrganizationId : string; DeployedOnClusterId : string }.
End ServiceInstance.
Module ServiceGroupInstance.
Record t : Type := mk { ServiceInstances : list ServiceInstance.t }.
End ServiceGroupInstance.
Module AppInstance.
Record t : Type := mk { Groups : list ServiceGroupInstance.t }.
End AppInstance.
Module AppInstanceList.
Record t : Type := mk { Instances : list AppInstance.t }.
End AppInstanceList.
End grpc_application_go.

Module grpc_conductor_go.
Import grpc_infrastructure_go.
Module DrainClusterRequest.
Record t : Type := mk { ClusterId : ClusterId.t }.
End DrainClusterRequest.
End grpc_conductor_go.

(* ===================================================================== *)
(** * Package entities: validator.go *)
(* ===================================================================== *)

Module entities.
Import derrors grpc_infrastructure_go grpc_installer_go grpc_provisioner_go
       grpc_organization_go.

Definition emptyRequestId := "request_id cannot be empty".
Definition emptyOrganizationId := "organization_id cannot be empty".
Definition emptyClusterId := "cluster_id cannot be empty".
Definition emptyNodeId := "node_id cannot be empty".

(** What discovery reports about a node and a cluster (entities.Node,
    entities.Cluster). *)
Module Node.
Record t : Type := mk { IP : string; Labels : list (string * string) }.
End Node.

Module Cluster.
Record t : Type := mk {
  Name : string;
  Hostname : string;
  ControlPlaneHostname : string;
  KubernetesVersion : string;
  Nodes : list Node.t
}.

Definition set_Hostname (c : t) (h : string) : t :=
  mk (Name c) h (ControlPlaneHostname c) (KubernetesVersion c) (Nodes c).
End Cluster.

Definition ValidOrganizationId (organizationID : OrganizationId.t) : option Error :=
  if is_empty (OrganizationId.OrganizationId organizationID)
  then Some (NewInvalidArgumentError emptyOrganizationId)
  else None.

Definition ValidClusterId (clusterID : ClusterId.t) : option Error :=
  if is_empty (ClusterId.OrganizationId clusterID)
  then Some (NewInvalidArgumentError emptyOrganizationId)
  else if is_empty (ClusterId.ClusterId clusterID)
  then Some (NewInvalidArgumentError emptyClusterId)
  else None.

(** [authFound] is threaded through the two [if] blocks on [Username] and
    [KubeConfigRaw]; a block either returns an error or yields the flag. *)
Definition ValidInstallRequest (installRequest : InstallRequest.t) : option Error :=
  let r := installRequest in
  if is_empty (InstallRequest.OrganizationId r)
  then Some (NewInvalidArgumentError emptyOrganizationId)
  else if negb (is_empty (InstallRequest.ClusterId r))
  then Some (NewInvalidArgumentError "cluster_id must be nil, and set by this component")
  else if negb (is_empty (InstallRequest.RequestId r))
  then Some (NewInvalidArgumentError "request_id must be nil, and set by this component")
  else
    let authFound := false in
    (* if installRequest.Username != "" { ... } *)
    let step1 : Result bool :=
      if negb (is_empty (InstallRequest.Username r)) then
        if is_empty (InstallRequest.PrivateKey r)
        then Err (NewInvalidArgumentError "expecting PrivateKey with Username")
        else if Nat.eqb (length (InstallRequest.Nodes r)) 0
        then Err (NewInvalidArgumentError "expecting Nodes with Username")
        else Ok true
      else Ok authFound in
    match step1 with
    | Err e => Some e
    | Ok authFound =>
      (* if installRequest.KubeConfigRaw != "" { ... } *)
      let step2 : Result bool :=
        if negb (is_empty (InstallRequest.KubeConfigRaw r)) then
          if negb (is_empty (InstallRequest.Username r))
          then Err (NewInvalidArgumentError "expecting KubeConfigRaw without Username")
          else if negb (is_empty (InstallRequest.PrivateKey r))
          then Err (NewInvalidArgumentError "expecting KubeConfigRaw without PrivateKey")
          else if Nat.ltb 0 (length (InstallRequest.Nodes r))
          then Err (NewInvalidArgumentError "expecting KubeConfigRaw without Nodes")
          else Ok true
        else Ok authFound in
      match step2 with
      | Err e => Some e
      | Ok authFound =>
        if negb authFound
        then Some (NewInvalidArgumentError
                     "expecting KubeConfigRaw or Username, PrivateKey and Nodes")
        else None
      end
    end.

Definition ValidRemoveClusterRequest (removeClusterRequest : RemoveClusterRequest.t)
  : option Error :=
  Some (NewUnimplementedError "ValidRemoveClusterRequest").

Definition ValidProvisionClusterRequest (request : ProvisionClusterRequest.t) : option Error :=
  if is_empty (ProvisionClusterRequest.RequestId request)
  then Some (NewInvalidArgumentError "request_id must be set")
  else if ProvisionClusterRequest.IsManagementCluster request
  then Some (NewInvalidArgumentError "you can only provision and install application clusters")
  else if is_empty (ProvisionClusterRequest.OrganizationId request)
  then Some (NewInvalidArgumentError "organization_id must be set")
  else if (ProvisionClusterRequest.NumNodes request <=? 0)%Z
  then Some (NewInvalidArgumentError "num_nodes must be positive")
  else if is_empty (ProvisionClusterRequest.NodeType request)
  then Some (NewInvalidArgumentError "node_type must be set")
  else if is_AZURE (ProvisionClusterRequest.TargetPlatform request)
          && match ProvisionClusterRequest.AzureCredentials request with
             | None => true | Some _ => false end
  then Some (NewInvalidArgumentError "azure_credentials must be set when type is Azure")
  else if is_AZURE (ProvisionClusterRequest.TargetPlatform request)
          && match ProvisionClusterRequest.AzureOptions request with
             | None => true | Some _ => false end
  then Some (NewInvalidArgumentError "azure_options must be set when type is Azure")
  else None.

(** [request.AzureOptions == nil || request.AzureOptions.ResourceGroup == ""] *)
Definition no_resource_group (o : option AzureOptions.t) : bool :=
  match o with
  | None => true
  | Some opts => is_empty (AzureOptions.ResourceGroup opts)
  end.

Definition ValidScaleClusterRequest (request : ScaleClusterRequest.t) : option Error :=
  if negb (is_empty (ScaleClusterRequest.RequestId request))
  then Some (NewInvalidArgumentError "request_id is set by infrastructure-manager")
  else if is_empty (ScaleClusterRequest.OrganizationId request)
  then Some (NewInvalidArgumentError emptyOrganizationId)
  else if is_empty (ScaleClusterRequest.ClusterId request)
  then Some (NewInvalidArgumentError emptyClusterId)
  else if ScaleClusterRequest.IsManagementCluster request
  then Some (NewInvalidArgumentError "can only scale application clusters")
  else if is_AZURE (ScaleClusterRequest.TargetPlatform request)
          && match ScaleClusterRequest.AzureCredentials request with
             | None => true | Some _ => false end
  then Some (NewInvalidArgumentError "azure_credentials cannot be empty")
  else if is_AZURE (ScaleClusterRequest.TargetPlatform request)
          && no_resource_group (ScaleClusterRequest.AzureOptions request)
  then Some (NewInvalidArgumentError "azure_options.resource_group cannot be empty")
  else None.

Definition ValidUninstallClusterRequest (request : UninstallClusterRequest.t) : option Error :=
  if negb (is_empty (UninstallClusterRequest.RequestId request))
  then Some (NewInvalidArgumentError "request_id is set by infrastructure-manager")
  else if is_empty (UninstallClusterRequest.OrganizationId request)
  then Some (NewInvalidArgumentError emptyOrganizationId)
  else if is_empty (UninstallClusterRequest.ClusterId request)
  then Some (NewInvalidArgumentError emptyClusterId)
  else if is_empty (UninstallClusterRequest.KubeConfigRaw request)
  then Some (NewInvalidArgumentError "kube_config_raw cannot be empty")
  else None.

Definition ValidDecommissionClusterRequest (request : DecommissionClusterRequest.t)
  : option Error :=
  if negb (is_empty (DecommissionClusterRequest.RequestId request))
  then Some (NewInvalidArgumentError "request_id is set by infrastructure-manager")
  else if is_empty (DecommissionClusterRequest.OrganizationId request)
  then Some (NewInvalidArgumentError emptyOrganizationId)
  else if is_empty (DecommissionClusterRequest.ClusterId request)
  then Some (NewInvalidArgumentError emptyClusterId)
  else if DecommissionClusterRequest.IsManagementCluster request
  then Some (NewInvalidArgumentError "can only decommission application clusters")
  else if is_AZURE (DecommissionClusterRequest.TargetPlatform request)
          && match DecommissionClusterRequest.AzureCredentials request with
             | None => true | Some _ => false end
  then Some (NewInvalidArgumentError "azure_credentials cannot be empty")
  else if is_AZURE (DecommissionClusterRequest.TargetPlatform request)
          && no_resource_group (DecommissionClusterRequest.AzureOptions request)
  then Some (NewInvalidArgumentError "azure_options.resource_group cannot be empty")
  else None.

Definition ValidRemoveNodesRequest (removeNodesRequest : RemoveNodesRequest.t) : option Error :=
  if is_empty (RemoveNodesRequest.RequestId removeNodesRequest)
  then Some (NewInvalidArgumentError emptyRequestId)
  else if is_empty (RemoveNodesRequest.OrganizationId removeNodesRequest)
  then Some (NewInvalidArgumentError emptyOrganizationId)
  else if Nat.eqb (length (RemoveNodesRequest.Nodes removeNodesRequest)) 0
  then Some (NewInvalidArgumentError "nodes must not be empty")
  else None.

Section Labels.
(** [kValidation.IsValidLabelValue] of k8s.io/apimachinery: the list of
    violations of the label-value grammar, empty for a valid value. *)
Variable IsValidLabelValue : string -> list string.

(** [labels] lists the entries of the Go map in the order the [range]
    loop visits them. *)
Fixpoint ValidLabels (labels : list (string * string)) : option Error :=
  match labels with
  | [] => None
  | (_, v) :: rest =>
    let validationErrors := IsValidLabelValue v in
    if negb (Nat.eqb (length validationErrors) 0)
    then Some (NewInvalidArgumentError (String.concat ", " validationErrors))
    else ValidLabels rest
  end.

Definition ValidUpdateClusterRequest (request : UpdateClusterRequest.t) : option Error :=
  if is_empty (UpdateClusterRequest.OrganizationId request)
  then Some (NewInvalidArgumentError emptyOrganizationId)
  else if is_empty (UpdateClusterRequest.ClusterId request)
  then Some (NewInvalidArgumentError emptyClusterId)
  else if UpdateClusterRequest.AddLabels request
  then match ValidLabels (UpdateClusterRequest.Labels request) with
       | Some validLabels => Some validLabels
       | None => None
       end
  else None.

Definition ValidUpdateNodeRequest (request : UpdateNodeRequest.t) : option Error :=
  if is_empty (UpdateNodeRequest.OrganizationId request)
  then Some (NewInvalidArgumentError emptyOrganizationId)
  else if negb (is_empty (UpdateNodeRequest.NodeId request))
  then Some (NewInvalidArgumentError emptyNodeId)
  else if UpdateNodeRequest.AddLabels request
  then match ValidLabels (UpdateNodeRequest.Labels request) with
       | Some validLabels => Some validLabels
       | None => None
       end
  else None.
End Labels.

End entities.

(* ===================================================================== *)
(** * The remote collaborators of the manager *)
(* ===================================================================== *)

(** Every client of the Go [Manager] is an interface to another service.
    A client is modelled by its answers: the first argument of an answer
    function is the number of calls the run has issued so far, so that a
    service may answer the same request differently at different times.
    An answer is either a response or an error, as with a gRPC stub. *)

Module ClustersClient.
Import grpc_infrastructure_go grpc_common_go grpc_organization_go.
Record t : Type := mk {
  AddCluster : nat -> AddClusterRequest.t -> Result Cluster.t;
  GetCluster : nat -> ClusterId.t -> Result Cluster.t;
  ListClusters : nat -> OrganizationId.t -> Result (list Cluster.t);
  UpdateCluster : nat -> UpdateClusterRequest.t -> Result Cluster.t;
  RemoveCluster : nat -> RemoveClusterRequest.t -> Result Success;
  CordonCluster : nat -> ClusterId.t -> Result Success;
  UncordonCluster : nat -> ClusterId.t -> Result Success
}.
End ClustersClient.

Module NodesClient.
Import grpc_infrastructure_go grpc_common_go.
Record t : Type := mk {
  AddNode : nat -> AddNodeRequest.t -> Result Node.t;
  AttachNode : nat -> AttachNodeRequest.t -> Result Success;
  UpdateNode : nat -> UpdateNodeRequest.t -> Result Node.t;
  ListNodes : nat -> ClusterId.t -> Result NodeList.t;
  RemoveNodes : nat -> RemoveNodesRequest.t -> Result Success
}.
End NodesClient.

Module InstallerClient.
Import grpc_installer_go grpc_common_go.
Record t : Type := mk {
  InstallCluster : nat -> InstallRequest.t -> Result OpResponse.t;
  UninstallCluster : nat -> UninstallClusterRequest.t -> Result OpResponse.t
}.
End InstallerClient.

Module ProvisionClient.
Import grpc_provisioner_go.
Record t : Type := mk {
  ProvisionCluster : nat -> ProvisionClusterRequest.t -> Result ProvisionClusterResponse.t
}.
End ProvisionClient.

Module ScaleClient.
Import grpc_provisioner_go.
Record t : Type := mk {
  ScaleCluster : nat -> ScaleClusterRequest.t -> Result ScaleClusterResponse.t
}.
End ScaleClient.

Module ManagementClient.
Import grpc_provisioner_go.
Record t : Type := mk {
  GetKubeConfig : nat -> ClusterRequest.t -> Result KubeConfigResponse.t
}.
End ManagementClient.

Module DecommissionClient.
Import grpc_provisioner_go grpc_common_go.
Record t : Type := mk {
  DecommissionCluster : nat -> DecommissionClusterRequest.t -> Result OpResponse.t
}.
End DecommissionClient.

Module ApplicationsClient.
Import grpc_application_go grpc_organization_go.
Record t : Type := mk {
  ListAppInstances : nat -> OrganizationId.t -> Result AppInstanceList.t
}.
End ApplicationsClient.

Module bus.
Import grpc_infrastructure_go grpc_conductor_go.

(** The two message types the manager hands to [SendEvents]. *)
Inductive EventMessage : Type :=
| UpdateClusterEvent (r : UpdateClusterRequest.t)
| SetClusterStatusEvent (r : SetClusterStatusRequest.t).

Module BusManager.
Record t : Type := mk {
  SendEvents : nat -> EventMessage -> option derrors.Error;
  SendOps : nat -> DrainClusterRequest.t -> option derrors.Error
}.
End BusManager.
End bus.

(** The operating system calls of [writeTempFile] and the discovery helper
    of internal/pkg/server/discovery/k8s, which both answer like a remote
    service does. *)
Module host.
Record t : Type := mk {
  TempFile : nat -> string -> string -> Result string;
  FileWrite : nat -> string -> string -> option derrors.Error;
  FileClose : nat -> string -> option derrors.Error;
  Connect : nat -> string -> option derrors.Error;
  Discover : nat -> string -> Result entities.Cluster.t
}.
End host.

(* ===================================================================== *)
(** * What a run of the manager does *)
(* ===================================================================== *)

Module effects.
Import grpc_infrastructure_go grpc_installer_go grpc_provisioner_go
       grpc_common_go grpc_organization_go grpc_conductor_go
       grpc_infrastructure_manager_go.

(** One constructor per outgoing call, with the request it carries. *)
Inductive Call : Type :=
| Call_AddCluster (r : AddClusterRequest.t)
| Call_GetCluster (r : ClusterId.t)
| Call_ListClusters (r : OrganizationId.t)
| Call_UpdateCluster (r : UpdateClusterRequest.t)
| Call_RemoveCluster (r : RemoveClusterRequest.t)
| Call_CordonCluster (r : ClusterId.t)
| Call_UncordonCluster (r : ClusterId.t)
| Call_AddNode (r : AddNodeRequest.t)
| Call_AttachNode (r : AttachNodeRequest.t)
| Call_UpdateNode (r : UpdateNodeRequest.t)
| Call_ListNodes (r : ClusterId.t)
| Call_RemoveNodes (r : RemoveNodesRequest.t)
| Call_InstallCluster (r : InstallRequest.t)
| Call_UninstallCluster (r : UninstallClusterRequest.t)
| Call_ProvisionCluster (r : ProvisionClusterRequest.t)
| Call_ScaleCluster (r : ScaleClusterRequest.t)
| Call_GetKubeConfig (r : ClusterRequest.t)
| Call_DecommissionCluster (r : DecommissionClusterRequest.t)
| Call_ListAppInstances (r : OrganizationId.t)
| Call_SendEvents (msg : bus.EventMessage)
| Call_SendOps (msg : DrainClusterRequest.t)
| Call_TempFile (dir prefix : string)
| Call_FileWrite (name content : string)
| Call_FileClose (name : string)
| Call_FileRemove (name : string)
| Call_Connect (kubeConfigFile : string)
| Call_Discover (kubeConfigFile : string).

Inductive Level : Type := LevelDebug | LevelWarn | LevelError.

(** The completion callbacks of the manager, by name. *)
Inductive Callback : Type :=
| Ref_provisionCallback
| Ref_installCallback
| Ref_scaleCallback
| Ref_uninstallCallback
| Ref_decommissionCallback.

(** [monitor.DecommissionCallback]: the decommission chain token.  Its
    [Callback] field is always [m.Decommission]. *)
Module DecommissionCallback.
Record t : Type := mk { Request : DecommissionClusterRequest.t }.
End DecommissionCallback.

Inductive MonitorKind : Type :=
| ProvisionerMonitor (response : ProvisionerResponse.t)
| InstallerMonitor (clusterID : string) (response : OpResponse.t)
| ScalerMonitor (response : ProvisionerResponse.t)
| DecommissionerMonitor (clusterID requestID : string).

(** A monitor as the manager leaves it when it calls [LaunchMonitor]:
    what it watches, the callbacks registered with [RegisterCallback], the
    argument of [RegisterDecommissionCallback] (a nil pointer is [None]),
    and whether it was launched with [go]. *)
Module Monitor.
Record t : Type := mk {
  kind : MonitorKind;
  callbacks : list Callback;
  decommissionCallback : option DecommissionCallback.t;
  detached : bool
}.
End Monitor.

Record World : Type := mkWorld {
  calls : list Call;
  logs : list (Level * string);
  launched : list Monitor.t
}.

Definition initial : World := mkWorld [] [] [].

(** A Go function either returns or panics. *)
Inductive Res (A : Type) : Type :=
| Done (a : A)
| Panicked.
Arguments Done {A} a.
Arguments Panicked {A}.

Definition M (A : Type) : Type := World -> Res A * World.

Definition ret {A} (a : A) : M A := fun w => (Done a, w).

Definition bind {A B} (c : M A) (k : A -> M B) : M B :=
  fun w =>
    match c w with
    | (Done a, w') => k a w'
    | (Panicked, w') => (Panicked, w')
    end.

Definition panic {A} : M A := fun w => (Panicked, w).

(** Issue a call: record it and take the answer for the current time. *)
Definition call {A} (c : Call) (answer : nat -> A) : M A :=
  fun w => (Done (answer (length (calls w))),
            mkWorld (calls w ++ [c]) (logs w) (launched w)).

Definition log (l : Level) (msg : string) : M unit :=
  fun w => (Done tt, mkWorld (calls w) (logs w ++ [(l, msg)]) (launched w)).

Definition launch (mon : Monitor.t) : M unit :=
  fun w => (Done tt, mkWorld (calls w) (logs w) (launched w ++ [mon])).

Definition exec {A} (c : M A) (w : World) : World := snd (c w).
Definition result {A} (c : M A) (w : World) : Res A := fst (c w).

End effects.

Declare Scope go_scope.
Delimit Scope go_scope with go.
Notation "x <- c ;; k" := (effects.bind c (fun x => k))
  (at level 100, c at next level, right associativity) : go_scope.
Notation "c ;;; k" := (effects.bind c (fun _ => k))
  (at level 100, right associativity) : go_scope.

(* ===================================================================== *)
(** * Package infrastructure: the manager *)
(* ===================================================================== *)

Module infrastructure.
Import derrors conversions effects.
Import grpc_infrastructure_go grpc_installer_go grpc_provisioner_go
       grpc_common_go grpc_organization_go grpc_conductor_go
       grpc_connectivity_manager_go grpc_application_go
       grpc_infrastructure_manager_go.
Local Open Scope go_scope.

(** The [Manager] struct.  [os] is not a field of the Go struct: it stands
    for the file system and the discovery helper the methods reach. *)
Module Manager.
Record t : Type := mk {
  tempPath : string;
  clusterClient : ClustersClient.t;
  nodesClient : NodesClient.t;
  installerClient : InstallerClient.t;
  provisionerClient : ProvisionClient.t;
  scalerClient : ScaleClient.t;
  managementClient : ManagementClient.t;
  decommissionClient : DecommissionClient.t;
  appClient : ApplicationsClient.t;
  busManager : bus.BusManager.t;
  os : host.t
}.
End Manager.

Definition is_some {A} (o : option A) : bool :=
  match o with Some _ => true | None => false end.

Definition is_ERROR (p : ProvisionProgress) : bool :=
  match p with ProvisionProgress_ERROR => true | ProvisionProgress_OTHER _ => false end.

Definition is_FAILED (s : OpStatus) : bool :=
  match s with OpStatus_FAILED => true | OpStatus_OTHER _ => false end.

(** [if err != nil { log.Error()... }] *)
Definition log_if {A} (o : option A) (l : Level) (msg : string) : M unit :=
  match o with Some _ => log l msg | None => ret tt end.

Section Methods.
Variable m : Manager.t.

(** [entities.OpStatusToNodeState], which is not in the validator file. *)
Variable OpStatusToNodeState : OpStatus -> NodeState.

Definition writeTempFile (content prefix : string) : M (Result string) :=
  r <- call (Call_TempFile (Manager.tempPath m) prefix)
         (fun now => host.TempFile (Manager.os m) now (Manager.tempPath m) prefix) ;;
  match r with
  | Err err => ret (Err (AsError err "cannot create temporal file"))
  | Ok tmpfile =>
    wr <- call (Call_FileWrite tmpfile content)
            (fun now => host.FileWrite (Manager.os m) now tmpfile content) ;;
    match wr with
    | Some err => ret (Err (AsError err "cannot write temporal file"))
    | None =>
      cl <- call (Call_FileClose tmpfile)
              (fun now => host.FileClose (Manager.os m) now tmpfile) ;;
      match cl with
      | Some err => ret (Err (AsError err "cannot close temporal file"))
      | None => ret (Ok tmpfile)
      end
    end
  end.

(** The [range cluster.Nodes] loop of [attachNodes]. *)
Fixpoint attachNodes_loop (requestID organizationID clusterID : string)
         (nodes : list entities.Node.t) : M (option Error) :=
  match nodes with
  | [] => ret None
  | n :: rest =>
    let nodeToAdd :=
      AddNodeRequest.mk requestID organizationID
                        (entities.Node.IP n) (entities.Node.Labels n) in
    log LevelDebug "Adding node to SM" ;;;
    added <- call (Call_AddNode nodeToAdd)
               (fun now => NodesClient.AddNode (Manager.nodesClient m) now nodeToAdd) ;;
    match added with
    | Err err => ret (Some (ToDerror err))
    | Ok addedNode =>
      let attachReq :=
        AttachNodeRequest.mk requestID organizationID clusterID (Node.NodeId addedNode) in
      log LevelDebug "Attaching node to cluster" ;;;
      att <- call (Call_AttachNode attachReq)
               (fun now => NodesClient.AttachNode (Manager.nodesClient m) now attachReq) ;;
      match att with
      | Err err => ret (Some (ToDerror err))
      | Ok _ => attachNodes_loop requestID organizationID clusterID rest
      end
    end
  end.

Definition attachNodes (requestID organizationID clusterID : string)
           (cluster : entities.Cluster.t) : M (option Error) :=
  attachNodes_loop requestID organizationID clusterID (entities.Cluster.Nodes cluster).

Definition updateClusterState (organizationID clusterID : string)
           (newState : ClusterState) : M (option Error) :=
  let updateRequest :=
    UpdateClusterRequest.mk organizationID clusterID true (Some newState)
                            false "" false "" false [] in
  upd <- call (Call_UpdateCluster updateRequest)
           (fun now => ClustersClient.UpdateCluster (Manager.clusterClient m) now updateRequest) ;;
  match upd with
  | Err err =>
    let dErr := ToDerror err in
    log LevelError "cannot update cluster state" ;;;
    ret (Some dErr)
  | Ok _ =>
    (* if correct send it to the bus *)
    errBus <- call (Call_SendEvents (bus.UpdateClusterEvent updateRequest))
                (fun now => bus.BusManager.SendEvents (Manager.busManager m) now
                              (bus.UpdateClusterEvent updateRequest)) ;;
    match errBus with
    | Some errBus =>
      log LevelError "error in the bus when sending an update cluster request" ;;;
      ret (Some errBus)
    | None => ret None
    end
  end.

Definition addClusterToSM (requestID organizationID : string)
           (cluster : entities.Cluster.t) (clusterState : ClusterState)
  : M (Result Cluster.t) :=
  let toAdd :=
    AddClusterRequest.mk requestID organizationID
                         (entities.Cluster.Name cluster)
                         (entities.Cluster.Hostname cluster)
                         (entities.Cluster.ControlPlaneHostname cluster) in
  log LevelDebug "Adding cluster to SM" ;;;
  added <- call (Call_AddCluster toAdd)
             (fun now => ClustersClient.AddCluster (Manager.clusterClient m) now toAdd) ;;
  match added with
  | Err err => ret (Err (ToDerror err))
  | Ok clusterAdded =>
    err <- updateClusterState organizationID (Cluster.ClusterId clusterAdded) clusterState ;;
    match err with
    | Some err => ret (Err (ToDerror err))
    | None =>
      (* add and attach nodes *)
      attErr <- attachNodes requestID organizationID (Cluster.ClusterId clusterAdded) cluster ;;
      match attErr with
      | Some attErr => ret (Err attErr)
      | None =>
        let clusterID :=
          ClusterId.mk (Cluster.OrganizationId clusterAdded) (Cluster.ClusterId clusterAdded) in
        got <- call (Call_GetCluster clusterID)
                 (fun now => ClustersClient.GetCluster (Manager.clusterClient m) now clusterID) ;;
        match got with
        | Err err => ret (Err (ToDerror err))
        | Ok result => ret (Ok result)
        end
      end
    end
  end.

Definition removeClusterFromSM (requestId organizationId clusterId : string)
  : M (option Error) :=
  let cID := ClusterId.mk organizationId clusterId in
  listed <- call (Call_ListNodes cID)
              (fun now => NodesClient.ListNodes (Manager.nodesClient m) now cID) ;;
  match listed with
  | Err err => ret (Some (ToDerror err))
  | Ok nodeList =>
    removed <-
      (if Nat.ltb 0 (length (NodeList.Nodes nodeList)) then
         let nodesToRemove := map Node.NodeId (NodeList.Nodes nodeList) in
         let req := RemoveNodesRequest.mk requestId organizationId nodesToRemove in
         r <- call (Call_RemoveNodes req)
                (fun now => NodesClient.RemoveNodes (Manager.nodesClient m) now req) ;;
         match r with
         | Err err => ret (Some (ToDerror err))
         | Ok _ => ret None
         end
       else ret None) ;;
    match removed with
    | Some err => ret (Some err)
    | None =>
      let removeClusterRequest :=
        RemoveClusterRequest.mk requestId organizationId clusterId in
      log LevelDebug "Removing cluster from SM" ;;;
      r <- call (Call_RemoveCluster removeClusterRequest)
             (fun now => ClustersClient.RemoveCluster (Manager.clusterClient m) now
                           removeClusterRequest) ;;
      match r with
      | Err err => ret (Some (ToDerror err))
      | Ok _ => ret None
      end
    end
  end.

(** [defer os.Remove( *tempFile)] is reached before [err] is inspected:
    when [writeTempFile] fails, [tempFile] is nil and evaluating the
    argument of the deferred call panics.  Otherwise the file is removed
    on every way out of the function; the result of [os.Remove] is
    dropped. *)
Definition discoverCluster (requestID kubeConfig hostname : string)
  : M (Result entities.Cluster.t) :=
  tmp <- writeTempFile kubeConfig requestID ;;
  match tmp with
  | Err _ => panic
  | Ok tempFile =>
    res <-
      (conn <- call (Call_Connect tempFile)
                 (fun now => host.Connect (Manager.os m) now tempFile) ;;
       match conn with
       | Some err => ret (Err err)
       | None =>
         disc <- call (Call_Discover tempFile)
                   (fun now => host.Discover (Manager.os m) now tempFile) ;;
         match disc with
         | Err err => ret (Err err)
         | Ok discovered =>
           let discovered := entities.Cluster.set_Hostname discovered hostname in
           log LevelDebug "cluster has been discovered" ;;;
           ret (Ok discovered)
         end
       end) ;;
    call (Call_FileRemove tempFile) (fun _ => tt) ;;;
    ret res
  end.

Definition getCluster (organizationID clusterID : string) : M (Result Cluster.t) :=
  log LevelDebug "Retrieving existing cluster" ;;;
  let request := ClusterId.mk organizationID clusterID in
  got <- call (Call_GetCluster request)
           (fun now => ClustersClient.GetCluster (Manager.clusterClient m) now request) ;;
  match got with
  | Err err => ret (Err (ToDerror err))
  | Ok retrieved => ret (Ok retrieved)
  end.

(** Both branches assign a cluster that came with a nil error, so the
    closing test [result == nil] of the Go function never fires. *)
Definition getOrCreateProvisionedCluster (installRequest : InstallRequest.t)
  : M (Result Cluster.t) :=
  res <-
    (if is_empty (InstallRequest.ClusterId installRequest) then
       log LevelDebug "Discovering cluster" ;;;
       d <- discoverCluster (InstallRequest.RequestId installRequest)
                            (InstallRequest.KubeConfigRaw installRequest)
                            (InstallRequest.Hostname installRequest) ;;
       match d with
       | Err err => ret (Err err)
       | Ok discovered =>
         addClusterToSM (InstallRequest.RequestId installRequest)
                        (InstallRequest.OrganizationId installRequest)
                        discovered ClusterState_PROVISIONED
       end
     else
       r <- getCluster (InstallRequest.OrganizationId installRequest)
                       (InstallRequest.ClusterId installRequest) ;;
       match r with
       | Err err => ret (Err (ToDerror err))
       | Ok retrieved => ret (Ok retrieved)
       end) ;;
  match res with
  | Err err => ret (Err err)
  | Ok result =>
    log LevelDebug "target cluster found" ;;;
    ret (Ok result)
  end.

Definition UpdateCluster (request : UpdateClusterRequest.t) : M (Result Cluster.t) :=
  (* update system model *)
  upd <- call (Call_UpdateCluster request)
           (fun now => ClustersClient.UpdateCluster (Manager.clusterClient m) now request) ;;
  match upd with
  | Err updateErr => ret (Err updateErr)
  | Ok updateResult =>
    (* if correct send it to the bus *)
    errBus <- call (Call_SendEvents (bus.UpdateClusterEvent request))
                (fun now => bus.BusManager.SendEvents (Manager.busManager m) now
                              (bus.UpdateClusterEvent request)) ;;
    match errBus with
    | Some errBus =>
      log LevelError "error in the bus when sending an update cluster request" ;;;
      ret (Err errBus)
    | None => ret (Ok updateResult)
    end
  end.

Definition InstallCluster (request : InstallRequest.t) : M (Result OpResponse.t) :=
  log LevelDebug "InstallCluster" ;;;
  got <- getOrCreateProvisionedCluster request ;;
  match got with
  | Err err => ret (Err (ToGRPCError err))
  | Ok cluster =>
    if InstallRequest.InstallBaseSystem request
    then ret (Err (NewUnimplementedError "InstallBaseSystem not supported"))
    else
      let request := InstallRequest.set_ClusterId request (Cluster.ClusterId cluster) in
      if negb (ClusterState_eqb (Cluster.State cluster) ClusterState_PROVISIONED)
      then ret (Err (NewInvalidArgumentError "selected cluster is not ready for install"))
      else
        err <- updateClusterState (InstallRequest.OrganizationId request)
                                  (InstallRequest.ClusterId request)
                                  ClusterState_INSTALL_IN_PROGRESS ;;
        match err with
        | Some err =>
          log LevelError "cannot update cluster state" ;;;
          ret (Err err)
        | None =>
          log LevelDebug "installing cluster" ;;;
          resp <- call (Call_InstallCluster request)
                    (fun now => InstallerClient.InstallCluster
                                  (Manager.installerClient m) now request) ;;
          match resp with
          | Err iErr => ret (Err iErr)
          | Ok response =>
            log LevelDebug "cluster is being installed" ;;;
            let mon :=
              Monitor.mk (InstallerMonitor (InstallRequest.ClusterId request) response)
                         [Ref_installCallback] None true in
            launch mon ;;;
            ret (Ok response)
          end
        end
  end.

Definition ProvisionAndInstallCluster (provisionRequest : ProvisionClusterRequest.t)
  : M (Result ProvisionerResponse.t) :=
  log LevelDebug "ProvisionAndInstallCluster" ;;;
  let toAdd :=
    entities.Cluster.mk (ProvisionClusterRequest.ClusterName provisionRequest) "" ""
                        (ProvisionClusterRequest.KubernetesVersion provisionRequest) [] in
  added <- addClusterToSM (ProvisionClusterRequest.RequestId provisionRequest)
                          (ProvisionClusterRequest.OrganizationId provisionRequest)
                          toAdd ClusterState_PROVISIONING ;;
  match added with
  | Err err => ret (Err (ToGRPCError err))
  | Ok cluster =>
    let provisionRequest :=
      ProvisionClusterRequest.set_ClusterId provisionRequest (Cluster.ClusterId cluster) in
    log LevelDebug "provisioning cluster" ;;;
    resp <- call (Call_ProvisionCluster provisionRequest)
              (fun now => ProvisionClient.ProvisionCluster
                            (Manager.provisionerClient m) now provisionRequest) ;;
    match resp with
    | Err pErr => ret (Err pErr)
    | Ok provisionerResponse =>
      log LevelDebug "cluster is being provisioned" ;;;
      let provisionResponse :=
        ProvisionerResponse.mk
          (ProvisionClusterResponse.RequestId provisionerResponse)
          (ProvisionClusterRequest.OrganizationId provisionRequest)
          (ProvisionClusterRequest.ClusterId provisionRequest)
          (ProvisionClusterResponse.State provisionerResponse)
          (ProvisionClusterResponse.Error provisionerResponse) in
      let mon :=
        Monitor.mk (ProvisionerMonitor provisionResponse)
                   [Ref_provisionCallback] None true in
      launch mon ;;;
      ret (Ok provisionResponse)
    end
  end.

Definition provisionCallback (requestID organizationID clusterID : string)
           (lastResponse : option ProvisionClusterResponse.t) (err : option Error)
  : M unit :=
  log LevelDebug "provisioner callback received" ;;;
  log_if err LevelError "error callback received" ;;;
  match lastResponse with
  | None => ret tt
  | Some lastResponse =>
    let newState := ClusterState_PROVISIONED in
    let failed := is_some err || is_ERROR (ProvisionClusterResponse.State lastResponse) in
    let newState := if failed then ClusterState_FAILURE else newState in
    (if failed then log LevelWarn "Provision failed" else ret tt) ;;;
    err <- updateClusterState organizationID clusterID newState ;;
    match err with
    | Some _ => log LevelError "unable to update cluster state after provision"
    | None =>
      if ClusterState_eqb newState ClusterState_FAILURE
      then
        (* The provisioning operation failed, so we should not continue with the install *)
        log LevelError "install will not be triggered as provisioning failed"
      else
        disc <- discoverCluster requestID
                                (ProvisionClusterResponse.RawKubeConfig lastResponse)
                                (ProvisionClusterResponse.Hostname lastResponse) ;;
        match disc with
        | Err _ => log LevelError "unable to discover cluster"
        | Ok discovered =>
          let clusterUpdate :=
            UpdateClusterRequest.mk organizationID clusterID false None
              true (ProvisionClusterResponse.Hostname lastResponse)
              true (entities.Cluster.ControlPlaneHostname discovered)
              false [] in
          upd <- UpdateCluster clusterUpdate ;;
          (match upd with
           | Err _ => log LevelError "error updating discovered cluster"
           | Ok _ => ret tt
           end) ;;;
          (* create the nodes and attach the to the cluster *)
          attErr <- attachNodes requestID organizationID clusterID discovered ;;
          log_if attErr LevelError "error attaching nodes" ;;;
          let installRequest :=
            InstallRequest.mk requestID organizationID clusterID
              ClusterType_KUBERNETES false
              (ProvisionClusterResponse.RawKubeConfig lastResponse)
              (ProvisionClusterResponse.Hostname lastResponse)
              "" "" []
              Platform_AZURE
              (ProvisionClusterResponse.StaticIpAddresses lastResponse) in
          ic <- InstallCluster installRequest ;;
          match ic with
          | Err _ => log LevelError "error creating install request after provisioning"
          | Ok _ => ret tt
          end
        end
    end
  end.

(** The [range nodes.Nodes] loop of [installCallback]; [false] when the
    loop returns from the callback at a failed update. *)
Fixpoint installCallback_loop (organizationID : string) (status : OpStatus)
         (nodes : list Node.t) : M bool :=
  match nodes with
  | [] => ret true
  | n :: rest =>
    let updateNodeRequest :=
      UpdateNodeRequest.mk organizationID (Node.NodeId n) true (Node.Status n)
                           true (OpStatusToNodeState status) false [] in
    upd <- call (Call_UpdateNode updateNodeRequest)
             (fun now => NodesClient.UpdateNode (Manager.nodesClient m) now
                           updateNodeRequest) ;;
    match upd with
    | Err _ =>
      log LevelError "cannot update the node status" ;;;
      ret false
    | Ok _ =>
      log LevelDebug "Node status updated" ;;;
      installCallback_loop organizationID status rest
    end
  end.

Definition installCallback (requestID organizationID clusterID : string)
           (response : option OpResponse.t) (err : option Error) : M unit :=
  log LevelDebug "installer callback received for install operation" ;;;
  log_if err LevelError "error callback received" ;;;
  match response with
  | None => ret tt
  | Some response =>
    let newState := ClusterState_INSTALLED in
    let failed := is_some err || is_FAILED (OpResponse.Status response) in
    let newState := if failed then ClusterState_FAILURE else newState in
    (if failed then log LevelWarn "installation failed" else ret tt) ;;;
    err <- updateClusterState organizationID clusterID newState ;;
    log_if err LevelError "unable to update cluster state after install" ;;;
    (* Get the list of nodes, and updates the nodes. *)
    let cID := ClusterId.mk organizationID clusterID in
    listed <- call (Call_ListNodes cID)
                (fun now => NodesClient.ListNodes (Manager.nodesClient m) now cID) ;;
    match listed with
    | Err _ =>
      log LevelError "cannot obtain the list of nodes in the cluster on install callback"
    | Ok nodes =>
      finished <- installCallback_loop organizationID (OpResponse.Status response)
                                       (NodeList.Nodes nodes) ;;
      if finished then log LevelDebug "cluster has been installed" else ret tt
    end
  end.

Definition Scale (request : ScaleClusterRequest.t) : M (Result ProvisionerResponse.t) :=
  log LevelDebug "Scale request" ;;;
  (* Get the cluster and check the current state *)
  got <- getCluster (ScaleClusterRequest.OrganizationId request)
                    (ScaleClusterRequest.ClusterId request) ;;
  match got with
  | Err err => ret (Err err)
  | Ok retrieved =>
    if negb (ClusterState_eqb (Cluster.State retrieved) ClusterState_INSTALLED)
    then ret (Err (NewFailedPreconditionError "cluster should be on installed state"))
    else
      (* Update the state to scaling *)
      err <- updateClusterState (ScaleClusterRequest.OrganizationId request)
                                (ScaleClusterRequest.ClusterId request)
                                ClusterState_SCALING ;;
      match err with
      | Some err => ret (Err err)
      | None =>
        (* Send the request to the provisioner component *)
        resp <- call (Call_ScaleCluster request)
                  (fun now => ScaleClient.ScaleCluster (Manager.scalerClient m) now request) ;;
        match resp with
        | Err pErr =>
          (* Update the state to error *)
          err <- updateClusterState (ScaleClusterRequest.OrganizationId request)
                                    (ScaleClusterRequest.ClusterId request)
                                    ClusterState_FAILURE ;;
          log_if err LevelError "cannot update failed cluster scale" ;;;
          ret (Err (ToDerror pErr))
        | Ok provisionerResponse =>
          log LevelDebug "cluster is being scaled" ;;;
          let provisionResponse :=
            ProvisionerResponse.mk
              (ScaleClusterResponse.RequestId provisionerResponse)
              (ScaleClusterRequest.OrganizationId request)
              (ScaleClusterRequest.ClusterId request)
              (ScaleClusterResponse.State provisionerResponse)
              (ScaleClusterResponse.Error provisionerResponse) in
          let mon :=
            Monitor.mk (ScalerMonitor provisionResponse) [Ref_scaleCallback] None true in
          launch mon ;;;
          ret (Ok provisionResponse)
        end
      end
  end.

Definition scaleCallback (requestID organizationID clusterID : string)
           (lastResponse : option ScaleClusterResponse.t) (err : option Error) : M unit :=
  log LevelDebug "scaler callback received" ;;;
  log_if err LevelError "error callback received" ;;;
  match lastResponse with
  | None => ret tt
  | Some lastResponse =>
    let newState := ClusterState_INSTALLED in
    let failed := is_some err || is_ERROR (ScaleClusterResponse.State lastResponse) in
    let newState := if failed then ClusterState_FAILURE else newState in
    (if failed then log LevelWarn "Scaling failed" else ret tt) ;;;
    err <- updateClusterState organizationID clusterID newState ;;
    log_if err LevelError "unable to update cluster state after scale"
  end.

Definition GetCluster (clusterID : ClusterId.t) : M (Result Cluster.t) :=
  call (Call_GetCluster clusterID)
       (fun now => ClustersClient.GetCluster (Manager.clusterClient m) now clusterID).

Definition ListClusters (organizationID : OrganizationId.t) : M (Result (list Cluster.t)) :=
  call (Call_ListClusters organizationID)
       (fun now => ClustersClient.ListClusters (Manager.clusterClient m) now organizationID).

Definition DrainCluster (clusterID : ClusterId.t) : M (Result Success) :=
  (* Check this cluster is cordoned *)
  got <- call (Call_GetCluster clusterID)
           (fun now => ClustersClient.GetCluster (Manager.clusterClient m) now clusterID) ;;
  match got with
  | Err err => ret (Err err)
  | Ok targetCluster =>
    log LevelDebug "cluster status" ;;;
    if negb (ClusterStatus_eqb (Cluster.ClusterStatus targetCluster)
                               ClusterStatus_OFFLINE_CORDON)
       && negb (ClusterStatus_eqb (Cluster.ClusterStatus targetCluster)
                                  ClusterStatus_ONLINE_CORDON)
    then
      ret (Err (NewGenericError
                  ("cluster " ++ Cluster.ClusterId targetCluster
                              ++ " must be cordoned before draining")))
    else
      (* send drain operation to the common bus *)
      let msg := DrainClusterRequest.mk clusterID in
      err <- call (Call_SendOps msg)
               (fun now => bus.BusManager.SendOps (Manager.busManager m) now msg) ;;
      match err with
      | Some err =>
        log LevelError "error in the bus when sending a drain cluster request" ;;;
        ret (Err err)
      | None => ret (Ok mkSuccess)
      end
  end.

Definition CordonCluster (clusterID : ClusterId.t) : M (Result Success) :=
  res <- call (Call_CordonCluster clusterID)
           (fun now => ClustersClient.CordonCluster (Manager.clusterClient m) now clusterID) ;;
  let ev := bus.SetClusterStatusEvent (SetClusterStatusRequest.mk clusterID true) in
  errBus <- call (Call_SendEvents ev)
              (fun now => bus.BusManager.SendEvents (Manager.busManager m) now ev) ;;
  log_if errBus LevelError "error sending set cluster request to queue" ;;;
  ret res.

Definition UncordonCluster (clusterID : ClusterId.t) : M (Result Success) :=
  res <- call (Call_UncordonCluster clusterID)
           (fun now => ClustersClient.UncordonCluster (Manager.clusterClient m) now clusterID) ;;
  let ev := bus.SetClusterStatusEvent (SetClusterStatusRequest.mk clusterID false) in
  errBus <- call (Call_SendEvents ev)
              (fun now => bus.BusManager.SendEvents (Manager.busManager m) now ev) ;;
  log_if errBus LevelError "error sending set cluster request to queue" ;;;
  ret res.

Definition RemoveCluster (removeClusterRequest : RemoveClusterRequest.t)
  : M (Result Success) :=
  ret (Err (NewUnimplementedError "RemoveCluster is not implemented yet")).

Definition UpdateNode (request : UpdateNodeRequest.t) : M (Result Node.t) :=
  upd <- call (Call_UpdateNode request)
           (fun now => NodesClient.UpdateNode (Manager.nodesClient m) now request) ;;
  match upd with
  | Err err => ret (Err err)
  | Ok updated =>
    log LevelWarn "node labels have not been updated in kubernetes" ;;;
    ret (Ok updated)
  end.

Definition ListNodes (clusterID : ClusterId.t) : M (Result NodeList.t) :=
  call (Call_ListNodes clusterID)
       (fun now => NodesClient.ListNodes (Manager.nodesClient m) now clusterID).

Definition RemoveNodes (removeNodesRequest : RemoveNodesRequest.t) : M (Result Success) :=
  ret (Err (NewUnimplementedError "RemoveNodes is not implemented yet")).

(** The three nested [range] loops of [clusterHasApps], which return
    [true] at the first service instance of the cluster. *)
Definition deployed_on (organizationID clusterID : string)
           (instances : AppInstanceList.t) : bool :=
  existsb (fun inst =>
    existsb (fun sg =>
      existsb (fun s =>
        String.eqb (ServiceInstance.OrganizationId s) organizationID
        && String.eqb (ServiceInstance.DeployedOnClusterId s) clusterID)
        (ServiceGroupInstance.ServiceInstances sg))
      (AppInstance.Groups inst))
    (AppInstanceList.Instances instances).

Definition clusterHasApps (organizationID clusterID : string) : M (Result bool) :=
  let orgID := OrganizationId.mk organizationID in
  listed <- call (Call_ListAppInstances orgID)
              (fun now => ApplicationsClient.ListAppInstances (Manager.appClient m) now orgID) ;;
  match listed with
  | Err err => ret (Err (ToDerror err))
  | Ok instances => ret (Ok (deployed_on organizationID clusterID instances))
  end.

Definition canUninstallCluster (organizationID clusterID : string) : M (option Error) :=
  let cID := ClusterId.mk organizationID clusterID in
  got <- call (Call_GetCluster cID)
           (fun now => ClustersClient.GetCluster (Manager.clusterClient m) now cID) ;;
  match got with
  | Err err => ret (Some (ToDerror err))
  | Ok cluster =>
    (* Check if the cluster has applications deployed on it *)
    apps <- clusterHasApps organizationID clusterID ;;
    match apps with
    | Err hErr => ret (Some hErr)
    | Ok hasApps =>
      if hasApps
      then ret (Some (NewFailedPreconditionError "target cluster has deployed applications"))
      else if negb (ClusterStatus_eqb (Cluster.ClusterStatus cluster)
                                      ClusterStatus_ONLINE_CORDON)
      then ret (Some (NewFailedPreconditionError
                        "target cluster must be online and cordoned"))
      else ret None
    end
  end.

Definition Uninstall (request : UninstallClusterRequest.t)
           (decommissionCallback : option DecommissionCallback.t)
  : M (Result OpResponse.t) :=
  log LevelDebug "Uninstall request" ;;;
  canUninstallErr <- canUninstallCluster (UninstallClusterRequest.OrganizationId request)
                                         (UninstallClusterRequest.ClusterId request) ;;
  match canUninstallErr with
  | Some canUninstallErr => ret (Err canUninstallErr)
  | None =>
    (* The cluster can be uninstalled, update its state *)
    err <- updateClusterState (UninstallClusterRequest.OrganizationId request)
                              (UninstallClusterRequest.ClusterId request)
                              ClusterState_UNINSTALLING ;;
    match err with
    | Some err => ret (Err err)
    | None =>
      (* Send the request to the provisioner component *)
      resp <- call (Call_UninstallCluster request)
                (fun now => InstallerClient.UninstallCluster
                              (Manager.installerClient m) now request) ;;
      match resp with
      | Err uErr =>
        (* Update the state to error *)
        err <- updateClusterState (UninstallClusterRequest.OrganizationId request)
                                  (UninstallClusterRequest.ClusterId request)
                                  ClusterState_FAILURE ;;
        log_if err LevelError "cannot update failed cluster uninstall" ;;;
        ret (Err (ToDerror uErr))
      | Ok response =>
        log LevelDebug "cluster is uninstalling" ;;;
        let mon :=
          Monitor.mk (InstallerMonitor (UninstallClusterRequest.ClusterId request) response)
                     [Ref_uninstallCallback] decommissionCallback true in
        launch mon ;;;
        ret (Ok response)
      end
    end
  end.

Definition uninstallCallback (requestID organizationID clusterID : string)
           (response : option OpResponse.t) (err : option Error) : M unit :=
  log LevelDebug "installer callback received for uninstall operation" ;;;
  log_if err LevelError "error callback received" ;;;
  match response with
  | None => ret tt
  | Some response =>
    let newState := ClusterState_PROVISIONED in
    let failed := is_some err || is_FAILED (OpResponse.Status response) in
    let newState := if failed then ClusterState_FAILURE else newState in
    (if failed then log LevelWarn "uninstall failed" else ret tt) ;;;
    err <- updateClusterState organizationID clusterID newState ;;
    log_if err LevelError "unable to update cluster state after uninstall" ;;;
    log LevelDebug "cluster has been uninstalled"
  end.

Definition decommissionCallback (clusterID : string) (lastResponse : option OpResponse.t)
           (err : option Error) : M unit :=
  (* GetRequestId and GetOrganizationId answer the empty string on a nil response *)
  let requestId := match lastResponse with
                   | Some r => OpResponse.RequestId r | None => "" end in
  let organizationId := match lastResponse with
                        | Some r => OpResponse.OrganizationId r | None => "" end in
  err <- removeClusterFromSM requestId organizationId clusterID ;;
  log_if err LevelError "could not remove cluster from SM".

(** [mon.LaunchMonitor()] is called here without [go]. *)
Definition Decommission (request : DecommissionClusterRequest.t) : M unit :=
  let decommissionRequest :=
    DecommissionClusterRequest.mk
      (DecommissionClusterRequest.RequestId request)
      (DecommissionClusterRequest.OrganizationId request)
      (DecommissionClusterRequest.ClusterId request)
      (DecommissionClusterRequest.ClusterType request)
      (DecommissionClusterRequest.IsManagementCluster request)
      (DecommissionClusterRequest.TargetPlatform request)
      (DecommissionClusterRequest.AzureCredentials request)
      (DecommissionClusterRequest.AzureOptions request) in
  resp <- call (Call_DecommissionCluster decommissionRequest)
            (fun now => DecommissionClient.DecommissionCluster
                          (Manager.decommissionClient m) now decommissionRequest) ;;
  match resp with
  | Err _ => log LevelError "unable to decommission cluster"
  | Ok _ =>
    let mon :=
      Monitor.mk (DecommissionerMonitor (DecommissionClusterRequest.ClusterId request)
                                        (DecommissionClusterRequest.RequestId request))
                 [Ref_decommissionCallback] None false in
    launch mon
  end.

Definition UninstallAndDecommissionCluster (request : DecommissionClusterRequest.t)
  : M (Result OpResponse.t) :=
  (* Retrieve the kubeconfig from provisioner *)
  let clusterRequest :=
    ClusterRequest.mk
      (DecommissionClusterRequest.RequestId request)
      (DecommissionClusterRequest.OrganizationId request)
      (DecommissionClusterRequest.ClusterId request)
      (DecommissionClusterRequest.ClusterType request)
      (DecommissionClusterRequest.IsManagementCluster request)
      (DecommissionClusterRequest.TargetPlatform request)
      (DecommissionClusterRequest.AzureCredentials request)
      (DecommissionClusterRequest.AzureOptions request) in
  kube <- call (Call_GetKubeConfig clusterRequest)
            (fun now => ManagementClient.GetKubeConfig
                          (Manager.managementClient m) now clusterRequest) ;;
  match kube with
  | Err err =>
    let derr := ToDerror err in
    log LevelError "unable to get kubeconfig from cluster" ;;;
    ret (Err derr)
  | Ok kubeConfigResponse =>
    (* Trigger uninstall *)
    let uninstallRequest :=
      UninstallClusterRequest.mk
        (DecommissionClusterRequest.RequestId request)
        (DecommissionClusterRequest.OrganizationId request)
        (DecommissionClusterRequest.ClusterId request)
        (DecommissionClusterRequest.ClusterType request)
        (KubeConfigResponse.RawKubeConfig kubeConfigResponse)
        (DecommissionClusterRequest.TargetPlatform request) in
    un <- Uninstall uninstallRequest (Some (DecommissionCallback.mk request)) ;;
    match un with
    | Err derr =>
      log LevelError "unable to uninstall cluster" ;;;
      ret (Err derr)
    | Ok response => ret (Ok response)
    end
  end.

Definition removeClusterNodes (requestID organizationID clusterID : string)
  : M (option Error) :=
  let cID := ClusterId.mk organizationID clusterID in
  (* Get all nodes to obtain the ids *)
  listed <- call (Call_ListNodes cID)
              (fun now => NodesClient.ListNodes (Manager.nodesClient m) now cID) ;;
  match listed with
  | Err nErr =>
    let toDerr := ToDerror nErr in
    log LevelError "cannot obtain the list of nodes in the cluster" ;;;
    ret (Some toDerr)
  | Ok nodes =>
    let nodeIds := map Node.NodeId (NodeList.Nodes nodes) in
    (* Remove cluster nodes *)
    let removeRequest := RemoveNodesRequest.mk requestID organizationID nodeIds in
    r <- call (Call_RemoveNodes removeRequest)
           (fun now => NodesClient.RemoveNodes (Manager.nodesClient m) now removeRequest) ;;
    match r with
    | Err err => ret (Some (ToDerror err))
    | Ok _ => ret None
    end
  end.

(** Modelled from the spec: how the installer-operation monitor, whose
    code (internal/pkg/monitor) is not among the sources, invokes one
    registered callback.  Spec 4.3: a callback is passed the request id,
    organization id, cluster id, the final response and the error value.
    Only [installCallback] and [uninstallCallback] have the type of an
    installer callback. *)
Definition run_installer_callback (cb : Callback)
           (requestID organizationID clusterID : string)
           (response : option OpResponse.t) (err : option Error) : M unit :=
  match cb with
  | Ref_installCallback => installCallback requestID organizationID clusterID response err
  | Ref_uninstallCallback => uninstallCallback requestID organizationID clusterID response err
  | _ => ret tt
  end.

(** Modelled from the spec: the monitor package is not among the sources.
    Spec 4.3: once a terminal outcome is observed the monitor invokes
    every registered callback exactly once, in registration order. *)
Fixpoint run_installer_callbacks (cbs : list Callback)
         (requestID organizationID clusterID : string)
         (response : option OpResponse.t) (err : option Error) : M unit :=
  match cbs with
  | [] => ret tt
  | cb :: rest =>
    run_installer_callback cb requestID organizationID clusterID response err ;;;
    run_installer_callbacks rest requestID organizationID clusterID response err
  end.

(** Modelled from the spec: when a completion of the installer-operation
    monitor is a successful one; the monitor package is not among the
    sources.  Spec 4.3: the monitor passes on the final response and an
    error value that is non-nil only if the watch itself failed, as opposed
    to the operation completing with a logical error state.  A completion
    is successful when there is a final response, the watch did not fail and
    the operation did not end in its error state. *)
Definition completed_successfully (response : option OpResponse.t) (err : option Error)
  : bool :=
  match response with
  | Some final => negb (is_some err || is_FAILED (OpResponse.Status final))
  | None => false
  end.

(** Modelled from the spec: the completion step of the installer-operation
    monitor launched by [Uninstall]; the monitor package is not among the
    sources.  Spec 4.3: at the terminal outcome the monitor invokes every
    registered callback exactly once, in registration order.  Spec 3 and 8:
    the decommission chain token carries the decommission request through
    the uninstall so that, upon successful uninstall completion,
    decommissioning is triggered, with the decommission request issued
    exactly once.  Spec 4.2: only if a decommission chain token was
    supplied. *)
Definition InstallerMonitor_complete (mon : Monitor.t)
           (requestID organizationID clusterID : string)
           (response : option OpResponse.t) (err : option Error) : M unit :=
  run_installer_callbacks (Monitor.callbacks mon)
                          requestID organizationID clusterID response err ;;;
  if completed_successfully response err
  then match Monitor.decommissionCallback mon with
       | Some token => Decommission (DecommissionCallback.Request token)
       | None => ret tt
       end
  else ret tt.

End Methods.

End infrastructure.

(* ===================================================================== *)
(** * Vocabulary of the statements *)
(* ===================================================================== *)

Module observe.
Import effects grpc_infrastructure_go grpc_installer_go grpc_provisioner_go
       grpc_common_go grpc_application_go grpc_organization_go.

(** What a run added to the world it started from. *)
Definition new_calls (before after : World) : list Call :=
  skipn (length (calls before)) (calls after).
Definition new_logs (before after : World) : list (Level * string) :=
  skipn (length (logs before)) (logs after).
Definition new_monitors (before after : World) : list Monitor.t :=
  skipn (length (launched before)) (launched after).

(** The time at which the next call of a run will be answered. *)
Definition now (w : World) : nat := length (calls w).

(** The request by which the manager writes a lifecycle state. *)
Definition state_update (organizationID clusterID : string) (s : ClusterState)
  : UpdateClusterRequest.t :=
  UpdateClusterRequest.mk organizationID clusterID true (Some s) false "" false "" false [].

(** The predicate that holds of every call. *)
Definition any_call (c : Call) : Prop := True.

Definition is_install_call (c : Call) : bool :=
  match c with Call_InstallCluster _ => true | _ => false end.



(** Whether [InstallCluster] was entered: it opens with this log line, and
    nothing else writes it. *)
Definition InstallCluster_invoked (ls : list (Level * string)) : bool :=
  existsb (fun l => match fst l with
                    | LevelDebug => String.eqb (snd l) "InstallCluster"
                    | _ => false
                    end) ls.

(** The install request is the one of this provisioning. *)
Definition install_of (requestID organizationID : string)
           (response : ProvisionClusterResponse.t) (c : Call) : Prop :=
  match c with
  | Call_InstallCluster r =>
    InstallRequest.RequestId r = requestID
    /\ InstallRequest.OrganizationId r = organizationID
    /\ InstallRequest.KubeConfigRaw r = ProvisionClusterResponse.RawKubeConfig response
    /\ InstallRequest.Hostname r = ProvisionClusterResponse.Hostname response
    /\ InstallRequest.TargetPlatform r = Platform_AZURE
  | _ => True
  end.

(** Every install request among the calls goes to the platform [p]. *)
Definition installs_on (p : Platform) (c : Call) : Prop :=
  match c with
  | Call_InstallCluster r => InstallRequest.TargetPlatform r = p
  | _ => True
  end.

(** The outcome a provisioner or scaler callback reads off its arguments. *)
Definition provision_failed (state : ProvisionProgress) (err : option derrors.Error) : bool :=
  match err, state with
  | Some _, _ => true
  | None, ProvisionProgress_ERROR => true
  | None, ProvisionProgress_OTHER _ => false
  end.

(** The outcome an installer callback reads off its arguments. *)
Definition operation_failed (status : OpStatus) (err : option derrors.Error) : bool :=
  match err, status with
  | Some _, _ => true
  | None, OpStatus_FAILED => true
  | None, OpStatus_OTHER _ => false
  end.

(** Some service instance of the listing is deployed on the cluster. *)
Definition has_service_instance_on (organizationID clusterID : string)
           (apps : AppInstanceList.t) : Prop :=
  exists inst sg s,
    In inst (AppInstanceList.Instances apps)
    /\ In sg (AppInstance.Groups inst)
    /\ In s (ServiceGroupInstance.ServiceInstances sg)
    /\ ServiceInstance.OrganizationId s = organizationID
    /\ ServiceInstance.DeployedOnClusterId s = clusterID.

(** The two credential forms of an install request. *)
Definition kubeconfig_alone (r : InstallRequest.t) : Prop :=
  InstallRequest.KubeConfigRaw r <> ""
  /\ InstallRequest.Username r = ""
  /\ InstallRequest.PrivateKey r = ""
  /\ InstallRequest.Nodes r = [].

Definition username_with_key_and_nodes (r : InstallRequest.t) : Prop :=
  InstallRequest.Username r <> ""
  /\ InstallRequest.PrivateKey r <> ""
  /\ InstallRequest.Nodes r <> [].

Definition rejected_as_invalid (o : option derrors.Error) : Prop :=
  exists msg, o = Some (derrors.NewInvalidArgumentError msg).

(** A call is answered at the current time and moves the time by one. *)
Definition record (c : Call) (w : World) : World :=
  mkWorld (calls w ++ [c]) (logs w) (launched w).

Definition write_log (l : Level) (msg : string) (w : World) : World :=
  mkWorld (calls w) (logs w ++ [(l, msg)]) (launched w).

(** [w'] extends [w] by the calls [dc], the log lines [dl] and the monitors
    [dm]. *)
Definition extends_by (w w' : World) (dc : list Call) (dl : list (Level * string))
           (dm : list Monitor.t) : Prop :=
  (calls w' = calls w ++ dc)%list
  /\ (logs w' = logs w ++ dl)%list
  /\ (launched w' = launched w ++ dm)%list.

(** A computation all of whose runs only add to the world, and add only
    calls that satisfy [P]. *)
Definition emits {A} (P : Call -> Prop) (c : M A) : Prop :=
  forall w, exists dc dl dm, extends_by w (exec c w) dc dl dm /\ Forall P dc.

(** A computation that never panics. *)
Definition returns {A} (c : M A) : Prop :=
  forall w, exists a, result c w = Done a.


(** A call that writes a lifecycle state writes one of the [allowed]
    states; any other call passes. *)
Definition writes_only (allowed : list ClusterState) (c : Call) : Prop :=
  match c with
  | Call_UpdateCluster r =>
    UpdateClusterRequest.UpdateClusterState r = true ->
    exists s, UpdateClusterRequest.State r = Some s /\ In s allowed
  | _ => True
  end.

(** The calls that take a cluster or its nodes out of the system model. *)
Definition is_removal (c : Call) : bool :=
  match c with
  | Call_RemoveCluster _ | Call_RemoveNodes _ => true
  | _ => false
  end.

Definition keeps_the_inventory (c : Call) : Prop := is_removal c = false.

Definition not_an_install (c : Call) : Prop := is_install_call c = false.

Definition is_file_remove (c : Call) : bool :=
  match c with Call_FileRemove _ => true | _ => false end.


(** The request that registers a discovered node. *)
Definition node_registration (requestID organizationID : string) (n : entities.Node.t)
  : AddNodeRequest.t :=
  AddNodeRequest.mk requestID organizationID (entities.Node.IP n) (entities.Node.Labels n).

(** [trace] registers and attaches each of [nodes], in order, from time [t]
    on: an [AddNode] that the registry answers with a node, followed by the
    [AttachNode] of the id of that node to the cluster. *)
Fixpoint attached (client : NodesClient.t) (requestID organizationID clusterID : string)
         (t : nat) (nodes : list entities.Node.t) (trace : list Call) : Prop :=
  match nodes with
  | [] => trace = []
  | n :: rest =>
    exists addedNode tail,
      NodesClient.AddNode client t (node_registration requestID organizationID n)
      = Ok addedNode
      /\ trace
         = (Call_AddNode (node_registration requestID organizationID n)
              :: Call_AttachNode (AttachNodeRequest.mk requestID organizationID clusterID
                                                       (Node.NodeId addedNode))
              :: tail)%list
      /\ attached client requestID organizationID clusterID (2 + t) rest tail
  end.

(** The request by which the install callback updates a node: the status
    is kept, the state follows the status of the operation. *)
Definition node_update (toState : OpStatus -> NodeState) (organizationID : string)
           (status : OpStatus) (n : Node.t) : UpdateNodeRequest.t :=
  UpdateNodeRequest.mk organizationID (Node.NodeId n) true (Node.Status n)
                       true (toState status) false [].

End observe.

(* ===================================================================== *)
(** * Concrete collaborators, for running the workflows *)
(* ===================================================================== *)

Module scenarios.
Import effects infrastructure.
Import grpc_infrastructure_go grpc_installer_go grpc_provisioner_go
       grpc_common_go grpc_organization_go grpc_connectivity_manager_go
       grpc_application_go.

Definition unavailable : derrors.Error := derrors.NewGenericError "unavailable".

Definition a_cluster (organizationID clusterID : string) (state : ClusterState)
           (status : ClusterStatus) : Cluster.t :=
  Cluster.mk organizationID clusterID "c1" "c1.example" "cp.c1.example" state status.

(** A registry whose clusters are all in [state] with connectivity
    [status], and that accepts every write. *)
Definition registry (state : ClusterState) (status : ClusterStatus) : ClustersClient.t :=
  ClustersClient.mk
    (fun _ r => Ok (a_cluster (AddClusterRequest.OrganizationId r) "c1" state status))
    (fun _ id => Ok (a_cluster (ClusterId.OrganizationId id) (ClusterId.ClusterId id)
                               state status))
    (fun _ _ => Ok [])
    (fun _ r => Ok (a_cluster (UpdateClusterRequest.OrganizationId r)
                              (UpdateClusterRequest.ClusterId r) state status))
    (fun _ _ => Ok mkSuccess)
    (fun _ _ => Ok mkSuccess)
    (fun _ _ => Ok mkSuccess).

(** A node registry in which every cluster has the two nodes n1 and n2. *)
Definition two_nodes : NodesClient.t :=
  NodesClient.mk
    (fun _ r => Ok (Node.mk (AddNodeRequest.OrganizationId r) "" "n0" 0%Z))
    (fun _ _ => Ok mkSuccess)
    (fun _ r => Ok (Node.mk (UpdateNodeRequest.OrganizationId r) ""
                            (UpdateNodeRequest.NodeId r) (UpdateNodeRequest.Status r)))
    (fun _ id => Ok (NodeList.mk
                       [Node.mk (ClusterId.OrganizationId id) (ClusterId.ClusterId id) "n1" 1%Z;
                        Node.mk (ClusterId.OrganizationId id) (ClusterId.ClusterId id) "n2" 1%Z]))
    (fun _ _ => Ok mkSuccess).

Definition in_progress (organizationID requestID : string) : OpResponse.t :=
  OpResponse.mk organizationID requestID (OpStatus_OTHER 1) "".

Definition installer : InstallerClient.t :=
  InstallerClient.mk
    (fun _ r => Ok (in_progress (InstallRequest.OrganizationId r) (InstallRequest.RequestId r)))
    (fun _ r => Ok (in_progress (UninstallClusterRequest.OrganizationId r)
                                (UninstallClusterRequest.RequestId r))).

Definition provisioner : ProvisionClient.t :=
  ProvisionClient.mk
    (fun _ r => Ok (ProvisionClusterResponse.mk (ProvisionClusterRequest.RequestId r)
                      (ProvisionProgress_OTHER 1) "" "" "" None)).

Definition scaler : ScaleClient.t :=
  ScaleClient.mk
    (fun _ r => Ok (ScaleClusterResponse.mk (ScaleClusterRequest.RequestId r)
                      (ProvisionProgress_OTHER 1) "")).

Definition management : ManagementClient.t :=
  ManagementClient.mk (fun _ _ => Ok (KubeConfigResponse.mk "kubeconfig")).

Definition decommissioner : DecommissionClient.t :=
  DecommissionClient.mk
    (fun _ r => Ok (in_progress (DecommissionClusterRequest.OrganizationId r)
                                (DecommissionClusterRequest.RequestId r))).

Definition inventory (apps : list AppInstance.t) : ApplicationsClient.t :=
  ApplicationsClient.mk (fun _ _ => Ok (AppInstanceList.mk apps)).

(** One application with one service instance, deployed where it says. *)
Definition an_app (organizationID clusterID : string) : AppInstance.t :=
  AppInstance.mk [ServiceGroupInstance.mk [ServiceInstance.mk organizationID clusterID]].

Definition event_bus (down : bool) : bus.BusManager.t :=
  bus.BusManager.mk
    (fun _ _ => if down then Some unavailable else None)
    (fun _ _ => if down then Some unavailable else None).

Definition discovered : entities.Cluster.t :=
  entities.Cluster.mk "c1" "" "cp.c1.example" "1.15"
                      [entities.Node.mk "10.0.0.4" []].

(** A host on which temporary files work; the cluster answers the
    discovery helper unless [unreachable]. *)
Definition a_host (unreachable : bool) : host.t :=
  host.mk
    (fun _ dir prefix => Ok (dir ++ "/" ++ prefix))
    (fun _ _ _ => None)
    (fun _ _ => None)
    (fun _ _ => if unreachable then Some unavailable else None)
    (fun _ _ => Ok discovered).

Definition manager (state : ClusterState) (status : ClusterStatus)
           (apps : list AppInstance.t) (busDown unreachable : bool) : Manager.t :=
  Manager.mk "/tmp/nalej" (registry state status) two_nodes installer provisioner
             scaler management decommissioner (inventory apps)
             (event_bus busDown) (a_host unreachable).

(** Every collaborator answers; clusters are provisioned, online and
    cordoned, and host no application. *)
Definition healthy : Manager.t :=
  manager ClusterState_PROVISIONED ClusterStatus_ONLINE_CORDON [] false false.

(** As [healthy], but the event bus refuses every message. *)
Definition bus_down : Manager.t :=
  manager ClusterState_PROVISIONED ClusterStatus_ONLINE_CORDON [] true false.

(** As [healthy], but the discovery helper cannot connect. *)
Definition undiscoverable : Manager.t :=
  manager ClusterState_PROVISIONED ClusterStatus_ONLINE_CORDON [] false true.

Definition node_state_of (s : OpStatus) : NodeState :=
  match s with OpStatus_FAILED => 2%Z | OpStatus_OTHER c => c end.

Definition provisioned_ok : ProvisionClusterResponse.t :=
  ProvisionClusterResponse.mk "r1" (ProvisionProgress_OTHER 2) "" "kubeconfig"
                              "c1.example" None.

Definition provisioned_error : ProvisionClusterResponse.t :=
  ProvisionClusterResponse.mk "r1" ProvisionProgress_ERROR "quota" "" "" None.

Definition finished_ok : OpResponse.t := OpResponse.mk "o1" "r1" (OpStatus_OTHER 2) "".
Definition finished_failed : OpResponse.t := OpResponse.mk "o1" "r1" OpStatus_FAILED "boom".

Definition valid_provision : ProvisionClusterRequest.t :=
  ProvisionClusterRequest.mk "r1" "o1" "" "c1" "1.15" 3 "std" false
    Platform_AZURE (Some (AzureCredentials.mk "secret"))
    (Some (AzureOptions.mk "rg")).

Definition uninstall_on_azure : UninstallClusterRequest.t :=
  UninstallClusterRequest.mk "" "o1" "c1" ClusterType_KUBERNETES "kubeconfig" Platform_AZURE.

Definition decommission_c1 : DecommissionClusterRequest.t :=
  DecommissionClusterRequest.mk "" "o1" "c1" ClusterType_KUBERNETES false
    Platform_AZURE (Some (AzureCredentials.mk "secret")) (Some (AzureOptions.mk "rg")).

(** A host on which no temporary file can be created. *)
Definition full_disk : host.t :=
  host.mk
    (fun _ _ _ => Err unavailable)
    (fun _ _ _ => None)
    (fun _ _ => None)
    (fun _ _ => None)
    (fun _ _ => Ok discovered).

(** As [healthy], but on a host whose disk is full. *)
Definition no_temp_files : Manager.t :=
  Manager.mk "/tmp/nalej" (registry ClusterState_PROVISIONED ClusterStatus_ONLINE_CORDON)
             two_nodes installer provisioner scaler management decommissioner
             (inventory []) (event_bus false) full_disk.

(** As [healthy], but every cluster is installed. *)
Definition installed : Manager.t :=
  manager ClusterState_INSTALLED ClusterStatus_ONLINE_CORDON [] false false.

Definition scale_c1 : ScaleClusterRequest.t :=
  ScaleClusterRequest.mk "" "o1" "c1" false Platform_AZURE
    (Some (AzureCredentials.mk "secret")) (Some (AzureOptions.mk "rg")).

(** An install request as [ValidInstallRequest] accepts it: the cluster is
    to be discovered from the kubeconfig. *)
Definition install_discovered : InstallRequest.t :=
  InstallRequest.mk "" "o1" "" ClusterType_KUBERNETES false "kubeconfig" "c1.example"
                    "" "" [] Platform_AZURE None.

Definition install_c1 : InstallRequest.t :=
  InstallRequest.mk "r1" "o1" "c1" ClusterType_KUBERNETES false "kubeconfig" "c1.example"
                    "" "" [] Platform_AZURE None.

End scenarios.

(* ===================================================================== *)
(** * Theorems *)
(* ===================================================================== *)

Local Open Scope list_scope.
Import derrors effects infrastructure observe.
Import grpc_infrastructure_go grpc_installer_go grpc_provisioner_go
       grpc_common_go grpc_organization_go grpc_connectivity_manager_go
       grpc_application_go.


(** ** Strings, lists and options *)

Lemma is_empty_true (s : string) : is_empty s = true <-> s = "".
Proof. destruct s; simpl; split; intro H; congruence. Qed.

Lemma is_empty_false (s : string) : is_empty s = false <-> s <> "".
Proof. destruct s; simpl; split; intro H; congruence. Qed.

(** ** The validators *)

Lemma invalid_argument_rejected (msg : string) :
  rejected_as_invalid (Some (NewInvalidArgumentError msg)).
Proof. exists msg. reflexivity. Qed.

Create HintDb validators.
#[local] Hint Resolve invalid_argument_rejected : validators.

(** Every error [ValidInstallRequest] returns is an invalid-argument error. *)
Lemma ValidInstallRequest_errors (r : InstallRequest.t) (e : Error) :
  entities.ValidInstallRequest r = Some e -> errType e = InvalidArgument.
Proof.
  unfold entities.ValidInstallRequest.
  repeat match goal with
         | |- context [if ?b then _ else _] => destruct b
         end;
    simpl; intro H; inversion H; reflexivity.
Qed.

Lemma ValidInstallRequest_rejects_as_invalid (r : InstallRequest.t) :
  entities.ValidInstallRequest r <> None ->
  rejected_as_invalid (entities.ValidInstallRequest r).
Proof.
  unfold entities.ValidInstallRequest.
  repeat match goal with
         | |- context [if ?b then _ else _] => destruct b
         end;
    simpl; intro H; try congruence; auto with validators.
Qed.

(** When [ValidInstallRequest] accepts. *)
Lemma ValidInstallRequest_accepts (r : InstallRequest.t) :
  entities.ValidInstallRequest r = None <->
  InstallRequest.OrganizationId r <> ""
  /\ InstallRequest.ClusterId r = ""
  /\ InstallRequest.RequestId r = ""
  /\ ((kubeconfig_alone r /\ ~ username_with_key_and_nodes r)
      \/ (username_with_key_and_nodes r /\ InstallRequest.KubeConfigRaw r = "")).
Proof.
  unfold entities.ValidInstallRequest, kubeconfig_alone, username_with_key_and_nodes.
  destruct r as [rid org cid ct ibs kube host user pk nodes tp ips]; simpl.
  destruct org, cid, rid, user, pk, nodes, kube; simpl;
    (split; [ intro H; try discriminate H; repeat split; try congruence;
              solve [ left; repeat split; try congruence; intros (? & ? & ?); congruence
                    | right; repeat split; congruence ]
            | intros (Ho & Hc & Hr & [[(Hk & Hu & Hp & Hn) _] | [(Hu & Hp & Hn) Hk]]);
              congruence ]).
Qed.

(** C7.  An install request is accepted only when exactly one of the two
    credential forms is supplied: the raw kubeconfig alone (no username, no
    private key, no nodes), or a username together with a private key and at
    least one node.  Supplying both forms, or neither, is rejected with an
    invalid-argument error, and so is a username without a private key or
    without nodes; every rejection of the validator is an invalid-argument
    error. *)
Theorem ValidInstallRequest_exactly_one_credential_form :
  forall r : InstallRequest.t,
    (entities.ValidInstallRequest r = None ->
       (kubeconfig_alone r /\ ~ username_with_key_and_nodes r)
       \/ (username_with_key_and_nodes r /\ InstallRequest.KubeConfigRaw r = ""))
    /\ (InstallRequest.OrganizationId r <> "" ->
        InstallRequest.ClusterId r = "" ->
        InstallRequest.RequestId r = "" ->
        (kubeconfig_alone r \/
         (username_with_key_and_nodes r /\ InstallRequest.KubeConfigRaw r = "")) ->
        entities.ValidInstallRequest r = None)
    /\ (InstallRequest.KubeConfigRaw r <> "" -> username_with_key_and_nodes r ->
        rejected_as_invalid (entities.ValidInstallRequest r))
    /\ (InstallRequest.KubeConfigRaw r = "" -> ~ username_with_key_and_nodes r ->
        rejected_as_invalid (entities.ValidInstallRequest r))
    /\ (InstallRequest.Username r <> "" ->
        InstallRequest.PrivateKey r = "" \/ InstallRequest.Nodes r = [] ->
        rejected_as_invalid (entities.ValidInstallRequest r))
    /\ (forall e, entities.ValidInstallRequest r = Some e -> errType e = InvalidArgument).
Proof.
  intro r.
  pose proof (ValidInstallRequest_accepts r) as [Hacc Hrej].
  assert (Hno : ~ ((kubeconfig_alone r /\ ~ username_with_key_and_nodes r)
                   \/ (username_with_key_and_nodes r /\ InstallRequest.KubeConfigRaw r = ""))
                -> rejected_as_invalid (entities.ValidInstallRequest r)).
  { intro Hn. apply ValidInstallRequest_rejects_as_invalid.
    intro Hv. apply Hn. apply Hacc in Hv. tauto. }
  repeat split.
  - intro Hv. apply Hacc in Hv. tauto.
  - intros Ho Hc Hr [Hk | Hu]; apply Hrej; repeat split; auto.
    left. split; [exact Hk |].
    destruct Hk as (_ & Hu & _). intros (Hu' & _). congruence.
  - intros Hk Hu. apply Hno.
    intros [[(_ & Hu' & _) _] | [_ Hk']]; [destruct Hu as (Hu & _) |]; congruence.
  - intros Hk Hu. apply Hno.
    intros [[(Hk' & _) _] | [Hu' _]]; [congruence | tauto].
  - intros Hu Hmiss. apply Hno.
    intros [[(_ & Hu' & _) _] | [(_ & Hp & Hn) _]]; [congruence |].
    destruct Hmiss; congruence.
  - apply ValidInstallRequest_errors.
Qed.

Lemma ValidInstallRequest_exactly_one_credential_form_witness :
  entities.ValidInstallRequest
    (InstallRequest.mk "" "o1" "" ClusterType_KUBERNETES false "kubeconfig" "c1.example"
                       "" "" [] Platform_AZURE None) = None
  /\ rejected_as_invalid
       (entities.ValidInstallRequest
          (InstallRequest.mk "" "o1" "" ClusterType_KUBERNETES false "kubeconfig" "c1.example"
                             "root" "key" ["10.0.0.4"] Platform_AZURE None))
  /\ rejected_as_invalid
       (entities.ValidInstallRequest
          (InstallRequest.mk "" "o1" "" ClusterType_KUBERNETES false "" "c1.example"
                             "root" "" ["10.0.0.4"] Platform_AZURE None)).
Proof.
  split; [| split].
  - destruct (ValidInstallRequest_exactly_one_credential_form
                (InstallRequest.mk "" "o1" "" ClusterType_KUBERNETES false "kubeconfig"
                                   "c1.example" "" "" [] Platform_AZURE None))
      as (_ & Haccept & _).
    apply Haccept; simpl; try discriminate; try reflexivity.
    left. unfold kubeconfig_alone. simpl. repeat split; discriminate.
  - destruct (ValidInstallRequest_exactly_one_credential_form
                (InstallRequest.mk "" "o1" "" ClusterType_KUBERNETES false "kubeconfig"
                                   "c1.example" "root" "key" ["10.0.0.4"] Platform_AZURE None))
      as (_ & _ & Hboth & _).
    apply Hboth; simpl; try discriminate.
    unfold username_with_key_and_nodes. simpl. repeat split; discriminate.
  - destruct (ValidInstallRequest_exactly_one_credential_form
                (InstallRequest.mk "" "o1" "" ClusterType_KUBERNETES false ""
                                   "c1.example" "root" "" ["10.0.0.4"] Platform_AZURE None))
      as (_ & _ & _ & _ & Hkey & _).
    apply Hkey; simpl; try discriminate.
    left. reflexivity.
Defined.

(** When [ValidProvisionClusterRequest] accepts: the request id is one of
    the fields that must be set. *)
Lemma ValidProvisionClusterRequest_accepts (r : ProvisionClusterRequest.t) :
  entities.ValidProvisionClusterRequest r = None <->
  ProvisionClusterRequest.RequestId r <> ""
  /\ ProvisionClusterRequest.IsManagementCluster r = false
  /\ ProvisionClusterRequest.OrganizationId r <> ""
  /\ (0 < ProvisionClusterRequest.NumNodes r)%Z
  /\ ProvisionClusterRequest.NodeType r <> ""
  /\ (ProvisionClusterRequest.TargetPlatform r = Platform_AZURE ->
      ProvisionClusterRequest.AzureCredentials r <> None
      /\ ProvisionClusterRequest.AzureOptions r <> None).
Proof.
  unfold entities.ValidProvisionClusterRequest.
  destruct r as [rid org cid name ver n nt mgmt tp creds opts]; simpl.
  destruct (Z.leb_spec n 0);
    destruct rid, mgmt, org, nt, tp, creds, opts; simpl;
    intuition (try congruence; try lia).
Qed.

(** C3 (amended).  Install, scale, uninstall and decommission requests that
    arrive with a non-empty request id are rejected with an invalid-argument
    error.  A provision request is the opposite: it is rejected, with an
    invalid-argument error, when its request id is empty, and a non-empty
    request id is one of the conditions under which it is accepted. *)
Theorem request_id_set_by_the_component :
  (forall r, InstallRequest.RequestId r <> "" ->
             rejected_as_invalid (entities.ValidInstallRequest r))
  /\ (forall r, ScaleClusterRequest.RequestId r <> "" ->
                rejected_as_invalid (entities.ValidScaleClusterRequest r))
  /\ (forall r, UninstallClusterRequest.RequestId r <> "" ->
                rejected_as_invalid (entities.ValidUninstallClusterRequest r))
  /\ (forall r, DecommissionClusterRequest.RequestId r <> "" ->
                rejected_as_invalid (entities.ValidDecommissionClusterRequest r))
  /\ (forall r, ProvisionClusterRequest.RequestId r = "" ->
                entities.ValidProvisionClusterRequest r
                = Some (NewInvalidArgumentError "request_id must be set"))
  /\ (forall r, ProvisionClusterRequest.RequestId r <> "" ->
                ProvisionClusterRequest.IsManagementCluster r = false ->
                ProvisionClusterRequest.OrganizationId r <> "" ->
                (0 < ProvisionClusterRequest.NumNodes r)%Z ->
                ProvisionClusterRequest.NodeType r <> "" ->
                (ProvisionClusterRequest.TargetPlatform r = Platform_AZURE ->
                 ProvisionClusterRequest.AzureCredentials r <> None
                 /\ ProvisionClusterRequest.AzureOptions r <> None) ->
                entities.ValidProvisionClusterRequest r = None).
Proof.
  repeat split.
  - intros r H. apply ValidInstallRequest_rejects_as_invalid.
    intro Hv. apply ValidInstallRequest_accepts in Hv. tauto.
  - intros r H. unfold entities.ValidScaleClusterRequest.
    apply is_empty_false in H. rewrite H. simpl. auto with validators.
  - intros r H. unfold entities.ValidUninstallClusterRequest.
    apply is_empty_false in H. rewrite H. simpl. auto with validators.
  - intros r H. unfold entities.ValidDecommissionClusterRequest.
    apply is_empty_false in H. rewrite H. simpl. auto with validators.
  - intros r H. unfold entities.ValidProvisionClusterRequest.
    apply is_empty_true in H. rewrite H. reflexivity.
  - intros r H1 H2 H3 H4 H5 H6. apply ValidProvisionClusterRequest_accepts. tauto.
Qed.

Lemma request_id_set_by_the_component_witness :
  rejected_as_invalid
    (entities.ValidUninstallClusterRequest
       (UninstallClusterRequest.mk "r1" "o1" "c1" ClusterType_KUBERNETES "kubeconfig"
                                   Platform_AZURE))
  /\ entities.ValidProvisionClusterRequest scenarios.valid_provision = None.
Proof.
  destruct request_id_set_by_the_component as (_ & _ & Hun & _ & _ & Hprov).
  split.
  - apply Hun. simpl. discriminate.
  - apply Hprov; simpl; try discriminate; try reflexivity.
    intros _. split; discriminate.
Defined.

(** C3, as stated, fails for provision requests: this one carries the
    caller-supplied request id r1 and is not rejected. *)
Lemma provision_request_with_request_id_accepted :
  ProvisionClusterRequest.RequestId scenarios.valid_provision <> ""
  /\ ~ rejected_as_invalid (entities.ValidProvisionClusterRequest scenarios.valid_provision).
Proof.
  split.
  - discriminate.
  - intros [msg H]. discriminate H.
Qed.

(** Every error of the provision, scale and decommission validators is an
    invalid-argument error. *)
Lemma ValidProvisionClusterRequest_rejects_as_invalid (r : ProvisionClusterRequest.t) :
  entities.ValidProvisionClusterRequest r <> None ->
  rejected_as_invalid (entities.ValidProvisionClusterRequest r).
Proof.
  unfold entities.ValidProvisionClusterRequest.
  repeat match goal with
         | |- context [if ?b then _ else _] => destruct b
         end;
    simpl; intro H; try congruence; auto with validators.
Qed.

Lemma ValidScaleClusterRequest_rejects_as_invalid (r : ScaleClusterRequest.t) :
  entities.ValidScaleClusterRequest r <> None ->
  rejected_as_invalid (entities.ValidScaleClusterRequest r).
Proof.
  unfold entities.ValidScaleClusterRequest.
  repeat match goal with
         | |- context [if ?b then _ else _] => destruct b
         end;
    simpl; intro H; try congruence; auto with validators.
Qed.

Lemma ValidDecommissionClusterRequest_rejects_as_invalid (r : DecommissionClusterRequest.t) :
  entities.ValidDecommissionClusterRequest r <> None ->
  rejected_as_invalid (entities.ValidDecommissionClusterRequest r).
Proof.
  unfold entities.ValidDecommissionClusterRequest.
  repeat match goal with
         | |- context [if ?b then _ else _] => destruct b
         end;
    simpl; intro H; try congruence; auto with validators.
Qed.

(** On Azure, the scale and decommission validators do not accept a request
    without credentials or without options. *)
Lemma ValidScaleClusterRequest_on_azure (r : ScaleClusterRequest.t) :
  ScaleClusterRequest.TargetPlatform r = Platform_AZURE ->
  ScaleClusterRequest.AzureCredentials r = None \/ ScaleClusterRequest.AzureOptions r = None ->
  entities.ValidScaleClusterRequest r <> None.
Proof.
  unfold entities.ValidScaleClusterRequest. intros Hp Hmiss. rewrite Hp. simpl.
  destruct Hmiss as [Hm | Hm]; rewrite Hm; simpl;
    repeat match goal with
           | |- context [if ?b then _ else _] => destruct b
           end; discriminate.
Qed.

Lemma ValidDecommissionClusterRequest_on_azure (r : DecommissionClusterRequest.t) :
  DecommissionClusterRequest.TargetPlatform r = Platform_AZURE ->
  DecommissionClusterRequest.AzureCredentials r = None
  \/ DecommissionClusterRequest.AzureOptions r = None ->
  entities.ValidDecommissionClusterRequest r <> None.
Proof.
  unfold entities.ValidDecommissionClusterRequest. intros Hp Hmiss. rewrite Hp. simpl.
  destruct Hmiss as [Hm | Hm]; rewrite Hm; simpl;
    repeat match goal with
           | |- context [if ?b then _ else _] => destruct b
           end; discriminate.
Qed.

(** C6 (amended).  Provision, scale and decommission requests are rejected
    with an invalid-argument error when the target platform is Azure and the
    Azure credentials or the Azure options are missing, and for any other
    platform the verdict does not depend on the two Azure fields.  The
    uninstall validator has no Azure requirement: its verdict does not depend
    on the target platform. *)
Theorem azure_fields_required_on_azure :
  (forall r, ProvisionClusterRequest.TargetPlatform r = Platform_AZURE ->
             ProvisionClusterRequest.AzureCredentials r = None
             \/ ProvisionClusterRequest.AzureOptions r = None ->
             rejected_as_invalid (entities.ValidProvisionClusterRequest r))
  /\ (forall r c o, ProvisionClusterRequest.TargetPlatform r <> Platform_AZURE ->
                    entities.ValidProvisionClusterRequest
                      (ProvisionClusterRequest.set_Azure r c o)
                    = entities.ValidProvisionClusterRequest r)
  /\ (forall r, ScaleClusterRequest.TargetPlatform r = Platform_AZURE ->
                ScaleClusterRequest.AzureCredentials r = None
                \/ ScaleClusterRequest.AzureOptions r = None ->
                rejected_as_invalid (entities.ValidScaleClusterRequest r))
  /\ (forall r c o, ScaleClusterRequest.TargetPlatform r <> Platform_AZURE ->
                    entities.ValidScaleClusterRequest (ScaleClusterRequest.set_Azure r c o)
                    = entities.ValidScaleClusterRequest r)
  /\ (forall r, DecommissionClusterRequest.TargetPlatform r = Platform_AZURE ->
                DecommissionClusterRequest.AzureCredentials r = None
                \/ DecommissionClusterRequest.AzureOptions r = None ->
                rejected_as_invalid (entities.ValidDecommissionClusterRequest r))
  /\ (forall r c o, DecommissionClusterRequest.TargetPlatform r <> Platform_AZURE ->
                    entities.ValidDecommissionClusterRequest
                      (DecommissionClusterRequest.set_Azure r c o)
                    = entities.ValidDecommissionClusterRequest r)
  /\ (forall r p, entities.ValidUninstallClusterRequest
                    (UninstallClusterRequest.set_TargetPlatform r p)
                  = entities.ValidUninstallClusterRequest r).
Proof.
  repeat split.
  - intros r Hp Hmiss. apply ValidProvisionClusterRequest_rejects_as_invalid.
    intro Hv. apply ValidProvisionClusterRequest_accepts in Hv.
    destruct Hv as (_ & _ & _ & _ & _ & Haz). destruct (Haz Hp). destruct Hmiss; congruence.
  - intros r c o Hp. unfold entities.ValidProvisionClusterRequest.
    destruct r as [rid org cid name ver n nt mgmt tp creds opts]; simpl in *.
    destruct tp; [congruence | reflexivity].
  - intros r Hp Hmiss. apply ValidScaleClusterRequest_rejects_as_invalid.
    apply ValidScaleClusterRequest_on_azure; assumption.
  - intros r c o Hp. unfold entities.ValidScaleClusterRequest.
    destruct r as [rid org cid mgmt tp creds opts]; simpl in *.
    destruct tp; [congruence | reflexivity].
  - intros r Hp Hmiss. apply ValidDecommissionClusterRequest_rejects_as_invalid.
    apply ValidDecommissionClusterRequest_on_azure; assumption.
  - intros r c o Hp. unfold entities.ValidDecommissionClusterRequest.
    destruct r as [rid org cid ct mgmt tp creds opts]; simpl in *.
    destruct tp; [congruence | reflexivity].
Qed.

Lemma azure_fields_required_on_azure_witness :
  rejected_as_invalid
    (entities.ValidProvisionClusterRequest
       (ProvisionClusterRequest.set_Azure scenarios.valid_provision None None))
  /\ entities.ValidScaleClusterRequest
       (ScaleClusterRequest.set_Azure
          (ScaleClusterRequest.mk "" "o1" "c1" false (Platform_OTHER 0) None None)
          (Some (AzureCredentials.mk "secret")) (Some (AzureOptions.mk "rg")))
     = entities.ValidScaleClusterRequest
         (ScaleClusterRequest.mk "" "o1" "c1" false (Platform_OTHER 0) None None).
Proof.
  destruct azure_fields_required_on_azure as (Hprov & _ & _ & Hscale & _).
  split.
  - apply Hprov; simpl; [reflexivity | left; reflexivity].
  - apply Hscale. simpl. discriminate.
Defined.

(** C6, as stated, fails for uninstall requests: this one targets Azure,
    carries neither Azure credentials nor Azure options, and is accepted. *)
Lemma uninstall_on_azure_accepted_without_azure_fields :
  UninstallClusterRequest.TargetPlatform scenarios.uninstall_on_azure = Platform_AZURE
  /\ entities.ValidUninstallClusterRequest scenarios.uninstall_on_azure = None.
Proof. split; reflexivity. Qed.

(** [ValidLabels] accepts a map all of whose values are valid. *)
Lemma ValidLabels_all_valid (IsValidLabelValue : string -> list string)
      (labels : list (string * string)) :
  Forall (fun kv => IsValidLabelValue (snd kv) = []) labels ->
  entities.ValidLabels IsValidLabelValue labels = None.
Proof.
  induction 1 as [| [k v] rest Hv _ IH]; simpl.
  - reflexivity.
  - simpl in Hv. rewrite Hv. simpl. exact IH.
Qed.

(** C10.  An update-node request whose node id is non-empty is rejected with
    an invalid-argument error; with the organization id set, the message of
    that error is the one saying that the node id cannot be empty.  A
    request whose node id is empty is accepted, provided the organization id
    is set and, under add-labels, the label values are valid.  The
    organization id is checked first: when it is empty the error names the
    organization id. *)
Theorem ValidUpdateNodeRequest_rejects_a_node_id :
  forall (IsValidLabelValue : string -> list string) (r : UpdateNodeRequest.t),
    (UpdateNodeRequest.NodeId r <> "" ->
     rejected_as_invalid (entities.ValidUpdateNodeRequest IsValidLabelValue r))
    /\ (UpdateNodeRequest.OrganizationId r <> "" ->
        UpdateNodeRequest.NodeId r <> "" ->
        entities.ValidUpdateNodeRequest IsValidLabelValue r
        = Some (NewInvalidArgumentError "node_id cannot be empty"))
    /\ (UpdateNodeRequest.OrganizationId r <> "" ->
        UpdateNodeRequest.NodeId r = "" ->
        (UpdateNodeRequest.AddLabels r = true ->
         Forall (fun kv => IsValidLabelValue (snd kv) = []) (UpdateNodeRequest.Labels r)) ->
        entities.ValidUpdateNodeRequest IsValidLabelValue r = None)
    /\ (UpdateNodeRequest.OrganizationId r = "" ->
        entities.ValidUpdateNodeRequest IsValidLabelValue r
        = Some (NewInvalidArgumentError "organization_id cannot be empty")).
Proof.
  intros IsValidLabelValue r. unfold entities.ValidUpdateNodeRequest.
  split; [| split; [| split]].
  - intro Hn. apply is_empty_false in Hn. rewrite Hn. simpl.
    destruct (is_empty (UpdateNodeRequest.OrganizationId r)); auto with validators.
  - intros Ho Hn. apply is_empty_false in Ho, Hn. rewrite Ho, Hn. reflexivity.
  - intros Ho Hn Hl. apply is_empty_false in Ho. apply is_empty_true in Hn.
    rewrite Ho, Hn. simpl.
    destruct (UpdateNodeRequest.AddLabels r); [| reflexivity].
    rewrite (ValidLabels_all_valid _ _ (Hl eq_refl)). reflexivity.
  - intro Ho. apply is_empty_true in Ho. rewrite Ho. reflexivity.
Qed.

Lemma ValidUpdateNodeRequest_rejects_a_node_id_witness :
  entities.ValidUpdateNodeRequest (fun _ => [])
    (UpdateNodeRequest.mk "o1" "n1" true 1%Z false 0%Z false [])
  = Some (NewInvalidArgumentError "node_id cannot be empty")
  /\ entities.ValidUpdateNodeRequest (fun _ => [])
       (UpdateNodeRequest.mk "o1" "" false 0%Z false 0%Z true [("zone", "a")])
     = None.
Proof.
  split.
  - destruct (ValidUpdateNodeRequest_rejects_a_node_id (fun _ => [])
                (UpdateNodeRequest.mk "o1" "n1" true 1%Z false 0%Z false []))
      as (_ & Hmsg & _).
    apply Hmsg; simpl; discriminate.
  - destruct (ValidUpdateNodeRequest_rejects_a_node_id (fun _ => [])
                (UpdateNodeRequest.mk "o1" "" false 0%Z false 0%Z true [("zone", "a")]))
      as (_ & _ & Hacc & _).
    apply Hacc; simpl; [discriminate | reflexivity |].
    intros _. repeat constructor.
Defined.

(** ** Runs of the manager: how a world grows *)

Lemma skipn_length_app {A} (l d : list A) : skipn (length l) (l ++ d) = d.
Proof. induction l as [| x l IH]; simpl; [reflexivity | exact IH]. Qed.

Lemma now_record (c : Call) (w : World) : now (record c w) = S (now w).
Proof. unfold now, record. simpl. rewrite length_app. simpl. lia. Qed.

Lemma now_write_log l msg (w : World) : now (write_log l msg w) = now w.
Proof. reflexivity. Qed.

Lemma bind_call {A B} (c : Call) (answer : nat -> A) (k : A -> M B) (w : World) :
  bind (call c answer) k w = k (answer (now w)) (record c w).
Proof. reflexivity. Qed.

Lemma bind_log {B} l msg (k : unit -> M B) (w : World) :
  bind (log l msg) k w = k tt (write_log l msg w).
Proof. reflexivity. Qed.

Lemma bind_ret {A B} (a : A) (k : A -> M B) (w : World) : bind (ret a) k w = k a w.
Proof. reflexivity. Qed.

Lemma bind_assoc {A B C} (c : M A) (k : A -> M B) (h : B -> M C) (w : World) :
  bind (bind c k) h w = bind c (fun a => bind (k a) h) w.
Proof. unfold bind. destruct (c w) as [[a |] w']; reflexivity. Qed.

Lemma extends_by_refl (w : World) : extends_by w w [] [] [].
Proof. unfold extends_by. rewrite !app_nil_r. auto. Qed.

Lemma extends_by_trans w1 w2 w3 dc dl dm dc' dl' dm' :
  extends_by w1 w2 dc dl dm -> extends_by w2 w3 dc' dl' dm' ->
  extends_by w1 w3 (dc ++ dc') (dl ++ dl') (dm ++ dm').
Proof.
  unfold extends_by. intros (H1 & H2 & H3) (H4 & H5 & H6).
  rewrite H4, H5, H6, H1, H2, H3, !app_assoc. auto.
Qed.

Lemma extends_by_new w w' dc dl dm :
  extends_by w w' dc dl dm ->
  new_calls w w' = dc /\ new_logs w w' = dl /\ new_monitors w w' = dm.
Proof.
  unfold extends_by, new_calls, new_logs, new_monitors. intros (H1 & H2 & H3).
  rewrite H1, H2, H3, !skipn_length_app. auto.
Qed.

Section Emits.
Variable P : Call -> Prop.

Lemma emits_ret {A} (a : A) : emits P (ret a).
Proof. intro w. exists [], [], []. split; [apply extends_by_refl | constructor]. Qed.

Lemma emits_panic {A} : emits P (@panic A).
Proof. intro w. exists [], [], []. split; [apply extends_by_refl | constructor]. Qed.

Lemma emits_log l msg : emits P (log l msg).
Proof.
  intro w. exists [], [(l, msg)], []. split; [| constructor].
  unfold extends_by, exec, log. simpl. rewrite !app_nil_r. auto.
Qed.

Lemma emits_log_if {A} (o : option A) l msg : emits P (log_if o l msg).
Proof. destruct o; [apply emits_log | apply emits_ret]. Qed.

Lemma emits_launch mon : emits P (launch mon).
Proof.
  intro w. exists [], [], [mon]. split; [| constructor].
  unfold extends_by, exec, launch. simpl. rewrite !app_nil_r. auto.
Qed.

Lemma emits_call {A} (c : Call) (answer : nat -> A) : P c -> emits P (call c answer).
Proof.
  intros Hc w. exists [c], [], []. split; [| repeat constructor; exact Hc].
  unfold extends_by, exec, call. simpl. rewrite !app_nil_r. auto.
Qed.

Lemma emits_bind {A B} (c : M A) (k : A -> M B) :
  emits P c -> (forall a, emits P (k a)) -> emits P (bind c k).
Proof.
  intros Hc Hk w. destruct (Hc w) as (dc & dl & dm & Hext & HP).
  unfold exec, bind in *. destruct (c w) as [[a |] w1] eqn:E; simpl in *.
  - destruct (Hk a w1) as (dc' & dl' & dm' & Hext' & HP').
    exists (dc ++ dc'), (dl ++ dl'), (dm ++ dm'). split.
    + eapply extends_by_trans; eassumption.
    + apply Forall_app. auto.
  - exists dc, dl, dm. auto.
Qed.

End Emits.

Lemma returns_ret {A} (a : A) : returns (ret a).
Proof. intro w. exists a. reflexivity. Qed.

Lemma returns_log l msg : returns (log l msg).
Proof. intro w. exists tt. reflexivity. Qed.

Lemma returns_log_if {A} (o : option A) l msg : returns (log_if o l msg).
Proof. destruct o; [apply returns_log | apply returns_ret]. Qed.

Lemma returns_launch mon : returns (launch mon).
Proof. intro w. exists tt. reflexivity. Qed.

Lemma returns_call {A} (c : Call) (answer : nat -> A) : returns (call c answer).
Proof. intro w. eexists. reflexivity. Qed.

Lemma returns_bind {A B} (c : M A) (k : A -> M B) :
  returns c -> (forall a, returns (k a)) -> returns (bind c k).
Proof.
  intros Hc Hk w. destruct (Hc w) as [a Ha].
  unfold result, bind in *. destruct (c w) as [r w1]. simpl in Ha. subst r.
  apply Hk.
Qed.

(** Behind a computation that returns, the continuation runs. *)
Lemma returns_then {A B} (c : M A) (k : A -> M B) (w : World) :
  returns c -> exists a, bind c k w = k a (exec c w).
Proof.
  intro Hc. destruct (Hc w) as [a Ha]. exists a.
  unfold result, exec, bind in *. destruct (c w) as [r w1]. simpl in *. subst r. reflexivity.
Qed.

(** Symbolic execution of a goal about [emits] or [returns]: split binds,
    discharge the primitive steps, and branch where the code branches. *)
Ltac emits_step :=
  first
    [ apply emits_ret | apply emits_panic | apply emits_log | apply emits_log_if
    | apply emits_launch
    | apply emits_bind; [| intro]
    | match goal with
      | |- emits _ (match ?x with _ => _ end) => destruct x
      end ].

Ltac returns_step :=
  first
    [ apply returns_ret | apply returns_log | apply returns_log_if
    | apply returns_launch | apply returns_call
    | apply returns_bind; [| intro]
    | match goal with
      | |- returns (match ?x with _ => _ end) => destruct x
      end ].

(** ** What the methods of the manager emit *)

Section ManagerEmits.
Variable m : Manager.t.
Variable P : Call -> Prop.

(** [P] holds of every call that is not an install request. *)
Hypothesis P_other : forall c, is_install_call c = false -> P c.

Ltac emits_run :=
  repeat first
    [ progress cbv zeta
    | solve [auto with emits nocore]
    | emits_step
    | apply emits_call; apply P_other; reflexivity ].

Lemma emits_writeTempFile content prefix : emits P (writeTempFile m content prefix).
Proof. unfold writeTempFile. emits_run. Qed.

Lemma emits_attachNodes_loop requestID organizationID clusterID nodes :
  emits P (attachNodes_loop m requestID organizationID clusterID nodes).
Proof.
  induction nodes as [| n rest IH]; simpl.
  - apply emits_ret.
  - emits_run. exact IH.
Qed.

Lemma emits_attachNodes requestID organizationID clusterID cluster :
  emits P (attachNodes m requestID organizationID clusterID cluster).
Proof. apply emits_attachNodes_loop. Qed.

Lemma emits_updateClusterState organizationID clusterID newState :
  emits P (updateClusterState m organizationID clusterID newState).
Proof. unfold updateClusterState. emits_run. Qed.

Create HintDb emits.
#[local] Hint Resolve emits_writeTempFile emits_attachNodes emits_updateClusterState : emits.

Lemma emits_addClusterToSM requestID organizationID cluster clusterState :
  emits P (addClusterToSM m requestID organizationID cluster clusterState).
Proof. unfold addClusterToSM. emits_run. Qed.

Lemma emits_discoverCluster requestID kubeConfig hostname :
  emits P (discoverCluster m requestID kubeConfig hostname).
Proof. unfold discoverCluster. emits_run. Qed.

Lemma emits_getCluster organizationID clusterID :
  emits P (getCluster m organizationID clusterID).
Proof. unfold getCluster. emits_run. Qed.

#[local] Hint Resolve emits_addClusterToSM emits_discoverCluster emits_getCluster : emits.

Lemma emits_getOrCreateProvisionedCluster installRequest :
  emits P (getOrCreateProvisionedCluster m installRequest).
Proof. unfold getOrCreateProvisionedCluster. emits_run. Qed.

Lemma emits_UpdateCluster request : emits P (UpdateCluster m request).
Proof. unfold UpdateCluster. emits_run. Qed.

#[local] Hint Resolve emits_getOrCreateProvisionedCluster emits_UpdateCluster : emits.

(** [InstallCluster] sends the request it was given, with the cluster id
    replaced by the one of the cluster it resolved. *)
Lemma emits_InstallCluster request :
  (forall id, P (Call_InstallCluster (InstallRequest.set_ClusterId request id))) ->
  emits P (InstallCluster m request).
Proof.
  intro Hreq. unfold InstallCluster. emits_run.
  apply emits_call. apply Hreq.
Qed.

#[local] Hint Resolve emits_InstallCluster : emits.

(** The install request of [provisionCallback]: built from the arguments
    of the callback and the final response, for Azure; [InstallCluster] then
    replaces the cluster id by the one the registry answers. *)
Lemma emits_provisionCallback requestID organizationID clusterID lastResponse err :
  (forall response id,
      lastResponse = Some response ->
      P (Call_InstallCluster
           (InstallRequest.mk requestID organizationID id ClusterType_KUBERNETES false
              (ProvisionClusterResponse.RawKubeConfig response)
              (ProvisionClusterResponse.Hostname response)
              "" "" [] Platform_AZURE
              (ProvisionClusterResponse.StaticIpAddresses response)))) ->
  emits P (provisionCallback m requestID organizationID clusterID lastResponse err).
Proof.
  intro Hrequest. unfold provisionCallback. emits_run.
  apply emits_call. apply Hrequest. reflexivity.
Qed.

End ManagerEmits.

Lemma returns_UpdateCluster m request : returns (UpdateCluster m request).
Proof. unfold UpdateCluster. repeat returns_step. Qed.

Lemma returns_attachNodes_loop m requestID organizationID clusterID nodes :
  returns (attachNodes_loop m requestID organizationID clusterID nodes).
Proof.
  induction nodes as [| n rest IH]; simpl.
  - apply returns_ret.
  - repeat returns_step. exact IH.
Qed.

(** ** The two-part transition: registry write, then publish *)

(** The run of [updateClusterState], by the answers of the registry and of
    the bus. *)
Lemma updateClusterState_run m organizationID clusterID newState w :
  updateClusterState m organizationID clusterID newState w =
  let request := state_update organizationID clusterID newState in
  let w1 := record (Call_UpdateCluster request) w in
  match ClustersClient.UpdateCluster (Manager.clusterClient m) (now w) request with
  | Err err => (Done (Some err), write_log LevelError "cannot update cluster state" w1)
  | Ok _ =>
    let w2 := record (Call_SendEvents (bus.UpdateClusterEvent request)) w1 in
    match bus.BusManager.SendEvents (Manager.busManager m) (S (now w))
                                    (bus.UpdateClusterEvent request) with
    | Some errBus =>
      (Done (Some errBus),
       write_log LevelError "error in the bus when sending an update cluster request" w2)
    | None => (Done None, w2)
    end
  end.
Proof.
  unfold updateClusterState. cbv zeta. rewrite bind_call.
  fold (state_update organizationID clusterID newState).
  destruct (ClustersClient.UpdateCluster _ _ _) as [c | err].
  - rewrite bind_call, now_record.
    destruct (bus.BusManager.SendEvents _ _ _); reflexivity.
  - reflexivity.
Qed.

Lemma UpdateCluster_run m request w :
  UpdateCluster m request w =
  let w1 := record (Call_UpdateCluster request) w in
  match ClustersClient.UpdateCluster (Manager.clusterClient m) (now w) request with
  | Err updateErr => (Done (Err updateErr), w1)
  | Ok updateResult =>
    let w2 := record (Call_SendEvents (bus.UpdateClusterEvent request)) w1 in
    match bus.BusManager.SendEvents (Manager.busManager m) (S (now w))
                                    (bus.UpdateClusterEvent request) with
    | Some errBus =>
      (Done (Err errBus),
       write_log LevelError "error in the bus when sending an update cluster request" w2)
    | None => (Done (Ok updateResult), w2)
    end
  end.
Proof.
  unfold UpdateCluster. rewrite bind_call.
  destruct (ClustersClient.UpdateCluster _ _ _) as [c | err].
  - rewrite bind_call, now_record.
    destruct (bus.BusManager.SendEvents _ _ _); reflexivity.
  - reflexivity.
Qed.

(** Read off what a run added, once the final world is written with
    [record] and [write_log]. *)
Lemma skipn_length_self {A} (l : list A) : skipn (length l) l = [].
Proof. apply skipn_all. Qed.

Ltac news :=
  unfold new_calls, new_logs, new_monitors, exec, result, record, write_log; simpl;
  rewrite <- ?app_assoc; simpl;
  rewrite ?skipn_length_app, ?skipn_length_self.

(** C1 (amended).  When the registry accepts a lifecycle-state write and the
    event bus then refuses the publish, [updateClusterState] and the generic
    [UpdateCluster] log the publish failure and return the error of the bus
    to their caller.  The registry write stands: the two calls issued are the
    write and the publish, and nothing undoes the write. *)
Theorem publish_failure_is_returned :
  forall (m : Manager.t) (w : World),
    (forall organizationID clusterID newState c errBus,
        let request := state_update organizationID clusterID newState in
        let run := updateClusterState m organizationID clusterID newState in
        ClustersClient.UpdateCluster (Manager.clusterClient m) (now w) request = Ok c ->
        bus.BusManager.SendEvents (Manager.busManager m) (S (now w))
                                  (bus.UpdateClusterEvent request) = Some errBus ->
        result run w = Done (Some errBus)
        /\ new_calls w (exec run w)
           = [Call_UpdateCluster request; Call_SendEvents (bus.UpdateClusterEvent request)]
        /\ new_logs w (exec run w)
           = [(LevelError, "error in the bus when sending an update cluster request")])
    /\ (forall request c errBus,
           let run := UpdateCluster m request in
           ClustersClient.UpdateCluster (Manager.clusterClient m) (now w) request = Ok c ->
           bus.BusManager.SendEvents (Manager.busManager m) (S (now w))
                                     (bus.UpdateClusterEvent request) = Some errBus ->
           result run w = Done (Err errBus)
           /\ new_calls w (exec run w)
              = [Call_UpdateCluster request; Call_SendEvents (bus.UpdateClusterEvent request)]
           /\ new_logs w (exec run w)
              = [(LevelError, "error in the bus when sending an update cluster request")]).
Proof.
  intros m w. split.
  - intros organizationID clusterID newState c errBus request run Hreg Hbus.
    subst run. unfold exec, result. rewrite updateClusterState_run. cbv zeta.
    fold request. rewrite Hreg, Hbus. news. auto.
  - intros request c errBus run Hreg Hbus.
    subst run. unfold exec, result. rewrite UpdateCluster_run. cbv zeta.
    rewrite Hreg, Hbus. news. auto.
Qed.

Lemma publish_failure_is_returned_witness :
  result (updateClusterState scenarios.bus_down "o1" "c1" ClusterState_INSTALLED) initial
  = Done (Some scenarios.unavailable)
  /\ result (UpdateCluster scenarios.bus_down
                           (state_update "o1" "c1" ClusterState_INSTALLED)) initial
     = Done (Err scenarios.unavailable).
Proof.
  destruct (publish_failure_is_returned scenarios.bus_down initial) as [Hstate Hupdate].
  split.
  - apply (Hstate "o1" "c1" ClusterState_INSTALLED
                  (scenarios.a_cluster "o1" "c1" ClusterState_PROVISIONED
                                       ClusterStatus_ONLINE_CORDON)
                  scenarios.unavailable); reflexivity.
  - apply (Hupdate (state_update "o1" "c1" ClusterState_INSTALLED)
                   (scenarios.a_cluster "o1" "c1" ClusterState_PROVISIONED
                                        ClusterStatus_ONLINE_CORDON)
                   scenarios.unavailable); reflexivity.
Defined.

(** C1, as stated, fails: the registry accepts the write, the bus refuses the
    publish, and neither operation returns success. *)
Lemma publish_failure_is_not_success :
  (exists c, ClustersClient.UpdateCluster (Manager.clusterClient scenarios.bus_down) 0
               (state_update "o1" "c1" ClusterState_INSTALLED) = Ok c)
  /\ result (updateClusterState scenarios.bus_down "o1" "c1" ClusterState_INSTALLED) initial
     <> Done None
  /\ (forall c,
         result (UpdateCluster scenarios.bus_down
                               (state_update "o1" "c1" ClusterState_INSTALLED)) initial
         <> Done (Ok c)).
Proof.
  split; [| split].
  - eexists. reflexivity.
  - vm_compute. discriminate.
  - intro c. vm_compute. discriminate.
Qed.

(** A workflow that checks the result of the transition stops there: with
    the bus down, [Scale] returns the error of the bus and never reaches the
    scaler. *)
Example Scale_stops_at_a_publish_failure :
  let m := scenarios.manager ClusterState_INSTALLED ClusterStatus_ONLINE_CORDON [] true false in
  let request := ScaleClusterRequest.mk "" "o1" "c1" false (Platform_OTHER 0) None None in
  result (Scale m request) initial = Done (Err scenarios.unavailable)
  /\ calls (exec (Scale m request) initial)
     = [Call_GetCluster (ClusterId.mk "o1" "c1");
        Call_UpdateCluster (state_update "o1" "c1" ClusterState_SCALING);
        Call_SendEvents (bus.UpdateClusterEvent (state_update "o1" "c1" ClusterState_SCALING))].
Proof. split; reflexivity. Qed.

(** ** Completion callbacks *)

(** C9.  A completion callback that is handed a nil final response returns
    at once: it issues no call at all, so it writes no cluster or node state
    and in particular no FAILURE state, and it launches nothing; this holds
    whether or not the watch error is nil.  All it leaves is its log lines:
    the line that announces the callback and, for a non-nil error, the error
    line. *)
Theorem callbacks_return_on_a_nil_response :
  forall (m : Manager.t) (OpStatusToNodeState : OpStatus -> NodeState)
         (requestID organizationID clusterID : string) (err : option Error) (w : World),
    let untouched (run : M unit) (announce : string) :=
        result run w = Done tt
        /\ new_calls w (exec run w) = []
        /\ new_monitors w (exec run w) = []
        /\ new_logs w (exec run w)
           = (LevelDebug, announce)
               :: (if is_some err then [(LevelError, "error callback received")] else []) in
    untouched (provisionCallback m requestID organizationID clusterID None err)
              "provisioner callback received"
    /\ untouched (installCallback m OpStatusToNodeState requestID organizationID clusterID
                                  None err)
                 "installer callback received for install operation"
    /\ untouched (scaleCallback m requestID organizationID clusterID None err)
                 "scaler callback received"
    /\ untouched (uninstallCallback m requestID organizationID clusterID None err)
                 "installer callback received for uninstall operation".
Proof.
  intros m toState requestID organizationID clusterID err w. cbv zeta.
  destruct err as [e |]; repeat split; news; reflexivity.
Qed.

(** On a manager whose collaborators all answer, the provision callback does
    send an install request, and it is the one for Azure. *)
Example provisionCallback_install_request :
  filter is_install_call
         (calls (exec (provisionCallback scenarios.healthy "r1" "o1" "c1"
                                         (Some scenarios.provisioned_ok) None) initial))
  = [Call_InstallCluster
       (InstallRequest.mk "r1" "o1" "c1" ClusterType_KUBERNETES false "kubeconfig"
                          "c1.example" "" "" [] Platform_AZURE None)].
Proof. reflexivity. Qed.

(** ** The provision callback *)

(** [emits any_call]: the computation only adds to the world. *)
Ltac steady_run :=
  repeat first
    [ progress cbv zeta
    | apply emits_attachNodes; intros; exact I
    | emits_step
    | apply emits_call; exact I ].

Lemma emits_calls {A} (P : Call -> Prop) (c : M A) (w : World) :
  emits P c -> exists dc, calls (exec c w) = calls w ++ dc /\ Forall P dc.
Proof.
  intro H. destruct (H w) as (dc & dl & dm & (Hc & _) & HP). exists dc. auto.
Qed.

(** The run of [discoverCluster] when the temporary file can be written
    and the cluster answers the discovery helper. *)
Lemma discoverCluster_run m requestID kubeConfig hostname file discovered w :
  host.TempFile (Manager.os m) (now w) (Manager.tempPath m) requestID = Ok file ->
  host.FileWrite (Manager.os m) (1 + now w) file kubeConfig = None ->
  host.FileClose (Manager.os m) (2 + now w) file = None ->
  host.Connect (Manager.os m) (3 + now w) file = None ->
  host.Discover (Manager.os m) (4 + now w) file = Ok discovered ->
  discoverCluster m requestID kubeConfig hostname w =
  (Done (Ok (entities.Cluster.set_Hostname discovered hostname)),
   record (Call_FileRemove file)
     (write_log LevelDebug "cluster has been discovered"
        (record (Call_Discover file)
           (record (Call_Connect file)
              (record (Call_FileClose file)
                 (record (Call_FileWrite file kubeConfig)
                    (record (Call_TempFile (Manager.tempPath m) requestID) w))))))).
Proof.
  intros H0 H1 H2 H3 H4. cbn [Nat.add] in H1, H2, H3, H4.
  unfold discoverCluster, writeTempFile.
  rewrite !bind_assoc, bind_call, H0.
  rewrite !bind_assoc, bind_call, now_record, H1.
  rewrite !bind_assoc, bind_call, !now_record, H2.
  rewrite bind_ret. 
  rewrite !bind_assoc, bind_call, !now_record, H3.
  rewrite !bind_assoc, bind_call, !now_record, H4.
  rewrite !bind_assoc, bind_log, bind_ret, bind_call. reflexivity.
Qed.

Lemma exec_bind_log {B} l msg (k : unit -> M B) (w : World) :
  exec (bind (log l msg) k) w = exec (k tt) (write_log l msg w).
Proof. reflexivity. Qed.

Lemma exec_bind_ret {A B} (a : A) (k : A -> M B) (w : World) :
  exec (bind (ret a) k) w = exec (k a) w.
Proof. reflexivity. Qed.

Lemma exec_bind_eq {A B} (c : M A) (k : A -> M B) (w w1 : World) (a : A) :
  c w = (Done a, w1) -> exec (bind c k) w = exec (k a) w1.
Proof. intro H. unfold exec, bind. rewrite H. reflexivity. Qed.

Lemma exec_bind_returns {A B} (c : M A) (k : A -> M B) (w : World) :
  returns c -> exists a, exec (bind c k) w = exec (k a) (exec c w).
Proof.
  intro Hc. destruct (returns_then c k w Hc) as [a Ha]. exists a.
  unfold exec at 1. rewrite Ha. reflexivity.
Qed.

Lemma exec_bind_updateClusterState {B} m organizationID clusterID newState
      (K : option Error -> M B) (w : World) :
  exec (bind (updateClusterState m organizationID clusterID newState) K) w =
  let request := state_update organizationID clusterID newState in
  let w1 := record (Call_UpdateCluster request) w in
  match ClustersClient.UpdateCluster (Manager.clusterClient m) (now w) request with
  | Err err => exec (K (Some err)) (write_log LevelError "cannot update cluster state" w1)
  | Ok _ =>
    let w2 := record (Call_SendEvents (bus.UpdateClusterEvent request)) w1 in
    match bus.BusManager.SendEvents (Manager.busManager m) (S (now w))
                                    (bus.UpdateClusterEvent request) with
    | Some errBus =>
      exec (K (Some errBus))
           (write_log LevelError "error in the bus when sending an update cluster request" w2)
    | None => exec (K None) w2
    end
  end.
Proof.
  unfold exec, bind. rewrite updateClusterState_run. cbv zeta.
  destruct (ClustersClient.UpdateCluster _ _ _); [| reflexivity].
  destruct (bus.BusManager.SendEvents _ _ _); reflexivity.
Qed.

Lemma provisionCallback_install_of m requestID organizationID clusterID response err w :
  Forall (install_of requestID organizationID response)
         (new_calls w (exec (provisionCallback m requestID organizationID clusterID
                                               (Some response) err) w)).
Proof.
  destruct (emits_provisionCallback m (install_of requestID organizationID response))
    with (requestID := requestID) (organizationID := organizationID)
         (clusterID := clusterID) (lastResponse := Some response) (err := err) (w := w)
    as (dc & dl & dm & Hext & HP).
  - intros c Hc. destruct c; simpl in *; try exact I. discriminate.
  - intros r id Hr. inversion Hr. subst r. simpl. auto.
  - apply extends_by_new in Hext. destruct Hext as (Hcalls & _).
    rewrite Hcalls. exact HP.
Qed.

(** Enter [provisionCallback] on a non-nil response, up to the answers to
    the state write. *)
Ltac enter_provisionCallback :=
  unfold provisionCallback; rewrite exec_bind_log; cbv zeta;
  try match goal with
      | H : ProvisionClusterResponse.State _ = _ |- _ => rewrite !H
      end;
  cbn [log_if is_some is_ERROR orb provision_failed];
  repeat (rewrite exec_bind_log || rewrite exec_bind_ret);
  rewrite exec_bind_updateClusterState; cbv zeta;
  cbn [ClusterState_eqb].

Lemma bind_eq {A B} (c : M A) (k : A -> M B) (w w1 : World) (a : A) :
  c w = (Done a, w1) -> bind c k w = k a w1.
Proof. intro H. unfold bind. rewrite H. reflexivity. Qed.

(** The run of [discoverCluster], by the answers of the host. *)
Lemma discoverCluster_cases m requestID kubeConfig hostname w :
  discoverCluster m requestID kubeConfig hostname w =
  let w1 := record (Call_TempFile (Manager.tempPath m) requestID) w in
  match host.TempFile (Manager.os m) (now w) (Manager.tempPath m) requestID with
  | Err _ => (Panicked, w1)
  | Ok file =>
    let w2 := record (Call_FileWrite file kubeConfig) w1 in
    match host.FileWrite (Manager.os m) (1 + now w) file kubeConfig with
    | Some _ => (Panicked, w2)
    | None =>
      let w3 := record (Call_FileClose file) w2 in
      match host.FileClose (Manager.os m) (2 + now w) file with
      | Some _ => (Panicked, w3)
      | None =>
        let w4 := record (Call_Connect file) w3 in
        match host.Connect (Manager.os m) (3 + now w) file with
        | Some err => (Done (Err err), record (Call_FileRemove file) w4)
        | None =>
          let w5 := record (Call_Discover file) w4 in
          match host.Discover (Manager.os m) (4 + now w) file with
          | Err err => (Done (Err err), record (Call_FileRemove file) w5)
          | Ok discovered =>
            (Done (Ok (entities.Cluster.set_Hostname discovered hostname)),
             record (Call_FileRemove file)
                    (write_log LevelDebug "cluster has been discovered" w5))
          end
        end
      end
    end
  end.
Proof.
  cbv zeta. cbn [Nat.add].
  unfold discoverCluster, writeTempFile.
  rewrite !bind_assoc, bind_call.
  destruct (host.TempFile _ _ _ _) as [file | e]; [| reflexivity].
  rewrite !bind_assoc, bind_call, now_record.
  destruct (host.FileWrite _ _ _ _) as [e |]; [reflexivity |].
  rewrite !bind_assoc, bind_call, !now_record.
  destruct (host.FileClose _ _ _) as [e |]; [reflexivity |].
  rewrite bind_ret.
  rewrite !bind_assoc, bind_call, !now_record.
  destruct (host.Connect _ _ _) as [e |]; [reflexivity |].
  rewrite !bind_assoc, bind_call, !now_record.
  destruct (host.Discover _ _ _) as [d | e]; reflexivity.
Qed.

(** A continuation that only logs adds no call and launches nothing. *)
Lemma exec_bind_silent {A B} (c : M A) (K : A -> M B) (W : World) :
  (forall a w, calls (exec (K a) w) = calls w /\ launched (exec (K a) w) = launched w) ->
  calls (exec (bind c K) W) = calls (exec c W)
  /\ launched (exec (bind c K) W) = launched (exec c W).
Proof.
  intro HK. unfold exec, bind in *. destruct (c W) as [[a |] w1]; simpl.
  - apply HK.
  - auto.
Qed.

(** [getOrCreateProvisionedCluster] on a request that names a cluster the
    registry knows: one lookup. *)
Lemma getOrCreateProvisionedCluster_lookup m request w cluster :
  InstallRequest.ClusterId request <> "" ->
  ClustersClient.GetCluster (Manager.clusterClient m) (now w)
    (ClusterId.mk (InstallRequest.OrganizationId request) (InstallRequest.ClusterId request))
  = Ok cluster ->
  getOrCreateProvisionedCluster m request w
  = (Done (Ok cluster),
     write_log LevelDebug "target cluster found"
       (record (Call_GetCluster (ClusterId.mk (InstallRequest.OrganizationId request)
                                              (InstallRequest.ClusterId request)))
               (write_log LevelDebug "Retrieving existing cluster" w))).
Proof.
  intros Hid Hget. apply is_empty_false in Hid.
  unfold getOrCreateProvisionedCluster, getCluster. rewrite Hid.
  rewrite !bind_assoc, bind_log, !bind_assoc, bind_call, now_write_log, Hget.
  reflexivity.
Qed.

(** The run of [InstallCluster] once the target cluster is resolved. *)
Lemma InstallCluster_run m request w cluster c :
  let w0 := write_log LevelDebug "InstallCluster" w in
  let w1 := exec (getOrCreateProvisionedCluster m request) w0 in
  let in_progress :=
      state_update (InstallRequest.OrganizationId request) (Cluster.ClusterId cluster)
                   ClusterState_INSTALL_IN_PROGRESS in
  let sent := InstallRequest.set_ClusterId request (Cluster.ClusterId cluster) in
  let issued :=
      [Call_UpdateCluster in_progress; Call_SendEvents (bus.UpdateClusterEvent in_progress);
       Call_InstallCluster sent] in
  let run := InstallCluster m request in
  result (getOrCreateProvisionedCluster m request) w0 = Done (Ok cluster) ->
  InstallRequest.InstallBaseSystem request = false ->
  Cluster.State cluster = ClusterState_PROVISIONED ->
  ClustersClient.UpdateCluster (Manager.clusterClient m) (now w1) in_progress = Ok c ->
  bus.BusManager.SendEvents (Manager.busManager m) (1 + now w1)
                            (bus.UpdateClusterEvent in_progress) = None ->
  match InstallerClient.InstallCluster (Manager.installerClient m) (2 + now w1) sent with
  | Ok response =>
    result run w = Done (Ok response)
    /\ calls (exec run w) = calls w1 ++ issued
    /\ launched (exec run w)
       = launched w1 ++ [Monitor.mk (InstallerMonitor (Cluster.ClusterId cluster) response)
                                    [Ref_installCallback] None true]
  | Err iErr =>
    result run w = Done (Err iErr)
    /\ calls (exec run w) = calls w1 ++ issued
    /\ launched (exec run w) = launched w1
  end.
Proof.
  intros w0 w1 in_progress sent issued run Hres Hbase Hstate Hupd Hbus.
  subst run issued sent in_progress w1 w0.
  unfold InstallCluster, result, exec in *. rewrite bind_log.
  destruct (getOrCreateProvisionedCluster m request (write_log LevelDebug "InstallCluster" w))
    as [r w1] eqn:Hgot.
  simpl in Hres, Hupd, Hbus. subst r.
  rewrite (bind_eq _ _ _ _ _ Hgot). rewrite Hbase, Hstate. cbn [ClusterState_eqb negb].
  cbv zeta. destruct request as [rid org cid ct ibs kube host user pk nodes tp ips].
  cbn [InstallRequest.set_ClusterId InstallRequest.OrganizationId InstallRequest.ClusterId
       InstallRequest.RequestId] in *.
  erewrite bind_eq
    by (rewrite updateClusterState_run; cbv zeta; unfold state_update in *;
        rewrite Hupd, Hbus; reflexivity).
  cbv beta iota. rewrite bind_log, bind_call, now_write_log, !now_record.
  destruct (InstallerClient.InstallCluster _ _ _) as [response | iErr]; simpl;
    rewrite <- ?app_assoc; simpl; auto.
Qed.

(** ** From the provisioning to the install *)

Lemma not_an_install_filter (l : list Call) :
  Forall not_an_install l -> filter is_install_call l = [].
Proof.
  induction 1 as [| c l Hc _ IH]; simpl; [reflexivity |]. rewrite Hc. exact IH.
Qed.

Lemma not_an_install_existsb (l : list Call) :
  Forall not_an_install l -> existsb is_install_call l = false.
Proof.
  induction 1 as [| c l Hc _ IH]; simpl; [reflexivity |]. rewrite Hc. exact IH.
Qed.

Lemma attachNodes_loop_launches_nothing m requestID organizationID clusterID nodes :
  forall w, launched (exec (attachNodes_loop m requestID organizationID clusterID nodes) w)
            = launched w.
Proof.
  induction nodes as [| n rest IH]; intro w; [reflexivity |].
  cbn [attachNodes_loop]. cbv zeta. unfold exec in *. rewrite bind_log, bind_call.
  destruct (NodesClient.AddNode _ _ _); [| reflexivity].
  rewrite bind_log, bind_call.
  destruct (NodesClient.AttachNode _ _ _); [| reflexivity].
  rewrite IH. reflexivity.
Qed.

Lemma UpdateCluster_launches_nothing m request w :
  launched (exec (UpdateCluster m request) w) = launched w.
Proof.
  unfold exec. rewrite UpdateCluster_run. cbv zeta.
  destruct (ClustersClient.UpdateCluster _ _ _); [| reflexivity].
  destruct (bus.BusManager.SendEvents _ _ _); reflexivity.
Qed.

(** After a successful provisioning whose state update and discovery went
    through, the callback runs [InstallCluster] on the install request of
    this provisioning, from a world [prepared] that no install request and
    no monitor has been added to. *)
Lemma provisionCallback_reaches_install m requestID organizationID clusterID response
      w c file discovered :
  let request := state_update organizationID clusterID ClusterState_PROVISIONED in
  let installRequest :=
      InstallRequest.mk requestID organizationID clusterID ClusterType_KUBERNETES false
                        (ProvisionClusterResponse.RawKubeConfig response)
                        (ProvisionClusterResponse.Hostname response)
                        "" "" [] Platform_AZURE
                        (ProvisionClusterResponse.StaticIpAddresses response) in
  let w' := exec (provisionCallback m requestID organizationID clusterID
                                    (Some response) None) w in
  provision_failed (ProvisionClusterResponse.State response) None = false ->
  ClustersClient.UpdateCluster (Manager.clusterClient m) (now w) request = Ok c ->
  bus.BusManager.SendEvents (Manager.busManager m) (1 + now w)
                            (bus.UpdateClusterEvent request) = None ->
  host.TempFile (Manager.os m) (2 + now w) (Manager.tempPath m) requestID = Ok file ->
  host.FileWrite (Manager.os m) (3 + now w) file
                 (ProvisionClusterResponse.RawKubeConfig response) = None ->
  host.FileClose (Manager.os m) (4 + now w) file = None ->
  host.Connect (Manager.os m) (5 + now w) file = None ->
  host.Discover (Manager.os m) (6 + now w) file = Ok discovered ->
  exists prepared pre,
    calls prepared = calls w ++ pre
    /\ Forall not_an_install pre
    /\ launched prepared = launched w
    /\ calls w' = calls (exec (InstallCluster m installRequest) prepared)
    /\ launched w' = launched (exec (InstallCluster m installRequest) prepared).
Proof.
  intros request installRequest w' Hfailed Hreg Hbus Htemp Hwrite Hclose Hconnect Hdiscover.
  subst w' installRequest request.
  destruct (ProvisionClusterResponse.State response) eqn:Hstate; try discriminate Hfailed.
  cbn [Nat.add] in *.
  enter_provisionCallback. rewrite !now_write_log, Hreg, Hbus.
  erewrite exec_bind_eq;
    [| apply discoverCluster_run with (file := file) (discovered := discovered);
       rewrite ?now_record, ?now_write_log; assumption ].
  cbv beta iota.
  match goal with
  | |- context [exec (bind (UpdateCluster m ?cu) ?K) ?W] =>
    destruct (exec_bind_returns (UpdateCluster m cu) K W (returns_UpdateCluster m cu))
      as [upd Hupd];
      rewrite Hupd; clear Hupd;
      destruct (emits_calls not_an_install (UpdateCluster m cu) W) as (dc1 & Hdc1 & Hno1);
      [apply emits_UpdateCluster; intros ? H; exact H |];
      pose proof (UpdateCluster_launches_nothing m cu W) as Hl1;
      set (W1 := exec (UpdateCluster m cu) W) in *
  end.
  cbv beta.
  destruct upd; repeat (rewrite exec_bind_log || rewrite exec_bind_ret).
  all: match goal with
       | |- context [exec (bind (attachNodes ?mgr ?a ?b ?c ?d) ?K) ?W] =>
         destruct (exec_bind_returns (attachNodes mgr a b c d) K W
                     (returns_attachNodes_loop mgr a b c _))
           as [attErr Hatt];
           rewrite Hatt; clear Hatt;
           destruct (emits_calls not_an_install (attachNodes mgr a b c d) W) as (dc2 & Hdc2 & Hno2);
           [apply emits_attachNodes; intros ? H; exact H |];
           pose proof (attachNodes_loop_launches_nothing mgr a b c
                         (entities.Cluster.Nodes d) W) as Hl2;
           fold (attachNodes mgr a b c d) in Hl2;
           set (W2 := exec (attachNodes mgr a b c d) W) in *
       end.
  all: cbv beta; destruct attErr; cbn [log_if];
    repeat (rewrite exec_bind_log || rewrite exec_bind_ret).
  all: match goal with
       | |- context [exec (bind (InstallCluster ?mgr ?req) ?K) ?W] =>
         exists W; eexists;
           destruct (exec_bind_silent (InstallCluster mgr req) K W) as [Hc Hl];
           [ intros [? | ?] ?; split; reflexivity |]
       end.
  all: (split;
        [ simpl; rewrite ?Hdc2; simpl; rewrite ?Hdc1; simpl; rewrite <- !app_assoc; simpl;
          reflexivity
        | split; [| split; [| split; [exact Hc | exact Hl]]] ]).
  all: try (simpl; rewrite Hl2; simpl; rewrite Hl1; reflexivity).
  all: repeat first [ assumption | apply Forall_nil | apply Forall_cons; [reflexivity |]
                    | apply Forall_app; split ].
Qed.

(** ... and, for a cluster id that is not empty, what that run of
    [InstallCluster] does when the registry reports the cluster as
    PROVISIONED and the INSTALL_IN_PROGRESS state is written and
    published. *)
Lemma provisionCallback_install_run m requestID organizationID clusterID response
      w c file discovered :
  let request := state_update organizationID clusterID ClusterState_PROVISIONED in
  let installRequest :=
      InstallRequest.mk requestID organizationID clusterID ClusterType_KUBERNETES false
                        (ProvisionClusterResponse.RawKubeConfig response)
                        (ProvisionClusterResponse.Hostname response)
                        "" "" [] Platform_AZURE
                        (ProvisionClusterResponse.StaticIpAddresses response) in
  let w' := exec (provisionCallback m requestID organizationID clusterID
                                    (Some response) None) w in
  provision_failed (ProvisionClusterResponse.State response) None = false ->
  ClustersClient.UpdateCluster (Manager.clusterClient m) (now w) request = Ok c ->
  bus.BusManager.SendEvents (Manager.busManager m) (1 + now w)
                            (bus.UpdateClusterEvent request) = None ->
  host.TempFile (Manager.os m) (2 + now w) (Manager.tempPath m) requestID = Ok file ->
  host.FileWrite (Manager.os m) (3 + now w) file
                 (ProvisionClusterResponse.RawKubeConfig response) = None ->
  host.FileClose (Manager.os m) (4 + now w) file = None ->
  host.Connect (Manager.os m) (5 + now w) file = None ->
  host.Discover (Manager.os m) (6 + now w) file = Ok discovered ->
  exists prepared pre,
    calls prepared = calls w ++ pre
    /\ Forall not_an_install pre
    /\ launched prepared = launched w
    /\ calls w' = calls (exec (InstallCluster m installRequest) prepared)
    /\ launched w' = launched (exec (InstallCluster m installRequest) prepared)
    /\ (clusterID <> "" ->
        forall cluster c2,
          let in_progress :=
              state_update organizationID (Cluster.ClusterId cluster)
                           ClusterState_INSTALL_IN_PROGRESS in
          let sent := InstallRequest.set_ClusterId installRequest (Cluster.ClusterId cluster) in
          ClustersClient.GetCluster (Manager.clusterClient m) (now prepared)
                                    (ClusterId.mk organizationID clusterID) = Ok cluster ->
          Cluster.State cluster = ClusterState_PROVISIONED ->
          ClustersClient.UpdateCluster (Manager.clusterClient m) (1 + now prepared)
                                       in_progress = Ok c2 ->
          bus.BusManager.SendEvents (Manager.busManager m) (2 + now prepared)
                                    (bus.UpdateClusterEvent in_progress) = None ->
          calls w'
          = calls prepared
              ++ [Call_GetCluster (ClusterId.mk organizationID clusterID);
                  Call_UpdateCluster in_progress;
                  Call_SendEvents (bus.UpdateClusterEvent in_progress);
                  Call_InstallCluster sent]
          /\ launched w'
             = launched prepared
                 ++ match InstallerClient.InstallCluster (Manager.installerClient m)
                                                         (3 + now prepared) sent with
                    | Ok answer =>
                      [Monitor.mk (InstallerMonitor (Cluster.ClusterId cluster) answer)
                                  [Ref_installCallback] None true]
                    | Err _ => []
                    end).
Proof.
  intros request installRequest w' Hfailed Hreg Hbus Htemp Hwrite Hclose Hconn Hdisc.
  destruct (provisionCallback_reaches_install
              m requestID organizationID clusterID response w c file discovered
              Hfailed Hreg Hbus Htemp Hwrite Hclose Hconn Hdisc)
    as (prepared & pre & Hpre & Hno & Hmon & Hcalls & Hlaunched).
  fold installRequest in Hcalls, Hlaunched. fold w' in Hcalls, Hlaunched.
  exists prepared, pre. repeat (split; [assumption |]).
  intros Hid cluster c2 in_progress sent Hget Hstate Hupd Hpub.
  assert (Hlook := getOrCreateProvisionedCluster_lookup
                     m installRequest (write_log LevelDebug "InstallCluster" prepared)
                     cluster Hid Hget).
  pose proof (InstallCluster_run m installRequest prepared cluster c2) as Hrun.
  cbv zeta in Hrun. unfold result, exec in Hrun. rewrite Hlook in Hrun.
  cbn [fst snd] in Hrun.
  rewrite !now_write_log, now_record, now_write_log in Hrun.
  specialize (Hrun eq_refl eq_refl Hstate Hupd Hpub).
  rewrite Hcalls, Hlaunched. unfold exec.
  destruct (InstallerClient.InstallCluster _ _ _) as [answer | iErr];
    destruct Hrun as (_ & Hc & Hl); rewrite Hc, Hl; simpl;
    rewrite <- ?app_assoc; simpl; rewrite ?app_nil_r; auto.
Qed.

(** C2 (amended).  On a non-nil final response the provision callback first
    writes the lifecycle state to the registry: FAILURE when the watch
    failed or the progress state is ERROR, PROVISIONED otherwise.  After a
    failure it does nothing else than publish the accepted write: no install
    request is sent and no monitor is launched.  After a success, if the
    state update (registry write and publish) fails, or if the discovery of
    the new cluster fails, the callback stops there: no install request is
    sent and no monitor is launched.  After a success whose state update
    and discovery went through, the callback runs [InstallCluster] on the
    install request of this provisioning, from a world that the callback
    has added no install request and no monitor to; for a non-empty cluster
    id, a cluster that the registry reports as PROVISIONED and an
    INSTALL_IN_PROGRESS state that is written and published, that run looks
    the cluster up, writes and publishes the state and sends the install
    request, and a monitor is launched exactly when the installer accepts
    it.  Every install request sent, in any run,
    carries the request id, the organization id, the kubeconfig and the
    hostname of this provisioning. *)
Theorem provisionCallback_outcome :
  forall (m : Manager.t) (requestID organizationID clusterID : string)
         (response : ProvisionClusterResponse.t) (err : option Error) (w : World),
    let w' := exec (provisionCallback m requestID organizationID clusterID
                                      (Some response) err) w in
    let failed := provision_failed (ProvisionClusterResponse.State response) err in
    let request :=
        state_update organizationID clusterID
                     (if failed then ClusterState_FAILURE else ClusterState_PROVISIONED) in
    let installRequest :=
        InstallRequest.mk requestID organizationID clusterID ClusterType_KUBERNETES false
                          (ProvisionClusterResponse.RawKubeConfig response)
                          (ProvisionClusterResponse.Hostname response)
                          "" "" [] Platform_AZURE
                          (ProvisionClusterResponse.StaticIpAddresses response) in
    let state_updated :=
        (exists c, ClustersClient.UpdateCluster (Manager.clusterClient m) (now w) request
                   = Ok c)
        /\ bus.BusManager.SendEvents (Manager.busManager m) (1 + now w)
                                     (bus.UpdateClusterEvent request) = None in
    let cluster_discovered :=
        exists file discovered,
          host.TempFile (Manager.os m) (2 + now w) (Manager.tempPath m) requestID = Ok file
          /\ host.FileWrite (Manager.os m) (3 + now w) file
                            (ProvisionClusterResponse.RawKubeConfig response) = None
          /\ host.FileClose (Manager.os m) (4 + now w) file = None
          /\ host.Connect (Manager.os m) (5 + now w) file = None
          /\ host.Discover (Manager.os m) (6 + now w) file = Ok discovered in
    let written :=
        Call_UpdateCluster request
          :: match ClustersClient.UpdateCluster (Manager.clusterClient m) (now w) request with
             | Ok _ => [Call_SendEvents (bus.UpdateClusterEvent request)]
             | Err _ => []
             end in
    (exists rest, new_calls w w' = Call_UpdateCluster request :: rest)
    /\ Forall (install_of requestID organizationID response) (new_calls w w')
    /\ (failed = true ->
        new_calls w w' = written
        /\ InstallCluster_invoked (new_logs w w') = false
        /\ new_monitors w w' = [])
    /\ (failed = false -> ~ state_updated ->
        new_calls w w' = written
        /\ InstallCluster_invoked (new_logs w w') = false
        /\ new_monitors w w' = [])
    /\ (failed = false -> state_updated -> ~ cluster_discovered ->
        existsb is_install_call (new_calls w w') = false
        /\ InstallCluster_invoked (new_logs w w') = false
        /\ new_monitors w w' = [])
    /\ (failed = false -> state_updated -> cluster_discovered ->
        exists prepared,
          (exists pre, calls prepared = calls w ++ pre
                       /\ existsb is_install_call pre = false)
          /\ launched prepared = launched w
          /\ calls w' = calls (exec (InstallCluster m installRequest) prepared)
          /\ launched w' = launched (exec (InstallCluster m installRequest) prepared)
          /\ (clusterID <> "" ->
              forall cluster c,
                let in_progress :=
                    state_update organizationID (Cluster.ClusterId cluster)
                                 ClusterState_INSTALL_IN_PROGRESS in
                let sent :=
                    InstallRequest.set_ClusterId installRequest (Cluster.ClusterId cluster) in
                ClustersClient.GetCluster (Manager.clusterClient m) (now prepared)
                                          (ClusterId.mk organizationID clusterID)
                = Ok cluster ->
                Cluster.State cluster = ClusterState_PROVISIONED ->
                ClustersClient.UpdateCluster (Manager.clusterClient m) (1 + now prepared)
                                             in_progress = Ok c ->
                bus.BusManager.SendEvents (Manager.busManager m) (2 + now prepared)
                                          (bus.UpdateClusterEvent in_progress) = None ->
                new_calls prepared w'
                = [Call_GetCluster (ClusterId.mk organizationID clusterID);
                   Call_UpdateCluster in_progress;
                   Call_SendEvents (bus.UpdateClusterEvent in_progress);
                   Call_InstallCluster sent]
                /\ new_monitors w w'
                   = match InstallerClient.InstallCluster (Manager.installerClient m)
                                                          (3 + now prepared) sent with
                     | Ok answer =>
                       [Monitor.mk (InstallerMonitor (Cluster.ClusterId cluster) answer)
                                   [Ref_installCallback] None true]
                     | Err _ => []
                     end)).
Proof.
  intros m requestID organizationID clusterID response err w w' failed request
         installRequest state_updated cluster_discovered written.
  split; [| split; [apply provisionCallback_install_of | split; [| split; [| split]]]].
  - (* the state write comes first *)
    subst w' request failed.
    destruct err as [e |], (ProvisionClusterResponse.State response) eqn:Hstate;
      enter_provisionCallback.
    + destruct (ClustersClient.UpdateCluster _ _ _);
        [destruct (bus.BusManager.SendEvents _ _ _) |]; news; eexists; reflexivity.
    + destruct (ClustersClient.UpdateCluster _ _ _);
        [destruct (bus.BusManager.SendEvents _ _ _) |]; news; eexists; reflexivity.
    + destruct (ClustersClient.UpdateCluster _ _ _);
        [destruct (bus.BusManager.SendEvents _ _ _) |]; news; eexists; reflexivity.
    + destruct (ClustersClient.UpdateCluster _ _ _);
        [destruct (bus.BusManager.SendEvents _ _ _) |].
      * news; eexists; reflexivity.
      * match goal with
        | |- context [exec ?c ?w2] =>
          destruct (emits_calls any_call c w2) as (dc & Hdc & _); [steady_run |]
        end.
        unfold new_calls. rewrite Hdc. news. eexists; reflexivity.
      * news; eexists; reflexivity.
  - (* a failed provisioning *)
    intro Hfailed. subst w' written request.
    destruct err as [e |], (ProvisionClusterResponse.State response) eqn:Hstate;
      subst failed; try discriminate Hfailed; enter_provisionCallback;
      cbn [provision_failed];
      (destruct (ClustersClient.UpdateCluster _ _ _);
       [destruct (bus.BusManager.SendEvents _ _ _) |]); news; auto.
  - (* a successful provisioning whose state update fails *)
    intros Hfailed Hnot. subst w' written state_updated request.
    destruct err as [e |], (ProvisionClusterResponse.State response) eqn:Hstate;
      subst failed; try discriminate Hfailed.
    cbn [provision_failed Nat.add] in *.
    enter_provisionCallback. rewrite !now_write_log.
    destruct (ClustersClient.UpdateCluster _ _ _) as [c |];
      [destruct (bus.BusManager.SendEvents _ _ _) |].
    + news; auto.
    + exfalso. apply Hnot. split; [exists c |]; reflexivity.
    + news; auto.
  - (* a successful provisioning whose cluster is not discovered *)
    intros Hfailed [[c Hreg] Hbus] Hnot.
    subst w' cluster_discovered request.
    destruct err as [e |], (ProvisionClusterResponse.State response) eqn:Hstate;
      subst failed; try discriminate Hfailed.
    cbn [provision_failed Nat.add] in *.
    enter_provisionCallback. rewrite !now_write_log, Hreg, Hbus.
    unfold exec, bind. rewrite discoverCluster_cases. cbv zeta.
    rewrite !now_record, !now_write_log. cbn [Nat.add].
    destruct (host.TempFile _ _ _ _) as [file |] eqn:Htemp; [| news; auto].
    destruct (host.FileWrite _ _ _ _) eqn:Hwrite; [news; auto |].
    destruct (host.FileClose _ _ _) eqn:Hclose; [news; auto |].
    destruct (host.Connect _ _ _) eqn:Hconn; [news; auto |].
    destruct (host.Discover _ _ _) as [discovered |] eqn:Hdisc; [| news; auto].
    exfalso. apply Hnot. exists file, discovered. auto.
  - (* a successful provisioning that reaches the install *)
    intros Hfailed [[c Hreg] Hbus] (file & discovered & Htemp & Hwrite & Hclose & Hconn & Hdisc).
    subst cluster_discovered state_updated written.
    destruct err as [e |]; subst failed; [discriminate Hfailed |].
    subst request. rewrite Hfailed in Hreg, Hbus.
    destruct (provisionCallback_install_run
                m requestID organizationID clusterID response w c file discovered
                Hfailed Hreg Hbus Htemp Hwrite Hclose Hconn Hdisc)
      as (prepared & pre & Hpre & Hno & Hmon & Hcalls & Hlaunched & Hinstall).
    fold installRequest in Hcalls, Hlaunched, Hinstall. fold w' in Hcalls, Hlaunched, Hinstall.
    exists prepared.
    split; [exists pre; split; [exact Hpre | apply not_an_install_existsb; exact Hno] |].
    split; [exact Hmon |].
    split; [exact Hcalls |]. split; [exact Hlaunched |].
    intros Hid cluster c2 in_progress sent Hget Hstate Hupd Hpub.
    destruct (Hinstall Hid cluster c2 Hget Hstate Hupd Hpub) as [Hc Hl].
    unfold new_calls, new_monitors. rewrite Hc, Hl, skipn_length_app, <- Hmon, skipn_length_app.
    auto.
Qed.

Lemma provisionCallback_outcome_witness :
  (exists prepared,
      new_calls prepared
                (exec (provisionCallback scenarios.healthy "r1" "o1" "c1"
                                         (Some scenarios.provisioned_ok) None) initial)
      = [Call_GetCluster (ClusterId.mk "o1" "c1");
         Call_UpdateCluster (state_update "o1" "c1" ClusterState_INSTALL_IN_PROGRESS);
         Call_SendEvents (bus.UpdateClusterEvent
                            (state_update "o1" "c1" ClusterState_INSTALL_IN_PROGRESS));
         Call_InstallCluster
           (InstallRequest.mk "r1" "o1" "c1" ClusterType_KUBERNETES false "kubeconfig"
                              "c1.example" "" "" [] Platform_AZURE None)])
  /\ calls (exec (provisionCallback scenarios.healthy "r1" "o1" "c1"
                                    (Some scenarios.provisioned_error) None) initial)
     = [Call_UpdateCluster (state_update "o1" "c1" ClusterState_FAILURE);
        Call_SendEvents (bus.UpdateClusterEvent
                           (state_update "o1" "c1" ClusterState_FAILURE))].
Proof.
  split.
  - destruct (provisionCallback_outcome scenarios.healthy "r1" "o1" "c1"
                                        scenarios.provisioned_ok None initial)
      as (_ & _ & _ & _ & _ & Hok).
    destruct (Hok eq_refl) as (prepared & _ & _ & _ & _ & Hinstall).
    + split; [| reflexivity].
      exists (scenarios.a_cluster "o1" "c1" ClusterState_PROVISIONED
                                  ClusterStatus_ONLINE_CORDON).
      reflexivity.
    + exists "/tmp/nalej/r1", scenarios.discovered. repeat split.
    + exists prepared.
      assert (Hid : "c1" <> "") by discriminate.
      destruct (Hinstall Hid
                  (scenarios.a_cluster "o1" "c1" ClusterState_PROVISIONED
                                       ClusterStatus_ONLINE_CORDON)
                  (scenarios.a_cluster "o1" "c1" ClusterState_PROVISIONED
                                       ClusterStatus_ONLINE_CORDON)
                  eq_refl eq_refl eq_refl eq_refl) as (Hcalls & _).
      exact Hcalls.
  - destruct (provisionCallback_outcome scenarios.healthy "r1" "o1" "c1"
                                        scenarios.provisioned_error None initial)
      as (_ & _ & Hfail & _).
    destruct (Hfail eq_refl) as (Hcalls & _). exact Hcalls.
Defined.

(** C2, as stated, fails: the provisioning succeeded and the state
    PROVISIONED is written, but the new cluster does not answer the
    discovery helper, and the callback stops there: [InstallCluster] is not
    invoked and no install request is sent. *)
Lemma provisioning_succeeded_without_install :
  let w' := exec (provisionCallback scenarios.undiscoverable "r1" "o1" "c1"
                                    (Some scenarios.provisioned_ok) None) initial in
  provision_failed (ProvisionClusterResponse.State scenarios.provisioned_ok) None = false
  /\ hd_error (calls w')
     = Some (Call_UpdateCluster (state_update "o1" "c1" ClusterState_PROVISIONED))
  /\ existsb is_install_call (calls w') = false
  /\ InstallCluster_invoked (logs w') = false.
Proof. repeat split. Qed.

(** C8.  Every install request that a run of the provision callback sends to
    the installer has its target platform set to AZURE, whatever the
    callback was handed: the callback does not see the provision request and
    writes the platform as a constant.  And the request is sent: after a
    successful provisioning of a cluster with a non-empty id, when the state
    update and the discovery go through, the registry reports the cluster
    as PROVISIONED and the INSTALL_IN_PROGRESS state is written and
    published, the callback sends exactly one install request; it is the
    one of this provisioning and its target platform is AZURE. *)
Theorem provisionCallback_installs_on_azure :
  forall (m : Manager.t) (requestID organizationID clusterID : string)
         (lastResponse : option ProvisionClusterResponse.t) (err : option Error)
         (w : World),
    let w' := exec (provisionCallback m requestID organizationID clusterID
                                      lastResponse err) w in
    Forall (installs_on Platform_AZURE) (new_calls w w')
    /\ (forall (response : ProvisionClusterResponse.t) (c : Cluster.t) (file : string)
               (discovered : entities.Cluster.t),
           let request := state_update organizationID clusterID ClusterState_PROVISIONED in
           let in_progress id :=
               state_update organizationID id ClusterState_INSTALL_IN_PROGRESS in
           lastResponse = Some response ->
           provision_failed (ProvisionClusterResponse.State response) err = false ->
           clusterID <> "" ->
           ClustersClient.UpdateCluster (Manager.clusterClient m) (now w) request = Ok c ->
           bus.BusManager.SendEvents (Manager.busManager m) (1 + now w)
                                     (bus.UpdateClusterEvent request) = None ->
           host.TempFile (Manager.os m) (2 + now w) (Manager.tempPath m) requestID
           = Ok file ->
           host.FileWrite (Manager.os m) (3 + now w) file
                          (ProvisionClusterResponse.RawKubeConfig response) = None ->
           host.FileClose (Manager.os m) (4 + now w) file = None ->
           host.Connect (Manager.os m) (5 + now w) file = None ->
           host.Discover (Manager.os m) (6 + now w) file = Ok discovered ->
           (forall t, exists cluster,
                 ClustersClient.GetCluster (Manager.clusterClient m) t
                                           (ClusterId.mk organizationID clusterID)
                 = Ok cluster
                 /\ Cluster.State cluster = ClusterState_PROVISIONED) ->
           (forall t id, exists c2,
                 ClustersClient.UpdateCluster (Manager.clusterClient m) t (in_progress id)
                 = Ok c2) ->
           (forall t id,
               bus.BusManager.SendEvents (Manager.busManager m) t
                                         (bus.UpdateClusterEvent (in_progress id)) = None) ->
           exists sent,
             filter is_install_call (new_calls w w') = [Call_InstallCluster sent]
             /\ InstallRequest.TargetPlatform sent = Platform_AZURE
             /\ InstallRequest.RequestId sent = requestID
             /\ InstallRequest.OrganizationId sent = organizationID
             /\ InstallRequest.KubeConfigRaw sent
                = ProvisionClusterResponse.RawKubeConfig response
             /\ InstallRequest.Hostname sent = ProvisionClusterResponse.Hostname response).
Proof.
  intros m requestID organizationID clusterID lastResponse err w w'. split.
  - destruct (emits_provisionCallback m (installs_on Platform_AZURE))
      with (requestID := requestID) (organizationID := organizationID)
           (clusterID := clusterID) (lastResponse := lastResponse) (err := err) (w := w)
      as (dc & dl & dm & Hext & HP).
    + intros c Hc. destruct c; simpl in *; try exact I. discriminate.
    + intros response id _. reflexivity.
    + apply extends_by_new in Hext. destruct Hext as (Hcalls & _).
      subst w'. rewrite Hcalls. exact HP.
  - intros response c file discovered request in_progress Hlast Hfailed Hid
           Hreg Hbus Htemp Hwrite Hclose Hconn Hdisc Hget Hupd Hpub.
    subst lastResponse. destruct err as [e |]; [discriminate Hfailed |].
    destruct (provisionCallback_install_run
                m requestID organizationID clusterID response w c file discovered
                Hfailed Hreg Hbus Htemp Hwrite Hclose Hconn Hdisc)
      as (prepared & pre & Hpre & Hno & _ & _ & _ & Hinstall).
    destruct (Hget (now prepared)) as (cluster & Hg & Hstate).
    destruct (Hupd (1 + now prepared) (Cluster.ClusterId cluster)) as [c2 Hu].
    destruct (Hinstall Hid cluster c2 Hg Hstate Hu
                       (Hpub (2 + now prepared) (Cluster.ClusterId cluster)))
      as [Hcalls _].
    eexists. split.
    + subst w'. unfold new_calls. rewrite Hcalls, Hpre, <- app_assoc, skipn_length_app.
      rewrite filter_app, (not_an_install_filter _ Hno). reflexivity.
    + repeat split.
Qed.

Lemma provisionCallback_installs_on_azure_witness :
  exists sent,
    filter is_install_call
           (new_calls initial
                      (exec (provisionCallback scenarios.healthy "r1" "o1" "c1"
                                               (Some scenarios.provisioned_ok) None)
                            initial))
    = [Call_InstallCluster sent]
    /\ InstallRequest.TargetPlatform sent = Platform_AZURE.
Proof.
  destruct (provisionCallback_installs_on_azure
              scenarios.healthy "r1" "o1" "c1" (Some scenarios.provisioned_ok) None initial)
    as (_ & Hsent).
  assert (Hid : "c1" <> "") by discriminate.
  destruct (Hsent scenarios.provisioned_ok
                  (scenarios.a_cluster "o1" "c1" ClusterState_PROVISIONED
                                       ClusterStatus_ONLINE_CORDON)
                  "/tmp/nalej/r1" scenarios.discovered
                  eq_refl eq_refl Hid eq_refl eq_refl eq_refl eq_refl eq_refl eq_refl eq_refl)
    as (sent & Hcalls & Hplatform & _).
  - intro t. eexists. split; reflexivity.
  - intros t id. eexists. reflexivity.
  - intros t id. reflexivity.
  - exists sent. split; assumption.
Defined.

(** ** Uninstall *)

Lemma ClusterStatus_eqb_eq (a b : ClusterStatus) : ClusterStatus_eqb a b = true <-> a = b.
Proof.
  destruct a, b; simpl; split; intro H; try congruence.
  - apply Z.eqb_eq in H. congruence.
  - inversion H. apply Z.eqb_refl.
Qed.

(** The loops of [clusterHasApps] find a service instance exactly when the
    listing has one on the cluster. *)
Lemma deployed_on_spec (organizationID clusterID : string) (apps : AppInstanceList.t) :
  deployed_on organizationID clusterID apps = true
  <-> has_service_instance_on organizationID clusterID apps.
Proof.
  unfold deployed_on, has_service_instance_on. rewrite existsb_exists. split.
  - intros (inst & Hinst & H). apply existsb_exists in H. destruct H as (sg & Hsg & H).
    apply existsb_exists in H. destruct H as (s & Hs & H).
    apply andb_true_iff in H. destruct H as [Ho Hc].
    apply String.eqb_eq in Ho, Hc. exists inst, sg, s. auto.
  - intros (inst & sg & s & Hinst & Hsg & Hs & Ho & Hc).
    exists inst. split; [exact Hinst |].
    apply existsb_exists. exists sg. split; [exact Hsg |].
    apply existsb_exists. exists s. split; [exact Hs |].
    apply andb_true_iff. split; apply String.eqb_eq; assumption.
Qed.

(** The run of [canUninstallCluster] once the registry and the application
    inventory have answered. *)
Lemma canUninstallCluster_run m organizationID clusterID cluster apps w :
  ClustersClient.GetCluster (Manager.clusterClient m) (now w)
                            (ClusterId.mk organizationID clusterID) = Ok cluster ->
  ApplicationsClient.ListAppInstances (Manager.appClient m) (1 + now w)
                                      (OrganizationId.mk organizationID) = Ok apps ->
  canUninstallCluster m organizationID clusterID w =
  (Done (if deployed_on organizationID clusterID apps
         then Some (NewFailedPreconditionError "target cluster has deployed applications")
         else if negb (ClusterStatus_eqb (Cluster.ClusterStatus cluster)
                                         ClusterStatus_ONLINE_CORDON)
              then Some (NewFailedPreconditionError
                           "target cluster must be online and cordoned")
              else None),
   record (Call_ListAppInstances (OrganizationId.mk organizationID))
          (record (Call_GetCluster (ClusterId.mk organizationID clusterID)) w)).
Proof.
  intros Hget Hlist. cbn [Nat.add] in Hlist.
  unfold canUninstallCluster, clusterHasApps. cbv zeta.
  rewrite bind_call, Hget, bind_assoc, bind_call, now_record, Hlist, bind_ret.
  destruct (deployed_on organizationID clusterID apps); [reflexivity |].
  destruct (negb _); reflexivity.
Qed.

(** C5.  Let the registry answer the lookup of the target cluster and the
    application inventory answer the listing.  If the connectivity status of
    the cluster is not ONLINE_CORDON, or some service instance is deployed on
    the cluster, [Uninstall] returns a failed-precondition error and has done
    nothing but these two reads: no write, no monitor.  If the status is
    ONLINE_CORDON and no service instance is deployed on the cluster, the
    check passes whatever the lifecycle state of the cluster is: [Uninstall]
    goes on to write the state UNINSTALLING and, when that transition and
    the call to the installer succeed, returns the installer's response and
    launches the monitor. *)
Theorem Uninstall_preconditions :
  forall (m : Manager.t) (request : UninstallClusterRequest.t)
         (token : option DecommissionCallback.t) (w : World)
         (cluster : Cluster.t) (apps : AppInstanceList.t),
    let organizationID := UninstallClusterRequest.OrganizationId request in
    let clusterID := UninstallClusterRequest.ClusterId request in
    let run := Uninstall m request token in
    ClustersClient.GetCluster (Manager.clusterClient m) (now w)
                              (ClusterId.mk organizationID clusterID) = Ok cluster ->
    ApplicationsClient.ListAppInstances (Manager.appClient m) (1 + now w)
                                        (OrganizationId.mk organizationID) = Ok apps ->
    (Cluster.ClusterStatus cluster <> ClusterStatus_ONLINE_CORDON
     \/ has_service_instance_on organizationID clusterID apps ->
     (exists msg, result run w = Done (Err (NewFailedPreconditionError msg)))
     /\ new_calls w (exec run w)
        = [Call_GetCluster (ClusterId.mk organizationID clusterID);
           Call_ListAppInstances (OrganizationId.mk organizationID)]
     /\ new_monitors w (exec run w) = [])
    /\ (Cluster.ClusterStatus cluster = ClusterStatus_ONLINE_CORDON ->
        ~ has_service_instance_on organizationID clusterID apps ->
        result (canUninstallCluster m organizationID clusterID) w = Done None
        /\ exists rest,
            new_calls w (exec run w)
            = Call_GetCluster (ClusterId.mk organizationID clusterID)
                :: Call_ListAppInstances (OrganizationId.mk organizationID)
                :: Call_UpdateCluster
                     (state_update organizationID clusterID ClusterState_UNINSTALLING)
                :: rest)
    /\ (Cluster.ClusterStatus cluster = ClusterStatus_ONLINE_CORDON ->
        ~ has_service_instance_on organizationID clusterID apps ->
        forall c response,
          ClustersClient.UpdateCluster
            (Manager.clusterClient m) (2 + now w)
            (state_update organizationID clusterID ClusterState_UNINSTALLING) = Ok c ->
          bus.BusManager.SendEvents
            (Manager.busManager m) (3 + now w)
            (bus.UpdateClusterEvent
               (state_update organizationID clusterID ClusterState_UNINSTALLING)) = None ->
          InstallerClient.UninstallCluster (Manager.installerClient m) (4 + now w) request
          = Ok response ->
          result run w = Done (Ok response)
          /\ new_monitors w (exec run w)
             = [Monitor.mk (InstallerMonitor clusterID response)
                           [Ref_uninstallCallback] token true]).
Proof.
  intros m request token w cluster apps organizationID clusterID run Hget Hlist.
  assert (Hcan := canUninstallCluster_run m organizationID clusterID cluster apps
                    (write_log LevelDebug "Uninstall request" w) Hget Hlist).
  split; [| split].
  - intro Hpre.
    assert (Hrej : exists msg,
               (if deployed_on organizationID clusterID apps
                then Some (NewFailedPreconditionError "target cluster has deployed applications")
                else if negb (ClusterStatus_eqb (Cluster.ClusterStatus cluster)
                                                ClusterStatus_ONLINE_CORDON)
                     then Some (NewFailedPreconditionError
                                  "target cluster must be online and cordoned")
                     else None) = Some (NewFailedPreconditionError msg)).
    { destruct (deployed_on organizationID clusterID apps) eqn:Hdep; [eauto |].
      destruct (ClusterStatus_eqb _ _) eqn:Hst; simpl; [| eauto].
      apply ClusterStatus_eqb_eq in Hst. destruct Hpre as [Hs | Ha]; [congruence |].
      apply deployed_on_spec in Ha. congruence. }
    destruct Hrej as [msg Hmsg]. rewrite Hmsg in Hcan.
    subst run. unfold Uninstall, result, exec. rewrite bind_log.
    fold organizationID clusterID. rewrite (bind_eq _ _ _ _ _ Hcan).
    split; [exists msg; reflexivity |]. news. auto.
  - intros Hstatus Happs.
    assert (Hdep : deployed_on organizationID clusterID apps = false).
    { destruct (deployed_on organizationID clusterID apps) eqn:Hdep; [| reflexivity].
      apply deployed_on_spec in Hdep. contradiction. }
    assert (Hst : ClusterStatus_eqb (Cluster.ClusterStatus cluster)
                                    ClusterStatus_ONLINE_CORDON = true)
      by (apply ClusterStatus_eqb_eq; exact Hstatus).
    rewrite Hdep, Hst in Hcan. simpl in Hcan.
    split.
    + unfold result.
      rewrite (canUninstallCluster_run m organizationID clusterID cluster apps w Hget Hlist).
      rewrite Hdep, Hst. reflexivity.
    + subst run. unfold Uninstall. rewrite exec_bind_log.
      fold organizationID clusterID.
      rewrite (exec_bind_eq _ _ _ _ _ Hcan).
      rewrite exec_bind_updateClusterState. cbv zeta.
      destruct (ClustersClient.UpdateCluster _ _ _);
        [destruct (bus.BusManager.SendEvents _ _ _) |].
      * news. eexists. reflexivity.
      * match goal with
        | |- context [exec ?c ?w2] =>
          destruct (emits_calls any_call c w2) as (dc & Hdc & _); [steady_run |]
        end.
        unfold new_calls. rewrite Hdc. news. eexists. reflexivity.
      * news. eexists. reflexivity.
  - intros Hstatus Happs c response Hreg Hbus Hun. cbn [Nat.add] in Hreg, Hbus, Hun.
    assert (Hdep : deployed_on organizationID clusterID apps = false).
    { destruct (deployed_on organizationID clusterID apps) eqn:Hdep; [| reflexivity].
      apply deployed_on_spec in Hdep. contradiction. }
    assert (Hst : ClusterStatus_eqb (Cluster.ClusterStatus cluster)
                                    ClusterStatus_ONLINE_CORDON = true)
      by (apply ClusterStatus_eqb_eq; exact Hstatus).
    rewrite Hdep, Hst in Hcan. simpl in Hcan.
    subst run. unfold Uninstall, result, exec. rewrite bind_log.
    fold organizationID clusterID. rewrite (bind_eq _ _ _ _ _ Hcan).
    erewrite bind_eq;
      [| rewrite updateClusterState_run; cbv zeta;
         rewrite !now_record, !now_write_log, Hreg, Hbus; reflexivity ].
    cbv beta iota. rewrite bind_call, !now_record, !now_write_log, Hun.
    split; [reflexivity |]. news. reflexivity.
Qed.

Lemma Uninstall_preconditions_witness :
  (exists msg,
      result (Uninstall (scenarios.manager ClusterState_INSTALLED ClusterStatus_ONLINE_CORDON
                                           [scenarios.an_app "o1" "c1"] false false)
                        scenarios.uninstall_on_azure None) initial
      = Done (Err (NewFailedPreconditionError msg)))
  /\ result (Uninstall scenarios.healthy scenarios.uninstall_on_azure None) initial
     = Done (Ok (scenarios.in_progress "o1" "")).
Proof.
  split.
  - destruct (Uninstall_preconditions
                (scenarios.manager ClusterState_INSTALLED ClusterStatus_ONLINE_CORDON
                                   [scenarios.an_app "o1" "c1"] false false)
                scenarios.uninstall_on_azure None initial
                (scenarios.a_cluster "o1" "c1" ClusterState_INSTALLED
                                     ClusterStatus_ONLINE_CORDON)
                (AppInstanceList.mk [scenarios.an_app "o1" "c1"])
                eq_refl eq_refl) as (Hrej & _).
    apply Hrej. right.
    exists (scenarios.an_app "o1" "c1"),
           (ServiceGroupInstance.mk [ServiceInstance.mk "o1" "c1"]),
           (ServiceInstance.mk "o1" "c1").
    simpl. auto.
  - destruct (Uninstall_preconditions
                scenarios.healthy scenarios.uninstall_on_azure None initial
                (scenarios.a_cluster "o1" "c1" ClusterState_PROVISIONED
                                     ClusterStatus_ONLINE_CORDON)
                (AppInstanceList.mk [])
                eq_refl eq_refl) as (_ & _ & Hacc).
    apply (Hacc eq_refl) with
        (c := scenarios.a_cluster "o1" "c1" ClusterState_PROVISIONED
                                  ClusterStatus_ONLINE_CORDON);
      try reflexivity.
    intros (inst & sg & s & Hin & _). destruct Hin.
Defined.




(** After a failed uninstall the token is not used: the state FAILURE is
    written and published, and no decommission request is sent. *)
Example failed_uninstall_is_not_decommissioned :
  calls (exec (InstallerMonitor_complete
                 scenarios.healthy scenarios.node_state_of
                 (Monitor.mk (InstallerMonitor "c1" scenarios.finished_failed)
                             [Ref_uninstallCallback]
                             (Some (DecommissionCallback.mk scenarios.decommission_c1))
                             true)
                 "r1" "o1" "c1" (Some scenarios.finished_failed) None) initial)
  = [Call_UpdateCluster (state_update "o1" "c1" ClusterState_FAILURE);
     Call_SendEvents (bus.UpdateClusterEvent (state_update "o1" "c1" ClusterState_FAILURE))].
Proof. reflexivity. Qed.


(** The install callback, for comparison, lists the nodes of the cluster and
    updates each of them. *)
Example installCallback_updates_the_nodes :
  calls (exec (installCallback scenarios.healthy scenarios.node_state_of "r1" "o1" "c1"
                               (Some scenarios.finished_ok) None) initial)
  = [Call_UpdateCluster (state_update "o1" "c1" ClusterState_INSTALLED);
     Call_SendEvents (bus.UpdateClusterEvent (state_update "o1" "c1" ClusterState_INSTALLED));
     Call_ListNodes (ClusterId.mk "o1" "c1");
     Call_UpdateNode (UpdateNodeRequest.mk "o1" "n1" true 1%Z true 2%Z false []);
     Call_UpdateNode (UpdateNodeRequest.mk "o1" "n2" true 1%Z true 2%Z false [])].
Proof. reflexivity. Qed.

(* ===================================================================== *)
(** ** The validators, one by one *)
(* ===================================================================== *)

(** X1.  [ValidScaleClusterRequest] accepts a request exactly when the
    request id is empty, the organization and cluster ids are set, the
    cluster is not a management cluster and, on Azure, the credentials are
    present and the options carry a non-empty resource group. *)
Theorem ValidScaleClusterRequest_accepts_iff (r : ScaleClusterRequest.t) :
  entities.ValidScaleClusterRequest r = None <->
  ScaleClusterRequest.RequestId r = ""
  /\ ScaleClusterRequest.OrganizationId r <> ""
  /\ ScaleClusterRequest.ClusterId r <> ""
  /\ ScaleClusterRequest.IsManagementCluster r = false
  /\ (ScaleClusterRequest.TargetPlatform r = Platform_AZURE ->
      ScaleClusterRequest.AzureCredentials r <> None
      /\ exists o, ScaleClusterRequest.AzureOptions r = Some o
                   /\ AzureOptions.ResourceGroup o <> "").
Proof.
  unfold entities.ValidScaleClusterRequest, entities.no_resource_group.
  destruct r as [rid org cid mgmt tp creds opts]; simpl.
  destruct rid, org, cid, mgmt, tp, creds as [c |], opts as [[rg] |]; simpl;
    try destruct rg; simpl;
    (split;
     [ intro H; try discriminate H; repeat split; try congruence;
       try (intro Hp; discriminate Hp);
       try (eexists; split; [reflexivity | simpl; congruence])
     | intros (H1 & H2 & H3 & H4 & H5); try congruence;
       try (destruct (H5 eq_refl) as (Hc & o & Ho & Hrg); simpl in *;
            inversion Ho; subst; simpl in *; congruence) ]).
Qed.

Lemma ValidScaleClusterRequest_accepts_iff_witness :
  entities.ValidScaleClusterRequest
    (ScaleClusterRequest.mk "" "o1" "c1" false Platform_AZURE
       (Some (AzureCredentials.mk "secret")) (Some (AzureOptions.mk "rg"))) = None.
Proof.
  apply ValidScaleClusterRequest_accepts_iff. simpl.
  repeat split; try discriminate.
  exists (AzureOptions.mk "rg"). split; [reflexivity | discriminate].
Defined.

(** X2.  [ValidDecommissionClusterRequest] accepts a request exactly when
    the request id is empty, the organization and cluster ids are set, the
    cluster is not a management cluster and, on Azure, the credentials are
    present and the options carry a non-empty resource group. *)
Theorem ValidDecommissionClusterRequest_accepts_iff (r : DecommissionClusterRequest.t) :
  entities.ValidDecommissionClusterRequest r = None <->
  DecommissionClusterRequest.RequestId r = ""
  /\ DecommissionClusterRequest.OrganizationId r <> ""
  /\ DecommissionClusterRequest.ClusterId r <> ""
  /\ DecommissionClusterRequest.IsManagementCluster r = false
  /\ (DecommissionClusterRequest.TargetPlatform r = Platform_AZURE ->
      DecommissionClusterRequest.AzureCredentials r <> None
      /\ exists o, DecommissionClusterRequest.AzureOptions r = Some o
                   /\ AzureOptions.ResourceGroup o <> "").
Proof.
  unfold entities.ValidDecommissionClusterRequest, entities.no_resource_group.
  destruct r as [rid org cid ct mgmt tp creds opts]; simpl.
  destruct rid, org, cid, mgmt, tp, creds as [c |], opts as [[rg] |]; simpl;
    try destruct rg; simpl;
    (split;
     [ intro H; try discriminate H; repeat split; try congruence;
       try (intro Hp; discriminate Hp);
       try (eexists; split; [reflexivity | simpl; congruence])
     | intros (H1 & H2 & H3 & H4 & H5); try congruence;
       try (destruct (H5 eq_refl) as (Hc & o & Ho & Hrg); simpl in *;
            inversion Ho; subst; simpl in *; congruence) ]).
Qed.

Lemma ValidDecommissionClusterRequest_accepts_iff_witness :
  entities.ValidDecommissionClusterRequest scenarios.decommission_c1 = None.
Proof.
  apply ValidDecommissionClusterRequest_accepts_iff. simpl.
  repeat split; try discriminate.
  exists (AzureOptions.mk "rg"). split; [reflexivity | discriminate].
Defined.

(** X3.  [ValidProvisionClusterRequest] accepts a request exactly when the
    request id and the organization id are set, the cluster is not a
    management cluster, the number of nodes is positive, the node type is
    set and, on Azure, credentials and options are present.  Unlike the
    scale and decommission validators it does not look into the options:
    the verdict is the same for any two option values. *)
Theorem ValidProvisionClusterRequest_accepts_iff (r : ProvisionClusterRequest.t) :
  (entities.ValidProvisionClusterRequest r = None <->
   ProvisionClusterRequest.RequestId r <> ""
   /\ ProvisionClusterRequest.IsManagementCluster r = false
   /\ ProvisionClusterRequest.OrganizationId r <> ""
   /\ (0 < ProvisionClusterRequest.NumNodes r)%Z
   /\ ProvisionClusterRequest.NodeType r <> ""
   /\ (ProvisionClusterRequest.TargetPlatform r = Platform_AZURE ->
       ProvisionClusterRequest.AzureCredentials r <> None
       /\ ProvisionClusterRequest.AzureOptions r <> None))
  /\ (forall o o',
         entities.ValidProvisionClusterRequest
           (ProvisionClusterRequest.set_Azure r (ProvisionClusterRequest.AzureCredentials r)
                                              (Some o))
         = entities.ValidProvisionClusterRequest
             (ProvisionClusterRequest.set_Azure r (ProvisionClusterRequest.AzureCredentials r)
                                                (Some o'))).
Proof.
  split.
  - apply ValidProvisionClusterRequest_accepts.
  - intros o o'. reflexivity.
Qed.

Lemma ValidProvisionClusterRequest_accepts_iff_witness :
  entities.ValidProvisionClusterRequest
    (ProvisionClusterRequest.set_Azure scenarios.valid_provision
       (Some (AzureCredentials.mk "secret")) (Some (AzureOptions.mk ""))) = None.
Proof.
  apply ValidProvisionClusterRequest_accepts_iff. simpl.
  repeat split; try discriminate; reflexivity.
Defined.

(** X4.  [ValidUninstallClusterRequest] accepts a request exactly when the
    request id is empty and the organization id, the cluster id and the raw
    kubeconfig are set. *)
Theorem ValidUninstallClusterRequest_accepts_iff (r : UninstallClusterRequest.t) :
  entities.ValidUninstallClusterRequest r = None <->
  UninstallClusterRequest.RequestId r = ""
  /\ UninstallClusterRequest.OrganizationId r <> ""
  /\ UninstallClusterRequest.ClusterId r <> ""
  /\ UninstallClusterRequest.KubeConfigRaw r <> "".
Proof.
  unfold entities.ValidUninstallClusterRequest.
  destruct r as [rid org cid ct kube tp]; simpl.
  destruct rid, org, cid, kube; simpl;
    (split; [ intro H; try discriminate H; repeat split; congruence
            | intros (H1 & H2 & H3 & H4); congruence ]).
Qed.

Lemma ValidUninstallClusterRequest_accepts_iff_witness :
  entities.ValidUninstallClusterRequest scenarios.uninstall_on_azure = None.
Proof.
  apply ValidUninstallClusterRequest_accepts_iff. simpl.
  repeat split; discriminate.
Defined.

(** X5.  [ValidClusterId] accepts exactly the identifiers whose organization
    id and cluster id are both set; the organization id is checked first, so
    an identifier with both parts empty is reported for its organization
    id.  What [ValidClusterId] accepts, [ValidOrganizationId] accepts for
    the same organization. *)
Theorem ValidClusterId_accepts_iff (clusterID : ClusterId.t) :
  (entities.ValidClusterId clusterID = None <->
   ClusterId.OrganizationId clusterID <> "" /\ ClusterId.ClusterId clusterID <> "")
  /\ (ClusterId.OrganizationId clusterID = "" ->
      entities.ValidClusterId clusterID
      = Some (NewInvalidArgumentError "organization_id cannot be empty"))
  /\ (ClusterId.OrganizationId clusterID <> "" -> ClusterId.ClusterId clusterID = "" ->
      entities.ValidClusterId clusterID
      = Some (NewInvalidArgumentError "cluster_id cannot be empty"))
  /\ (entities.ValidClusterId clusterID = None ->
      entities.ValidOrganizationId
        (OrganizationId.mk (ClusterId.OrganizationId clusterID)) = None).
Proof.
  unfold entities.ValidClusterId, entities.ValidOrganizationId.
  destruct clusterID as [org cid]; simpl.
  destruct org, cid; simpl; repeat split; intros; try congruence;
    match goal with
    | H : _ /\ _ |- _ => destruct H; congruence
    end.
Qed.

Lemma ValidClusterId_accepts_iff_witness :
  entities.ValidClusterId (ClusterId.mk "o1" "c1") = None
  /\ entities.ValidClusterId (ClusterId.mk "" "")
     = Some (NewInvalidArgumentError "organization_id cannot be empty").
Proof.
  destruct (ValidClusterId_accepts_iff (ClusterId.mk "o1" "c1")) as (Hacc & _).
  destruct (ValidClusterId_accepts_iff (ClusterId.mk "" "")) as (_ & Horg & _).
  split.
  - apply Hacc. simpl. split; discriminate.
  - apply Horg. reflexivity.
Defined.

(** X6.  [ValidRemoveNodesRequest] accepts a request exactly when the
    request id and the organization id are set and at least one node is
    named. *)
Theorem ValidRemoveNodesRequest_accepts_iff (r : RemoveNodesRequest.t) :
  entities.ValidRemoveNodesRequest r = None <->
  RemoveNodesRequest.RequestId r <> ""
  /\ RemoveNodesRequest.OrganizationId r <> ""
  /\ RemoveNodesRequest.Nodes r <> [].
Proof.
  unfold entities.ValidRemoveNodesRequest.
  destruct r as [rid org nodes]; simpl.
  destruct rid, org, nodes; simpl;
    (split; [ intro H; try discriminate H; repeat split; congruence
            | intros (H1 & H2 & H3); congruence ]).
Qed.

Lemma ValidRemoveNodesRequest_accepts_iff_witness :
  entities.ValidRemoveNodesRequest (RemoveNodesRequest.mk "r1" "o1" ["n1"]) = None.
Proof.
  apply ValidRemoveNodesRequest_accepts_iff. simpl. repeat split; discriminate.
Defined.

(** What [ValidLabels] answers, by the first invalid value of the map. *)
Lemma ValidLabels_outcome (IsValidLabelValue : string -> list string)
        (labels : list (string * string)) :
  (entities.ValidLabels IsValidLabelValue labels = None <->
   Forall (fun kv => IsValidLabelValue (snd kv) = []) labels)
  /\ (forall e,
         entities.ValidLabels IsValidLabelValue labels = Some e ->
         exists before k v after,
           labels = before ++ (k, v) :: after
           /\ Forall (fun kv => IsValidLabelValue (snd kv) = []) before
           /\ IsValidLabelValue v <> []
           /\ e = NewInvalidArgumentError (String.concat ", " (IsValidLabelValue v))).
Proof.
  induction labels as [| [k v] rest [IHacc IHrej]]; simpl.
  - split.
    + split; [constructor | reflexivity].
    + intros e H. discriminate H.
  - destruct (IsValidLabelValue v) as [| x xs] eqn:Hv; simpl.
    + split.
      * split.
        -- intro H. constructor; [exact Hv | apply IHacc; exact H].
        -- intro H. inversion H. apply IHacc. assumption.
      * intros e H. destruct (IHrej e H) as (before & k' & v' & after & Heq & Hb & Hi & He).
        exists ((k, v) :: before), k', v', after. repeat split; try assumption.
        -- rewrite Heq. reflexivity.
        -- constructor; assumption.
    + split.
      * split; [intro H; discriminate H |].
        intro H. inversion H as [| ? ? Hh Ht]. simpl in Hh. congruence.
      * intros e H. inversion H. subst e.
        exists [], k, v, rest. rewrite Hv. repeat split; try constructor. discriminate.
Qed.

(** X7.  [ValidLabels] accepts a label map exactly when every value is
    valid.  When it rejects, the error is the invalid-argument error whose
    message joins, with a comma and a space, the violations of the first
    invalid value the loop meets; the values after it are not examined. *)
Theorem ValidLabels_first_invalid (IsValidLabelValue : string -> list string)
        (labels : list (string * string)) :
  (entities.ValidLabels IsValidLabelValue labels = None <->
   Forall (fun kv => IsValidLabelValue (snd kv) = []) labels)
  /\ (forall e,
         entities.ValidLabels IsValidLabelValue labels = Some e ->
         exists before k v after,
           labels = before ++ (k, v) :: after
           /\ Forall (fun kv => IsValidLabelValue (snd kv) = []) before
           /\ IsValidLabelValue v <> []
           /\ e = NewInvalidArgumentError (String.concat ", " (IsValidLabelValue v))).
Proof. exact (ValidLabels_outcome IsValidLabelValue labels). Qed.

Lemma ValidLabels_first_invalid_witness :
  entities.ValidLabels (fun v => if is_empty v then ["empty"; "short"] else [])
                       [("zone", "a"); ("rack", "r1")] = None.
Proof.
  destruct (ValidLabels_first_invalid
              (fun v => if is_empty v then ["empty"; "short"] else [])
              [("zone", "a"); ("rack", "r1")]) as ((_ & Hacc) & _).
  apply Hacc. repeat constructor.
Defined.

(** A map with two invalid values is rejected for the first one met. *)
Example ValidLabels_reports_the_first :
  entities.ValidLabels (fun v => if is_empty v then ["empty"; "short"] else ["long"])
                       [("zone", ""); ("rack", "r1")]
  = Some (NewInvalidArgumentError "empty, short").
Proof. reflexivity. Qed.

(** X8.  [ValidUpdateClusterRequest] accepts a request exactly when the
    organization id and the cluster id are set and, if labels are to be
    added, every label value is valid; without add-labels the labels are not
    examined. *)
Theorem ValidUpdateClusterRequest_accepts_iff (IsValidLabelValue : string -> list string)
        (r : UpdateClusterRequest.t) :
  entities.ValidUpdateClusterRequest IsValidLabelValue r = None <->
  UpdateClusterRequest.OrganizationId r <> ""
  /\ UpdateClusterRequest.ClusterId r <> ""
  /\ (UpdateClusterRequest.AddLabels r = true ->
      Forall (fun kv => IsValidLabelValue (snd kv) = []) (UpdateClusterRequest.Labels r)).
Proof.
  unfold entities.ValidUpdateClusterRequest.
  destruct (ValidLabels_outcome IsValidLabelValue (UpdateClusterRequest.Labels r))
    as ([Hacc1 Hacc2] & _).
  destruct (is_empty (UpdateClusterRequest.OrganizationId r)) eqn:Ho;
    [apply is_empty_true in Ho | apply is_empty_false in Ho].
  { split; [intro H; discriminate H | intros (H & _); congruence]. }
  destruct (is_empty (UpdateClusterRequest.ClusterId r)) eqn:Hc;
    [apply is_empty_true in Hc | apply is_empty_false in Hc].
  { split; [intro H; discriminate H | intros (_ & H & _); congruence]. }
  destruct (UpdateClusterRequest.AddLabels r).
  - destruct (entities.ValidLabels _ _) eqn:Hl.
    + split; [intro H; discriminate H |].
      intros (_ & _ & H). specialize (Hacc2 (H eq_refl)). congruence.
    + split; [| reflexivity]. intros _. repeat split; auto.
  - split; [| reflexivity]. intros _. repeat split; auto. intro H. discriminate H.
Qed.

Lemma ValidUpdateClusterRequest_accepts_iff_witness :
  entities.ValidUpdateClusterRequest (fun _ => ["never valid"])
    (UpdateClusterRequest.mk "o1" "c1" false None true "h" false "" false [("zone", "a")])
  = None.
Proof.
  apply ValidUpdateClusterRequest_accepts_iff. simpl.
  repeat split; try discriminate.
Defined.

(** X9.  Every error returned by a validator that checks its request is an
    invalid-argument error.  The one validator that checks nothing,
    [ValidRemoveClusterRequest], rejects every request as unimplemented. *)
Theorem validators_reject_with_invalid_argument :
  forall (IsValidLabelValue : string -> list string) (e : Error),
    (forall x, entities.ValidOrganizationId x = Some e -> errType e = InvalidArgument)
    /\ (forall x, entities.ValidClusterId x = Some e -> errType e = InvalidArgument)
    /\ (forall x, entities.ValidInstallRequest x = Some e -> errType e = InvalidArgument)
    /\ (forall x, entities.ValidProvisionClusterRequest x = Some e ->
                  errType e = InvalidArgument)
    /\ (forall x, entities.ValidScaleClusterRequest x = Some e -> errType e = InvalidArgument)
    /\ (forall x, entities.ValidUninstallClusterRequest x = Some e ->
                  errType e = InvalidArgument)
    /\ (forall x, entities.ValidDecommissionClusterRequest x = Some e ->
                  errType e = InvalidArgument)
    /\ (forall x, entities.ValidRemoveNodesRequest x = Some e -> errType e = InvalidArgument)
    /\ (forall x, entities.ValidLabels IsValidLabelValue x = Some e ->
                  errType e = InvalidArgument)
    /\ (forall x, entities.ValidUpdateClusterRequest IsValidLabelValue x = Some e ->
                  errType e = InvalidArgument)
    /\ (forall x, entities.ValidUpdateNodeRequest IsValidLabelValue x = Some e ->
                  errType e = InvalidArgument)
    /\ (forall x, entities.ValidRemoveClusterRequest x
                  = Some (NewUnimplementedError "ValidRemoveClusterRequest")).
Proof.
  intros IsValidLabelValue e.
  assert (Hlabels : forall x, entities.ValidLabels IsValidLabelValue x = Some e ->
                              errType e = InvalidArgument).
  { intros x H.
    destruct (ValidLabels_outcome IsValidLabelValue x) as (_ & Hrej).
    destruct (Hrej e H) as (? & ? & ? & ? & _ & _ & _ & He). subst e. reflexivity. }
  repeat split; try exact Hlabels; intro x; try reflexivity;
    unfold entities.ValidOrganizationId, entities.ValidClusterId,
      entities.ValidProvisionClusterRequest, entities.ValidScaleClusterRequest,
      entities.ValidUninstallClusterRequest, entities.ValidDecommissionClusterRequest,
      entities.ValidRemoveNodesRequest, entities.ValidUpdateClusterRequest,
      entities.ValidUpdateNodeRequest;
    try apply ValidInstallRequest_errors;
    repeat match goal with
           | |- context [if ?b then _ else _] => destruct b
           end;
    try (intro H; inversion H; reflexivity);
    try (destruct (entities.ValidLabels IsValidLabelValue _) eqn:Hl;
         intro H; inversion H; subst; apply (Hlabels _ Hl)).
Qed.

Lemma validators_reject_with_invalid_argument_witness :
  errType (NewInvalidArgumentError "kube_config_raw cannot be empty") = InvalidArgument.
Proof.
  destruct (validators_reject_with_invalid_argument
              (fun _ => []) (NewInvalidArgumentError "kube_config_raw cannot be empty"))
    as (_ & _ & _ & _ & _ & Hun & _).
  apply (Hun (UninstallClusterRequest.mk "" "o1" "c1" ClusterType_KUBERNETES ""
                                         Platform_AZURE)).
  reflexivity.
Defined.

(* ===================================================================== *)
(** ** The runs of the operations *)
(* ===================================================================== *)

Lemma ClusterState_eqb_eq (a b : ClusterState) : ClusterState_eqb a b = true <-> a = b.
Proof. destruct a, b; simpl; split; intro H; congruence. Qed.

Lemma ClusterState_eqb_neq (a b : ClusterState) : a <> b -> ClusterState_eqb a b = false.
Proof.
  intro H. destruct (ClusterState_eqb a b) eqn:E; [| reflexivity].
  apply ClusterState_eqb_eq in E. contradiction.
Qed.

Lemma ClusterStatus_eqb_neq (a b : ClusterStatus) : a <> b -> ClusterStatus_eqb a b = false.
Proof.
  intro H. destruct (ClusterStatus_eqb a b) eqn:E; [| reflexivity].
  apply ClusterStatus_eqb_eq in E. contradiction.
Qed.

(** Unfold a method down to the answers of the collaborators. *)
Ltac raw :=
  unfold bind, call, log, ret, launch, log_if, exec, result,
    new_calls, new_logs, new_monitors, now in *;
  cbv zeta; simpl in *; rewrite ?last_length.

(** Feed the run with the answers the hypotheses give. *)
Ltac feed :=
  repeat match goal with
         | H : _ = _ |- _ => rewrite H; simpl; rewrite ?last_length
         end.

(** Branch on the answers that are left, innermost first. *)
Ltac cases :=
  repeat (rewrite ?last_length;
          match goal with
          | |- context [match ?x with _ => _ end] =>
            lazymatch x with
            | context [match _ with _ => _ end] => fail
            | _ => destruct x
            end; simpl
          end).

Ltac tidy :=
  simpl; rewrite <- ?app_assoc; simpl; rewrite ?skipn_length_app, ?skipn_length_self.

(** X10.  [Scale] refuses a cluster that the registry reports in any state
    other than INSTALLED: it returns the failed-precondition error, and all
    it has done by then is the one lookup of the cluster; no state is
    written, the scaler is not called and no monitor is launched. *)
Theorem Scale_requires_installed :
  forall (m : Manager.t) (request : ScaleClusterRequest.t) (w : World) (retrieved : Cluster.t),
    let clusterID := ClusterId.mk (ScaleClusterRequest.OrganizationId request)
                                  (ScaleClusterRequest.ClusterId request) in
    ClustersClient.GetCluster (Manager.clusterClient m) (now w) clusterID = Ok retrieved ->
    Cluster.State retrieved <> ClusterState_INSTALLED ->
    result (Scale m request) w
    = Done (Err (NewFailedPreconditionError "cluster should be on installed state"))
    /\ new_calls w (exec (Scale m request) w) = [Call_GetCluster clusterID]
    /\ new_monitors w (exec (Scale m request) w) = [].
Proof.
  intros m request w retrieved clusterID Hget Hstate.
  apply ClusterState_eqb_neq in Hstate.
  subst clusterID. unfold Scale, getCluster. raw. feed. tidy. auto.
Qed.

Lemma Scale_requires_installed_witness :
  result (Scale scenarios.healthy scenarios.scale_c1) initial
  = Done (Err (NewFailedPreconditionError "cluster should be on installed state")).
Proof.
  destruct (Scale_requires_installed
              scenarios.healthy scenarios.scale_c1 initial
              (scenarios.a_cluster "o1" "c1" ClusterState_PROVISIONED
                                   ClusterStatus_ONLINE_CORDON)) as (H & _).
  - reflexivity.
  - discriminate.
  - exact H.
Defined.

(** X11.  Let the cluster be INSTALLED and let the SCALING state be written
    and published.  Then [Scale] sends the request to the scaler unchanged.
    If the scaler accepts it, [Scale] answers with the scaler's request id,
    state and error under the organization and cluster of the request, and
    launches, detached, one scaler monitor on that answer with the scale
    callback.  If the scaler refuses, [Scale] returns that error, launches
    nothing, and writes the FAILURE state, published if the registry took
    it. *)
Theorem Scale_outcome :
  forall (m : Manager.t) (request : ScaleClusterRequest.t) (w : World)
         (retrieved c : Cluster.t),
    let organizationID := ScaleClusterRequest.OrganizationId request in
    let clusterID := ScaleClusterRequest.ClusterId request in
    let scaling := state_update organizationID clusterID ClusterState_SCALING in
    let failure := state_update organizationID clusterID ClusterState_FAILURE in
    let run := Scale m request in
    ClustersClient.GetCluster (Manager.clusterClient m) (now w)
                              (ClusterId.mk organizationID clusterID) = Ok retrieved ->
    Cluster.State retrieved = ClusterState_INSTALLED ->
    ClustersClient.UpdateCluster (Manager.clusterClient m) (1 + now w) scaling = Ok c ->
    bus.BusManager.SendEvents (Manager.busManager m) (2 + now w)
                              (bus.UpdateClusterEvent scaling) = None ->
    match ScaleClient.ScaleCluster (Manager.scalerClient m) (3 + now w) request with
    | Ok response =>
      let answer :=
          grpc_infrastructure_manager_go.ProvisionerResponse.mk
            (ScaleClusterResponse.RequestId response) organizationID clusterID
            (ScaleClusterResponse.State response) (ScaleClusterResponse.Error response) in
      result run w = Done (Ok answer)
      /\ new_calls w (exec run w)
         = [Call_GetCluster (ClusterId.mk organizationID clusterID);
            Call_UpdateCluster scaling; Call_SendEvents (bus.UpdateClusterEvent scaling);
            Call_ScaleCluster request]
      /\ new_monitors w (exec run w)
         = [Monitor.mk (ScalerMonitor answer) [Ref_scaleCallback] None true]
    | Err pErr =>
      result run w = Done (Err pErr)
      /\ new_calls w (exec run w)
         = [Call_GetCluster (ClusterId.mk organizationID clusterID);
            Call_UpdateCluster scaling; Call_SendEvents (bus.UpdateClusterEvent scaling);
            Call_ScaleCluster request;
            Call_UpdateCluster failure]
           ++ match ClustersClient.UpdateCluster (Manager.clusterClient m) (4 + now w)
                                                 failure with
              | Ok _ => [Call_SendEvents (bus.UpdateClusterEvent failure)]
              | Err _ => []
              end
      /\ new_monitors w (exec run w) = []
    end.
Proof.
  intros m request w retrieved c organizationID clusterID scaling failure run
         Hget Hstate Hupd Hbus.
  subst run scaling failure organizationID clusterID.
  unfold Scale, getCluster, updateClusterState, state_update in *. raw. feed.
  cases; tidy; auto.
Qed.

Lemma Scale_outcome_witness :
  result (Scale scenarios.installed scenarios.scale_c1) initial
  = Done (Ok (grpc_infrastructure_manager_go.ProvisionerResponse.mk
                "" "o1" "c1" (ProvisionProgress_OTHER 1) "")).
Proof.
  pose proof (Scale_outcome
                scenarios.installed scenarios.scale_c1 initial
                (scenarios.a_cluster "o1" "c1" ClusterState_INSTALLED
                                     ClusterStatus_ONLINE_CORDON)
                (scenarios.a_cluster "o1" "c1" ClusterState_INSTALLED
                                     ClusterStatus_ONLINE_CORDON)
                eq_refl eq_refl eq_refl eq_refl) as H.
  simpl in H. destruct H as (H & _). exact H.
Defined.

(** X12.  Let the cluster be online and cordoned with no service instance
    on it, and let the UNINSTALLING state be written and published.  Then
    [Uninstall] sends the request to the installer unchanged.  If the
    installer accepts it, [Uninstall] returns the installer's response and
    launches, detached, one installer monitor on it with the uninstall
    callback and with the decommission token it was given.  If the installer
    refuses, [Uninstall] returns that error, launches nothing, and writes
    the FAILURE state, published if the registry took it. *)
Theorem Uninstall_outcome :
  forall (m : Manager.t) (request : UninstallClusterRequest.t)
         (token : option DecommissionCallback.t) (w : World)
         (cluster c : Cluster.t) (apps : AppInstanceList.t),
    let organizationID := UninstallClusterRequest.OrganizationId request in
    let clusterID := UninstallClusterRequest.ClusterId request in
    let uninstalling := state_update organizationID clusterID ClusterState_UNINSTALLING in
    let failure := state_update organizationID clusterID ClusterState_FAILURE in
    let issued :=
        [Call_GetCluster (ClusterId.mk organizationID clusterID);
         Call_ListAppInstances (OrganizationId.mk organizationID);
         Call_UpdateCluster uninstalling;
         Call_SendEvents (bus.UpdateClusterEvent uninstalling);
         Call_UninstallCluster request] in
    let run := Uninstall m request token in
    ClustersClient.GetCluster (Manager.clusterClient m) (now w)
                              (ClusterId.mk organizationID clusterID) = Ok cluster ->
    ApplicationsClient.ListAppInstances (Manager.appClient m) (1 + now w)
                                        (OrganizationId.mk organizationID) = Ok apps ->
    Cluster.ClusterStatus cluster = ClusterStatus_ONLINE_CORDON ->
    ~ has_service_instance_on organizationID clusterID apps ->
    ClustersClient.UpdateCluster (Manager.clusterClient m) (2 + now w) uninstalling = Ok c ->
    bus.BusManager.SendEvents (Manager.busManager m) (3 + now w)
                              (bus.UpdateClusterEvent uninstalling) = None ->
    match InstallerClient.UninstallCluster (Manager.installerClient m) (4 + now w) request with
    | Ok response =>
      result run w = Done (Ok response)
      /\ new_calls w (exec run w) = issued
      /\ new_monitors w (exec run w)
         = [Monitor.mk (InstallerMonitor clusterID response) [Ref_uninstallCallback]
                       token true]
    | Err uErr =>
      result run w = Done (Err uErr)
      /\ new_calls w (exec run w)
         = issued
             ++ Call_UpdateCluster failure
             :: match ClustersClient.UpdateCluster (Manager.clusterClient m) (5 + now w)
                                                   failure with
                | Ok _ => [Call_SendEvents (bus.UpdateClusterEvent failure)]
                | Err _ => []
                end
      /\ new_monitors w (exec run w) = []
    end.
Proof.
  intros m request token w cluster c apps organizationID clusterID uninstalling
         failure issued run Hget Hlist Hstatus Happs Hupd Hbus.
  assert (Hdep : deployed_on organizationID clusterID apps = false).
  { destruct (deployed_on organizationID clusterID apps) eqn:Hdep; [| reflexivity].
    apply deployed_on_spec in Hdep. contradiction. }
  clear Happs.
  subst run issued uninstalling failure organizationID clusterID.
  unfold Uninstall, canUninstallCluster, clusterHasApps, updateClusterState,
    state_update in *.
  raw. feed. cases; tidy; auto.
Qed.

Lemma Uninstall_outcome_witness :
  result (Uninstall scenarios.healthy scenarios.uninstall_on_azure None) initial
  = Done (Ok (scenarios.in_progress "o1" "")).
Proof.
  assert (Hnone : ~ has_service_instance_on "o1" "c1" (AppInstanceList.mk [])).
  { intros (inst & sg & s & Hin & _). exact Hin. }
  pose proof (Uninstall_outcome
                scenarios.healthy scenarios.uninstall_on_azure None initial
                (scenarios.a_cluster "o1" "c1" ClusterState_PROVISIONED
                                     ClusterStatus_ONLINE_CORDON)
                (scenarios.a_cluster "o1" "c1" ClusterState_PROVISIONED
                                     ClusterStatus_ONLINE_CORDON)
                (AppInstanceList.mk [])
                eq_refl eq_refl eq_refl Hnone eq_refl eq_refl) as H.
  simpl in H. destruct H as (H & _). exact H.
Defined.

(** X13.  For a request that names a cluster the registry knows,
    [InstallCluster] stops after the lookup in two cases: when the request
    asks for the base system, with the unimplemented error, and otherwise
    when the cluster is in any state other than PROVISIONED, with an
    invalid-argument error.  In both cases nothing is written, the
    installer is not called and no monitor is launched. *)
Theorem InstallCluster_requires_provisioned :
  forall (m : Manager.t) (request : InstallRequest.t) (w : World) (cluster : Cluster.t),
    let clusterID := ClusterId.mk (InstallRequest.OrganizationId request)
                                  (InstallRequest.ClusterId request) in
    let run := InstallCluster m request in
    InstallRequest.ClusterId request <> "" ->
    ClustersClient.GetCluster (Manager.clusterClient m) (now w) clusterID = Ok cluster ->
    (InstallRequest.InstallBaseSystem request = true ->
     result run w = Done (Err (NewUnimplementedError "InstallBaseSystem not supported"))
     /\ new_calls w (exec run w) = [Call_GetCluster clusterID]
     /\ new_monitors w (exec run w) = [])
    /\ (InstallRequest.InstallBaseSystem request = false ->
        Cluster.State cluster <> ClusterState_PROVISIONED ->
        result run w
        = Done (Err (NewInvalidArgumentError "selected cluster is not ready for install"))
        /\ new_calls w (exec run w) = [Call_GetCluster clusterID]
        /\ new_monitors w (exec run w) = []).
Proof.
  intros m request w cluster clusterID run Hid Hget.
  apply is_empty_false in Hid.
  subst run clusterID.
  unfold InstallCluster, getOrCreateProvisionedCluster, getCluster.
  split.
  - intro Hbase. raw. feed. tidy. auto.
  - intros Hbase Hstate.
    apply ClusterState_eqb_neq in Hstate.
    raw. feed. tidy. auto.
Qed.

Lemma InstallCluster_requires_provisioned_witness :
  result (InstallCluster scenarios.installed scenarios.install_c1) initial
  = Done (Err (NewInvalidArgumentError "selected cluster is not ready for install")).
Proof.
  destruct (InstallCluster_requires_provisioned
              scenarios.installed scenarios.install_c1 initial
              (scenarios.a_cluster "o1" "c1" ClusterState_INSTALLED
                                   ClusterStatus_ONLINE_CORDON)) as (_ & Hstate).
  - discriminate.
  - reflexivity.
  - destruct Hstate as (H & _); [reflexivity | discriminate | exact H].
Defined.

(** ** Resolving the target of an install launches nothing *)

Section Quiet.
Variable m : Manager.t.
Let quiet {A} (c : M A) : Prop := forall w, launched (exec c w) = launched w.

Lemma quiet_ret {A} (a : A) : quiet (ret a).
Proof. intro w. reflexivity. Qed.

Lemma quiet_panic {A} : quiet (@panic A).
Proof. intro w. reflexivity. Qed.

Lemma quiet_log l msg : quiet (log l msg).
Proof. intro w. reflexivity. Qed.

Lemma quiet_call {A} (c : Call) (answer : nat -> A) : quiet (call c answer).
Proof. intro w. reflexivity. Qed.

Lemma quiet_bind {A B} (c : M A) (k : A -> M B) :
  quiet c -> (forall a, quiet (k a)) -> quiet (bind c k).
Proof.
  intros Hc Hk w. specialize (Hc w). unfold exec, bind in *.
  destruct (c w) as [[a |] w1]; simpl in *.
  - rewrite <- Hc. apply Hk.
  - exact Hc.
Qed.

Ltac quiet_step :=
  first
    [ apply quiet_ret | apply quiet_panic | apply quiet_log | apply quiet_call
    | apply quiet_bind; [| intro]
    | match goal with
      | |- quiet (match ?x with _ => _ end) => destruct x
      | |- quiet (if ?x then _ else _) => destruct x
      end ].

Lemma quiet_attachNodes_loop requestID organizationID clusterID nodes :
  quiet (attachNodes_loop m requestID organizationID clusterID nodes).
Proof.
  induction nodes as [| n rest IH]; simpl.
  - apply quiet_ret.
  - repeat first [ progress cbv zeta | exact IH | quiet_step ].
Qed.

Lemma quiet_getOrCreateProvisionedCluster request :
  quiet (getOrCreateProvisionedCluster m request).
Proof.
  unfold getOrCreateProvisionedCluster, discoverCluster, writeTempFile, addClusterToSM,
    attachNodes, updateClusterState, getCluster.
  repeat first [ progress cbv zeta | apply quiet_attachNodes_loop | quiet_step ].
Qed.

End Quiet.

(** X14.  Let [InstallCluster] resolve its target cluster, by lookup or by
    discovery and registration, for a request without the base system; let
    the cluster be PROVISIONED and let the INSTALL_IN_PROGRESS state be
    written and published.  Then [InstallCluster] sends the request to the
    installer with the cluster id replaced by the id of the resolved
    cluster.  If the installer accepts it, the installer's response is
    returned and one installer monitor on it is launched, detached, with the
    install callback.  If the installer refuses, the error is returned and
    nothing more happens: the cluster is left in INSTALL_IN_PROGRESS, no
    FAILURE state is written.  For a request that names its cluster, the
    resolution is the one lookup of that cluster. *)
Theorem InstallCluster_outcome :
  forall (m : Manager.t) (request : InstallRequest.t) (w : World) (cluster c : Cluster.t),
    let resolution := getOrCreateProvisionedCluster m request in
    let w0 := write_log LevelDebug "InstallCluster" w in
    let resolved := exec resolution w0 in
    let organizationID := InstallRequest.OrganizationId request in
    let in_progress :=
        state_update organizationID (Cluster.ClusterId cluster)
                     ClusterState_INSTALL_IN_PROGRESS in
    let sent := InstallRequest.set_ClusterId request (Cluster.ClusterId cluster) in
    let issued :=
        new_calls w resolved
          ++ [Call_UpdateCluster in_progress;
              Call_SendEvents (bus.UpdateClusterEvent in_progress);
              Call_InstallCluster sent] in
    let run := InstallCluster m request in
    result resolution w0 = Done (Ok cluster) ->
    InstallRequest.InstallBaseSystem request = false ->
    Cluster.State cluster = ClusterState_PROVISIONED ->
    ClustersClient.UpdateCluster (Manager.clusterClient m) (now resolved) in_progress
    = Ok c ->
    bus.BusManager.SendEvents (Manager.busManager m) (1 + now resolved)
                              (bus.UpdateClusterEvent in_progress) = None ->
    (InstallRequest.ClusterId request <> "" ->
     new_calls w resolved
     = [Call_GetCluster (ClusterId.mk organizationID (InstallRequest.ClusterId request))])
    /\ match InstallerClient.InstallCluster (Manager.installerClient m) (2 + now resolved)
                                            sent with
       | Ok response =>
         result run w = Done (Ok response)
         /\ new_calls w (exec run w) = issued
         /\ new_monitors w (exec run w)
            = [Monitor.mk (InstallerMonitor (Cluster.ClusterId cluster) response)
                          [Ref_installCallback] None true]
       | Err iErr =>
         result run w = Done (Err iErr)
         /\ new_calls w (exec run w) = issued
         /\ new_monitors w (exec run w) = []
       end.
Proof.
  intros m request w cluster c resolution w0 resolved organizationID in_progress sent
         issued run Hres Hbase Hstate Hupd Hbus.
  assert (Hext : exists dc, calls resolved = calls w ++ dc).
  { destruct (emits_calls any_call resolution w0) as (dc & Hdc & _).
    - subst resolution. apply emits_getOrCreateProvisionedCluster. intros; exact I.
    - exists dc. exact Hdc. }
  destruct Hext as [dc Hdc].
  assert (Hquiet : launched resolved = launched w).
  { subst resolved resolution. rewrite quiet_getOrCreateProvisionedCluster. reflexivity. }
  split.
  - intro Hid. subst resolved resolution w0. clear Hupd Hbus Hdc Hquiet issued.
    apply is_empty_false in Hid.
    unfold getOrCreateProvisionedCluster, getCluster, result, exec in *.
    rewrite Hid in *.
    rewrite !bind_assoc, bind_log, !bind_assoc, bind_call in *.
    destruct (ClustersClient.GetCluster _ _ _) as [cl | e]; [| discriminate Hres].
    unfold new_calls. simpl. apply skipn_length_app.
  - pose proof (InstallCluster_run m request w cluster c Hres Hbase Hstate Hupd Hbus) as Hrun.
    cbv zeta in Hrun. fold w0 resolution resolved in_progress sent run in Hrun.
    subst issued. unfold new_calls at 1 3, new_monitors.
    destruct (InstallerClient.InstallCluster _ _ _) as [response | iErr];
      destruct Hrun as (Hr & Hc & Hl); rewrite Hc, Hl, Hdc, Hquiet;
      rewrite <- ?app_assoc, ?skipn_length_app, ?skipn_length_self;
      unfold new_calls; rewrite ?Hdc, ?skipn_length_app; auto.
Qed.

Lemma InstallCluster_outcome_witness :
  result (InstallCluster scenarios.healthy scenarios.install_c1) initial
  = Done (Ok (scenarios.in_progress "o1" "r1"))
  /\ result (InstallCluster scenarios.healthy scenarios.install_discovered) initial
     = Done (Ok (scenarios.in_progress "o1" "")).
Proof.
  split.
  - pose proof (InstallCluster_outcome
                  scenarios.healthy scenarios.install_c1 initial
                  (scenarios.a_cluster "o1" "c1" ClusterState_PROVISIONED
                                       ClusterStatus_ONLINE_CORDON)
                  (scenarios.a_cluster "o1" "c1" ClusterState_PROVISIONED
                                       ClusterStatus_ONLINE_CORDON)
                  eq_refl eq_refl eq_refl eq_refl eq_refl) as (_ & H).
    vm_compute in H. destruct H as (H & _). exact H.
  - pose proof (InstallCluster_outcome
                  scenarios.healthy scenarios.install_discovered initial
                  (scenarios.a_cluster "o1" "c1" ClusterState_PROVISIONED
                                       ClusterStatus_ONLINE_CORDON)
                  (scenarios.a_cluster "o1" "c1" ClusterState_PROVISIONED
                                       ClusterStatus_ONLINE_CORDON)
                  eq_refl eq_refl eq_refl eq_refl eq_refl) as (_ & H).
    vm_compute in H. destruct H as (H & _). exact H.
Defined.

(** X15.  Handed a final response, the scale callback writes exactly one
    lifecycle state: FAILURE if the watch error is non-nil or the response
    is in the ERROR state, INSTALLED otherwise.  The write is published if
    the registry took it.  The callback does nothing else and always
    returns. *)
Theorem scaleCallback_outcome :
  forall (m : Manager.t) (requestID organizationID clusterID : string)
         (lastResponse : ScaleClusterResponse.t) (err : option Error) (w : World),
    let run := scaleCallback m requestID organizationID clusterID (Some lastResponse) err in
    let request :=
        state_update organizationID clusterID
                     (if provision_failed (ScaleClusterResponse.State lastResponse) err
                      then ClusterState_FAILURE else ClusterState_INSTALLED) in
    result run w = Done tt
    /\ new_calls w (exec run w)
       = Call_UpdateCluster request
           :: match ClustersClient.UpdateCluster (Manager.clusterClient m) (now w) request with
              | Ok _ => [Call_SendEvents (bus.UpdateClusterEvent request)]
              | Err _ => []
              end
    /\ new_monitors w (exec run w) = [].
Proof.
  intros m requestID organizationID clusterID lastResponse err w run request.
  subst run request. unfold scaleCallback, updateClusterState, state_update.
  destruct err as [e |], (ScaleClusterResponse.State lastResponse); raw; cases; tidy; auto.
Qed.

(** X16.  [DrainCluster] looks the cluster up first.  Unless its status is
    OFFLINE_CORDON or ONLINE_CORDON the drain is refused with an error that
    names the cluster and nothing is sent.  If the cluster is cordoned, the
    drain request for it is put on the ops queue, and the answer is success
    exactly when the queue took it. *)
Theorem DrainCluster_requires_cordon :
  forall (m : Manager.t) (clusterID : ClusterId.t) (w : World) (targetCluster : Cluster.t),
    let run := DrainCluster m clusterID in
    let status := Cluster.ClusterStatus targetCluster in
    ClustersClient.GetCluster (Manager.clusterClient m) (now w) clusterID = Ok targetCluster ->
    (status <> ClusterStatus_OFFLINE_CORDON -> status <> ClusterStatus_ONLINE_CORDON ->
     result run w
     = Done (Err (NewGenericError
                    ("cluster " ++ Cluster.ClusterId targetCluster
                                ++ " must be cordoned before draining")%string))
     /\ new_calls w (exec run w) = [Call_GetCluster clusterID])
    /\ (status = ClusterStatus_OFFLINE_CORDON \/ status = ClusterStatus_ONLINE_CORDON ->
        new_calls w (exec run w)
        = [Call_GetCluster clusterID;
           Call_SendOps (grpc_conductor_go.DrainClusterRequest.mk clusterID)]
        /\ result run w
           = Done match bus.BusManager.SendOps
                          (Manager.busManager m) (1 + now w)
                          (grpc_conductor_go.DrainClusterRequest.mk clusterID) with
                  | Some err => Err err
                  | None => Ok mkSuccess
                  end).
Proof.
  intros m clusterID w targetCluster run status Hget. subst run status.
  unfold DrainCluster. split.
  - intros Hoff Hon.
    apply ClusterStatus_eqb_neq in Hoff, Hon.
    raw. feed. tidy. auto.
  - intros [H | H]; raw; feed; cases; tidy; auto.
Qed.

Lemma DrainCluster_requires_cordon_witness :
  new_calls initial (exec (DrainCluster scenarios.healthy (ClusterId.mk "o1" "c1")) initial)
  = [Call_GetCluster (ClusterId.mk "o1" "c1");
     Call_SendOps (grpc_conductor_go.DrainClusterRequest.mk (ClusterId.mk "o1" "c1"))].
Proof.
  destruct (DrainCluster_requires_cordon
              scenarios.healthy (ClusterId.mk "o1" "c1") initial
              (scenarios.a_cluster "o1" "c1" ClusterState_PROVISIONED
                                   ClusterStatus_ONLINE_CORDON)) as (_ & Hcordoned).
  - reflexivity.
  - destruct Hcordoned as (H & _); [right; reflexivity | exact H].
Defined.

(** X17.  [CordonCluster] and [UncordonCluster] return what the registry
    answered, untouched.  Either way, also when the registry refused, they
    then publish the new cordon status of the cluster on the bus; a refusal
    of the bus is logged and does not change the answer. *)
Theorem cordon_publishes_regardless :
  forall (m : Manager.t) (clusterID : ClusterId.t) (w : World),
    let outcome (run : M (Result Success)) (registry : Call)
                (answer : Result Success) (cordon : bool) :=
        let event := bus.SetClusterStatusEvent (SetClusterStatusRequest.mk clusterID cordon) in
        result run w = Done answer
        /\ new_calls w (exec run w) = [registry; Call_SendEvents event]
        /\ new_logs w (exec run w)
           = match bus.BusManager.SendEvents (Manager.busManager m) (1 + now w) event with
             | Some _ => [(LevelError, "error sending set cluster request to queue")]
             | None => []
             end in
    outcome (CordonCluster m clusterID) (Call_CordonCluster clusterID)
            (ClustersClient.CordonCluster (Manager.clusterClient m) (now w) clusterID) true
    /\ outcome (UncordonCluster m clusterID) (Call_UncordonCluster clusterID)
               (ClustersClient.UncordonCluster (Manager.clusterClient m) (now w) clusterID)
               false.
Proof.
  intros m clusterID w. cbv zeta. unfold CordonCluster, UncordonCluster.
  split; raw; cases; tidy; auto.
Qed.

(** X18.  [UninstallAndDecommissionCluster] asks the management service for
    the kubeconfig of the cluster, copying the request field by field.  If
    that fails, the error is returned and nothing else happens.  Otherwise
    the run continues exactly as [Uninstall] on the request built from the
    decommission request and the kubeconfig obtained, with the decommission
    request itself as the token of the chain. *)
Theorem UninstallAndDecommissionCluster_chains :
  forall (m : Manager.t) (request : DecommissionClusterRequest.t) (w : World),
    let clusterRequest :=
        ClusterRequest.mk
          (DecommissionClusterRequest.RequestId request)
          (DecommissionClusterRequest.OrganizationId request)
          (DecommissionClusterRequest.ClusterId request)
          (DecommissionClusterRequest.ClusterType request)
          (DecommissionClusterRequest.IsManagementCluster request)
          (DecommissionClusterRequest.TargetPlatform request)
          (DecommissionClusterRequest.AzureCredentials request)
          (DecommissionClusterRequest.AzureOptions request) in
    let run := UninstallAndDecommissionCluster m request in
    match ManagementClient.GetKubeConfig (Manager.managementClient m) (now w)
                                         clusterRequest with
    | Err err =>
      result run w = Done (Err err)
      /\ new_calls w (exec run w) = [Call_GetKubeConfig clusterRequest]
      /\ new_monitors w (exec run w) = []
    | Ok kubeConfigResponse =>
      let uninstall :=
          Uninstall m
            (UninstallClusterRequest.mk
               (DecommissionClusterRequest.RequestId request)
               (DecommissionClusterRequest.OrganizationId request)
               (DecommissionClusterRequest.ClusterId request)
               (DecommissionClusterRequest.ClusterType request)
               (KubeConfigResponse.RawKubeConfig kubeConfigResponse)
               (DecommissionClusterRequest.TargetPlatform request))
            (Some (DecommissionCallback.mk request)) in
      let w1 := record (Call_GetKubeConfig clusterRequest) w in
      result run w = result uninstall w1
      /\ calls (exec run w) = calls (exec uninstall w1)
      /\ launched (exec run w) = launched (exec uninstall w1)
    end.
Proof.
  intros m request w clusterRequest run. subst run clusterRequest.
  unfold UninstallAndDecommissionCluster. cbv zeta.
  unfold result, exec. rewrite bind_call.
  destruct (ManagementClient.GetKubeConfig _ _ _) as [k | err].
  - unfold bind at 1 3 5.
    match goal with
    | |- context [Uninstall ?a ?b ?c ?d] => destruct (Uninstall a b c d) as [[[resp | e] |] w2]
    end; simpl; auto.
  - raw. tidy. auto.
Qed.

(** X19.  Let the registry add the cluster, take the PROVISIONING state
    (published) and answer the second lookup.  Then
    [ProvisionAndInstallCluster] registers the cluster under the name of the
    request with empty hostnames, and sends the request to the provisioner
    with the cluster id the registry assigned.  If the provisioner accepts,
    the answer carries that cluster id and one provisioner monitor is
    launched, detached, with the provision callback.  If the provisioner
    refuses, the error is returned; the cluster stays registered in the
    PROVISIONING state. *)
Theorem ProvisionAndInstallCluster_outcome :
  forall (m : Manager.t) (provisionRequest : ProvisionClusterRequest.t) (w : World)
         (clusterAdded c cluster : Cluster.t),
    let requestID := ProvisionClusterRequest.RequestId provisionRequest in
    let organizationID := ProvisionClusterRequest.OrganizationId provisionRequest in
    let toAdd :=
        AddClusterRequest.mk requestID organizationID
                             (ProvisionClusterRequest.ClusterName provisionRequest) "" "" in
    let provisioning :=
        state_update organizationID (Cluster.ClusterId clusterAdded)
                     ClusterState_PROVISIONING in
    let reread :=
        ClusterId.mk (Cluster.OrganizationId clusterAdded) (Cluster.ClusterId clusterAdded) in
    let sent :=
        ProvisionClusterRequest.set_ClusterId provisionRequest (Cluster.ClusterId cluster) in
    let issued :=
        [Call_AddCluster toAdd;
         Call_UpdateCluster provisioning;
         Call_SendEvents (bus.UpdateClusterEvent provisioning);
         Call_GetCluster reread;
         Call_ProvisionCluster sent] in
    let run := ProvisionAndInstallCluster m provisionRequest in
    ClustersClient.AddCluster (Manager.clusterClient m) (now w) toAdd = Ok clusterAdded ->
    ClustersClient.UpdateCluster (Manager.clusterClient m) (1 + now w) provisioning = Ok c ->
    bus.BusManager.SendEvents (Manager.busManager m) (2 + now w)
                              (bus.UpdateClusterEvent provisioning) = None ->
    ClustersClient.GetCluster (Manager.clusterClient m) (3 + now w) reread = Ok cluster ->
    match ProvisionClient.ProvisionCluster (Manager.provisionerClient m) (4 + now w) sent with
    | Ok response =>
      let answer :=
          grpc_infrastructure_manager_go.ProvisionerResponse.mk
            (ProvisionClusterResponse.RequestId response) organizationID
            (Cluster.ClusterId cluster)
            (ProvisionClusterResponse.State response)
            (ProvisionClusterResponse.Error response) in
      result run w = Done (Ok answer)
      /\ new_calls w (exec run w) = issued
      /\ new_monitors w (exec run w)
         = [Monitor.mk (ProvisionerMonitor answer) [Ref_provisionCallback] None true]
    | Err pErr =>
      result run w = Done (Err pErr)
      /\ new_calls w (exec run w) = issued
      /\ new_monitors w (exec run w) = []
    end.
Proof.
  intros m provisionRequest w clusterAdded c cluster requestID organizationID toAdd
         provisioning reread sent issued run Hadd Hupd Hbus Hget.
  subst run issued sent reread provisioning toAdd organizationID requestID.
  unfold ProvisionAndInstallCluster, addClusterToSM, attachNodes, updateClusterState,
    state_update in *.
  destruct provisionRequest as [rid org cid name ver n nt mgmt tp creds opts].
  raw. feed. cases; tidy; auto.
Qed.

Lemma ProvisionAndInstallCluster_outcome_witness :
  result (ProvisionAndInstallCluster scenarios.healthy scenarios.valid_provision) initial
  = Done (Ok (grpc_infrastructure_manager_go.ProvisionerResponse.mk
                "r1" "o1" "c1" (ProvisionProgress_OTHER 1) "")).
Proof.
  pose proof (ProvisionAndInstallCluster_outcome
                scenarios.healthy scenarios.valid_provision initial
                (scenarios.a_cluster "o1" "c1" ClusterState_PROVISIONED
                                     ClusterStatus_ONLINE_CORDON)
                (scenarios.a_cluster "o1" "c1" ClusterState_PROVISIONED
                                     ClusterStatus_ONLINE_CORDON)
                (scenarios.a_cluster "o1" "c1" ClusterState_PROVISIONED
                                     ClusterStatus_ONLINE_CORDON)
                eq_refl eq_refl eq_refl eq_refl) as H.
  simpl in H. destruct H as (H & _). exact H.
Defined.

(** X20.  Once the kubeconfig has been written to a temporary file,
    [discoverCluster] removes that file on every way out, as its last
    action: after a failed connection, whose error it returns without
    attempting the discovery, and after the discovery, failed or not.  A
    discovered cluster is returned with its hostname set to the hostname
    that was passed in. *)
Theorem discoverCluster_removes_the_file :
  forall (m : Manager.t) (requestID kubeConfig hostname file : string) (w : World),
    let run := discoverCluster m requestID kubeConfig hostname in
    host.TempFile (Manager.os m) (now w) (Manager.tempPath m) requestID = Ok file ->
    host.FileWrite (Manager.os m) (1 + now w) file kubeConfig = None ->
    host.FileClose (Manager.os m) (2 + now w) file = None ->
    match host.Connect (Manager.os m) (3 + now w) file with
    | Some err =>
      result run w = Done (Err err)
      /\ new_calls w (exec run w)
         = [Call_TempFile (Manager.tempPath m) requestID; Call_FileWrite file kubeConfig;
            Call_FileClose file; Call_Connect file; Call_FileRemove file]
    | None =>
      new_calls w (exec run w)
      = [Call_TempFile (Manager.tempPath m) requestID; Call_FileWrite file kubeConfig;
         Call_FileClose file; Call_Connect file; Call_Discover file; Call_FileRemove file]
      /\ result run w
         = Done match host.Discover (Manager.os m) (4 + now w) file with
                | Err err => Err err
                | Ok discovered => Ok (entities.Cluster.set_Hostname discovered hostname)
                end
    end.
Proof.
  intros m requestID kubeConfig hostname file w run Htemp Hwrite Hclose. subst run.
  unfold discoverCluster, writeTempFile. raw. feed. cases; tidy; auto.
Qed.

Lemma discoverCluster_removes_the_file_witness :
  new_calls initial (exec (discoverCluster scenarios.healthy "r1" "kubeconfig" "c1.example")
                          initial)
  = [Call_TempFile "/tmp/nalej" "r1"; Call_FileWrite "/tmp/nalej/r1" "kubeconfig";
     Call_FileClose "/tmp/nalej/r1"; Call_Connect "/tmp/nalej/r1";
     Call_Discover "/tmp/nalej/r1"; Call_FileRemove "/tmp/nalej/r1"].
Proof.
  pose proof (discoverCluster_removes_the_file
                scenarios.healthy "r1" "kubeconfig" "c1.example" "/tmp/nalej/r1" initial
                eq_refl eq_refl eq_refl) as H.
  simpl in H. destruct H as (H & _). exact H.
Defined.

(** X21.  If the temporary file cannot be written, [discoverCluster] does
    not return the error: it panics, because the deferred removal
    dereferences the nil file name before the error is inspected.  By then
    it has done what [writeTempFile] did and nothing more; in particular no
    file is removed. *)
Theorem discoverCluster_panics_without_a_file :
  forall (m : Manager.t) (requestID kubeConfig hostname : string) (w : World) (err : Error),
    result (writeTempFile m kubeConfig requestID) w = Done (Err err) ->
    result (discoverCluster m requestID kubeConfig hostname) w = Panicked
    /\ exec (discoverCluster m requestID kubeConfig hostname) w
       = exec (writeTempFile m kubeConfig requestID) w
    /\ existsb is_file_remove
               (new_calls w (exec (discoverCluster m requestID kubeConfig hostname) w))
       = false.
Proof.
  intros m requestID kubeConfig hostname w err.
  unfold discoverCluster, writeTempFile. raw.
  cases; intro H; try discriminate H; tidy; auto.
Qed.

Lemma discoverCluster_panics_without_a_file_witness :
  result (discoverCluster scenarios.no_temp_files "r1" "kubeconfig" "c1.example") initial
  = Panicked.
Proof.
  destruct (discoverCluster_panics_without_a_file
              scenarios.no_temp_files "r1" "kubeconfig" "c1.example" initial
              (AsError scenarios.unavailable "cannot create temporal file")) as (H & _).
  - reflexivity.
  - exact H.
Defined.

(** X22.  The decommission callback takes the cluster out of the system
    model whatever the final response and the watch error say; a nil
    response stands for empty request and organization ids.  It lists the
    nodes of the cluster; if the listing fails it stops.  A cluster with
    nodes has all of them removed in one request, in the order listed, and
    the cluster is removed only if that succeeded; a cluster without nodes
    is removed directly.  The callback always returns. *)
Theorem decommissionCallback_removes_the_cluster :
  forall (m : Manager.t) (clusterID : string) (lastResponse : option OpResponse.t)
         (err : option Error) (w : World),
    let requestId :=
        match lastResponse with Some r => OpResponse.RequestId r | None => "" end in
    let organizationId :=
        match lastResponse with Some r => OpResponse.OrganizationId r | None => "" end in
    let cID := ClusterId.mk organizationId clusterID in
    let run := decommissionCallback m clusterID lastResponse err in
    result run w = Done tt
    /\ new_calls w (exec run w)
       = Call_ListNodes cID
           :: match NodesClient.ListNodes (Manager.nodesClient m) (now w) cID with
              | Err _ => []
              | Ok nodeList =>
                let remove := RemoveClusterRequest.mk requestId organizationId clusterID in
                match NodeList.Nodes nodeList with
                | [] => [Call_RemoveCluster remove]
                | _ :: _ =>
                  let nodes :=
                      RemoveNodesRequest.mk requestId organizationId
                                            (map Node.NodeId (NodeList.Nodes nodeList)) in
                  Call_RemoveNodes nodes
                    :: match NodesClient.RemoveNodes (Manager.nodesClient m) (1 + now w)
                                                     nodes with
                       | Ok _ => [Call_RemoveCluster remove]
                       | Err _ => []
                       end
                end
              end.
Proof.
  intros m clusterID lastResponse err w requestId organizationId cID run.
  subst run cID organizationId requestId.
  unfold decommissionCallback, removeClusterFromSM. raw.
  destruct lastResponse as [r |];
    (destruct (NodesClient.ListNodes _ _ _) as [[[| n ns]] | e]; simpl; rewrite ?last_length;
     cases; tidy; auto).
Qed.

(** X23.  [removeClusterNodes] lists the nodes of the cluster and, unless
    the listing failed, removes all of them in one request, in the order
    listed; unlike the removal on decommission, the request is sent even for
    an empty list.  The result is the first error met, or nil. *)
Theorem removeClusterNodes_outcome :
  forall (m : Manager.t) (requestID organizationID clusterID : string) (w : World),
    let cID := ClusterId.mk organizationID clusterID in
    let run := removeClusterNodes m requestID organizationID clusterID in
    match NodesClient.ListNodes (Manager.nodesClient m) (now w) cID with
    | Err nErr =>
      result run w = Done (Some nErr) /\ new_calls w (exec run w) = [Call_ListNodes cID]
    | Ok nodes =>
      let removeRequest :=
          RemoveNodesRequest.mk requestID organizationID
                                (map Node.NodeId (NodeList.Nodes nodes)) in
      new_calls w (exec run w) = [Call_ListNodes cID; Call_RemoveNodes removeRequest]
      /\ result run w
         = Done match NodesClient.RemoveNodes (Manager.nodesClient m) (1 + now w)
                                              removeRequest with
                | Ok _ => None
                | Err err => Some err
                end
    end.
Proof.
  intros m requestID organizationID clusterID w cID run. subst run cID.
  unfold removeClusterNodes. raw. cases; tidy; auto.
Qed.

(* ===================================================================== *)
(** ** What no run does *)
(* ===================================================================== *)

Lemma emits_new_calls {A} (P : Call -> Prop) (c : M A) (w : World) :
  emits P c -> Forall P (new_calls w (exec c w)).
Proof.
  intro H. destruct (H w) as (dc & dl & dm & Hext & HP).
  apply extends_by_new in Hext. destruct Hext as (Hc & _). rewrite Hc. exact HP.
Qed.

Section Loops.
Variable m : Manager.t.
Variable P : Call -> Prop.
Hypothesis P_AddNode : forall r, P (Call_AddNode r).
Hypothesis P_AttachNode : forall r, P (Call_AttachNode r).
Hypothesis P_UpdateNode : forall r, P (Call_UpdateNode r).

Lemma attachNodes_loop_emits requestID organizationID clusterID nodes :
  emits P (attachNodes_loop m requestID organizationID clusterID nodes).
Proof.
  induction nodes as [| n rest IH]; simpl.
  - apply emits_ret.
  - repeat first [ progress cbv zeta | exact IH | emits_step
                 | apply emits_call; first [apply P_AddNode | apply P_AttachNode] ].
Qed.

Lemma installCallback_loop_emits toState organizationID status nodes :
  emits P (installCallback_loop m toState organizationID status nodes).
Proof.
  induction nodes as [| n rest IH]; simpl.
  - apply emits_ret.
  - repeat first [ progress cbv zeta | exact IH | emits_step
                 | apply emits_call; apply P_UpdateNode ].
Qed.
End Loops.

(** Walk through a method, proving [P] of each call with [solver]. *)
Ltac footprint solver :=
  repeat first
    [ progress cbv zeta
    | apply attachNodes_loop_emits; intro; solver
    | apply installCallback_loop_emits; intro; solver
    | emits_step
    | apply emits_call; solver ].

Ltac writes_solver :=
  simpl;
  first [ exact I
        | let Hw := fresh "Hw" in
          intro Hw;
          first [ discriminate Hw
                | repeat match goal with
                         | |- context [if ?b then _ else _] => destruct b
                         end;
                  eexists; (split; [reflexivity | simpl; auto 10 ]) ] ].

(** X24.  The lifecycle states each operation of the manager can write to
    the registry, whatever the collaborators answer.  Provisioning writes
    only PROVISIONING; its callback PROVISIONED, FAILURE or, through the
    install it triggers, INSTALL_IN_PROGRESS; an install PROVISIONED (for a
    cluster it discovers itself) or INSTALL_IN_PROGRESS, and its callback
    INSTALLED or FAILURE; scaling SCALING or FAILURE, and its callback
    INSTALLED or FAILURE; an uninstall, alone or as the first step of a
    decommission, UNINSTALLING or FAILURE, and its callback PROVISIONED or
    FAILURE.  Decommissioning and its callback, draining, cordoning,
    uncordoning, node updates and node removal write no lifecycle state. *)
Theorem lifecycle_states_written :
  forall (m : Manager.t) (toState : OpStatus -> NodeState),
    let writes {A} (allowed : list ClusterState) (run : M A) :=
        forall w, Forall (writes_only allowed) (new_calls w (exec run w)) in
    (forall request,
        writes [ClusterState_PROVISIONING] (ProvisionAndInstallCluster m request))
    /\ (forall requestID organizationID clusterID lastResponse err,
           writes [ClusterState_PROVISIONED; ClusterState_FAILURE;
                   ClusterState_INSTALL_IN_PROGRESS]
                  (provisionCallback m requestID organizationID clusterID lastResponse err))
    /\ (forall request,
           writes [ClusterState_PROVISIONED; ClusterState_INSTALL_IN_PROGRESS]
                  (InstallCluster m request))
    /\ (forall requestID organizationID clusterID response err,
           writes [ClusterState_INSTALLED; ClusterState_FAILURE]
                  (installCallback m toState requestID organizationID clusterID response err))
    /\ (forall request, writes [ClusterState_SCALING; ClusterState_FAILURE] (Scale m request))
    /\ (forall requestID organizationID clusterID lastResponse err,
           writes [ClusterState_INSTALLED; ClusterState_FAILURE]
                  (scaleCallback m requestID organizationID clusterID lastResponse err))
    /\ (forall request token,
           writes [ClusterState_UNINSTALLING; ClusterState_FAILURE]
                  (Uninstall m request token))
    /\ (forall requestID organizationID clusterID response err,
           writes [ClusterState_PROVISIONED; ClusterState_FAILURE]
                  (uninstallCallback m requestID organizationID clusterID response err))
    /\ (forall request,
           writes [ClusterState_UNINSTALLING; ClusterState_FAILURE]
                  (UninstallAndDecommissionCluster m request))
    /\ (forall request, writes [] (Decommission m request))
    /\ (forall clusterID lastResponse err,
           writes [] (decommissionCallback m clusterID lastResponse err))
    /\ (forall clusterID, writes [] (DrainCluster m clusterID))
    /\ (forall clusterID, writes [] (CordonCluster m clusterID))
    /\ (forall clusterID, writes [] (UncordonCluster m clusterID))
    /\ (forall request, writes [] (UpdateNode m request))
    /\ (forall requestID organizationID clusterID,
           writes [] (removeClusterNodes m requestID organizationID clusterID)).
Proof.
  intros m toState writes. subst writes. cbv beta.
  repeat split; intros; apply emits_new_calls.
  all: unfold ProvisionAndInstallCluster, provisionCallback, InstallCluster, installCallback,
         Scale, scaleCallback, Uninstall, uninstallCallback, UninstallAndDecommissionCluster,
         Decommission, decommissionCallback, DrainCluster, CordonCluster, UncordonCluster,
         UpdateNode, removeClusterNodes.
  all: footprint writes_solver.
Qed.

Ltac keeps_solver := reflexivity.

(** X25.  No operation of the manager other than the decommission callback
    and [removeClusterNodes] ever asks the system model to remove a cluster
    or nodes, whatever fails on the way: a cluster registered by a failed
    provisioning or install stays registered, with the nodes attached so
    far.  The public [RemoveCluster] and [RemoveNodes] endpoints answer
    unimplemented and leave the world as it is. *)
Theorem only_decommissioning_removes :
  forall (m : Manager.t) (toState : OpStatus -> NodeState),
    let keeps {A} (run : M A) :=
        forall w, existsb is_removal (new_calls w (exec run w)) = false in
    (forall request, keeps (ProvisionAndInstallCluster m request))
    /\ (forall requestID organizationID clusterID lastResponse err,
           keeps (provisionCallback m requestID organizationID clusterID lastResponse err))
    /\ (forall request, keeps (InstallCluster m request))
    /\ (forall requestID organizationID clusterID response err,
           keeps (installCallback m toState requestID organizationID clusterID response err))
    /\ (forall request, keeps (Scale m request))
    /\ (forall requestID organizationID clusterID lastResponse err,
           keeps (scaleCallback m requestID organizationID clusterID lastResponse err))
    /\ (forall request token, keeps (Uninstall m request token))
    /\ (forall requestID organizationID clusterID response err,
           keeps (uninstallCallback m requestID organizationID clusterID response err))
    /\ (forall request, keeps (UninstallAndDecommissionCluster m request))
    /\ (forall request, keeps (Decommission m request))
    /\ (forall request, keeps (UpdateCluster m request))
    /\ (forall clusterID, keeps (DrainCluster m clusterID))
    /\ (forall clusterID, keeps (CordonCluster m clusterID))
    /\ (forall clusterID, keeps (UncordonCluster m clusterID))
    /\ (forall request, keeps (UpdateNode m request))
    /\ (forall request w,
           result (RemoveCluster request) w
           = Done (Err (NewUnimplementedError "RemoveCluster is not implemented yet"))
           /\ exec (RemoveCluster request) w = w)
    /\ (forall request w,
           result (RemoveNodes request) w
           = Done (Err (NewUnimplementedError "RemoveNodes is not implemented yet"))
           /\ exec (RemoveNodes request) w = w).
Proof.
  intros m toState keeps. subst keeps. cbv beta.
  assert (Hkeep : forall l, Forall keeps_the_inventory l -> existsb is_removal l = false).
  { induction l as [| c l IH]; intro H; [reflexivity |].
    inversion H as [| c' l' Hc Hl]; subst. simpl. rewrite Hc. simpl. auto. }
  repeat split; intros; try (apply Hkeep; apply emits_new_calls).
  all: unfold ProvisionAndInstallCluster, provisionCallback, InstallCluster, installCallback,
         Scale, scaleCallback, Uninstall, uninstallCallback, UninstallAndDecommissionCluster,
         Decommission, UpdateCluster, DrainCluster, CordonCluster, UncordonCluster,
         UpdateNode.
  all: footprint keeps_solver.
Qed.

(** ** Publication follows the registry write *)



Section Ordered.
Variable m : Manager.t.



















End Ordered.



(** ** Registering the nodes of a discovered cluster *)

Lemma new_calls_after (w w1 w2 : World) (pre : list Call) :
  calls w1 = calls w ++ pre ->
  (exists dc, calls w2 = calls w1 ++ dc) ->
  new_calls w w2 = pre ++ new_calls w1 w2.
Proof.
  intros H1 [dc H2]. unfold new_calls. rewrite H2, H1, <- app_assoc.
  rewrite skipn_length_app. rewrite app_assoc, skipn_length_app. reflexivity.
Qed.

Lemma attachNodes_loop_extends m requestID organizationID clusterID nodes w :
  exists dc,
    calls (exec (attachNodes_loop m requestID organizationID clusterID nodes) w)
    = calls w ++ dc.
Proof.
  destruct (emits_calls any_call
              (attachNodes_loop m requestID organizationID clusterID nodes) w) as (dc & H & _).
  - apply attachNodes_loop_emits; intro; exact I.
  - exists dc. exact H.
Qed.

(** X27.  [attachNodes] never panics and handles the discovered nodes in
    order.  When it returns nil, it has issued, for each node, one [AddNode]
    carrying the node's IP and labels followed by one [AttachNode] of the
    node id the registry answered to the cluster, and nothing else.  When it
    returns an error, it has done so for the nodes before some node, and
    stopped at that node: either at its [AddNode], whose error is returned,
    or at its [AttachNode], whose error is returned.  Nodes registered
    before the failure are left as they are. *)
Theorem attachNodes_outcome :
  forall (m : Manager.t) (requestID organizationID clusterID : string)
         (cluster : entities.Cluster.t) (w : World),
    let client := Manager.nodesClient m in
    let nodes := entities.Cluster.Nodes cluster in
    let run := attachNodes m requestID organizationID clusterID cluster in
    let issued := new_calls w (exec run w) in
    match result run w with
    | Panicked => False
    | Done None => attached client requestID organizationID clusterID (now w) nodes issued
    | Done (Some err) =>
      exists k n registered,
        nth_error nodes k = Some n
        /\ attached client requestID organizationID clusterID (now w) (firstn k nodes)
                    registered
        /\ let nodeToAdd := node_registration requestID organizationID n in
           match NodesClient.AddNode client (2 * k + now w) nodeToAdd with
           | Err addErr => err = addErr /\ issued = registered ++ [Call_AddNode nodeToAdd]
           | Ok addedNode =>
             let attachReq :=
                 AttachNodeRequest.mk requestID organizationID clusterID
                                      (Node.NodeId addedNode) in
             NodesClient.AttachNode client (1 + 2 * k + now w) attachReq = Err err
             /\ issued = registered ++ [Call_AddNode nodeToAdd; Call_AttachNode attachReq]
           end
    end.
Proof.
  intros m requestID organizationID clusterID cluster w client nodes run issued.
  subst issued run client. unfold attachNodes. fold nodes. clearbody nodes. clear cluster.
  revert w. induction nodes as [| n rest IH]; intro w.
  - simpl. unfold new_calls, exec, ret. simpl. apply skipn_length_self.
  - cbn [attachNodes_loop]. cbv zeta.
    fold (node_registration requestID organizationID n).
    unfold result, exec. rewrite bind_log, bind_call.
    destruct (NodesClient.AddNode (Manager.nodesClient m) (now (write_log _ _ w)) _)
      as [addedNode | addErr] eqn:Hadd; rewrite now_write_log in Hadd.
    + rewrite bind_log, bind_call. rewrite now_write_log, now_record, now_write_log.
      destruct (NodesClient.AttachNode (Manager.nodesClient m) (S (now w)) _)
        as [att | attErr] eqn:Hatt.
      * match goal with
        | |- context [attachNodes_loop _ _ _ _ _ ?w2] => set (w2' := w2)
        end.
        specialize (IH w2').
        assert (Hnow : now w2' = 2 + now w).
        { subst w2'. rewrite now_record, now_write_log, now_record, now_write_log.
          reflexivity. }
        assert (Hnew : new_calls w (exec (attachNodes_loop m requestID organizationID
                                                           clusterID rest) w2')
                       = [Call_AddNode (node_registration requestID organizationID n);
                          Call_AttachNode
                            (AttachNodeRequest.mk requestID organizationID clusterID
                                                  (Node.NodeId addedNode))]
                           ++ new_calls w2' (exec (attachNodes_loop m requestID organizationID
                                                                    clusterID rest) w2')).
        { apply new_calls_after.
          - subst w2'. simpl. rewrite <- app_assoc. reflexivity.
          - apply attachNodes_loop_extends. }
        unfold result, exec in IH, Hnew.
        destruct (attachNodes_loop m requestID organizationID clusterID rest w2')
          as [[[err |] |] w3]; cbn [fst snd] in *.
        -- destruct IH as (k & n' & registered & Hnth & Hreg & Hlast).
           rewrite Hnow in Hreg, Hlast.
           exists (S k), n', (Call_AddNode (node_registration requestID organizationID n)
                              :: Call_AttachNode
                                   (AttachNodeRequest.mk requestID organizationID clusterID
                                                         (Node.NodeId addedNode))
                              :: registered).
           split; [exact Hnth |]. split.
           ++ simpl. exists addedNode, registered. auto.
           ++ replace (2 * S k + now w) with (2 * k + (2 + now w)) by lia.
              replace (1 + 2 * S k + now w) with (1 + 2 * k + (2 + now w)) by lia.
              cbv zeta in Hlast.
              destruct (NodesClient.AddNode _ _ _) as [added' | addErr'].
              ** destruct Hlast as [Ha Hi]. split; [exact Ha |].
                 rewrite Hnew, Hi. reflexivity.
              ** destruct Hlast as [Ha Hi]. split; [exact Ha |].
                 rewrite Hnew, Hi. reflexivity.
        -- rewrite Hnow in IH. exists addedNode. eexists. split; [exact Hadd |].
           split; [rewrite Hnew; reflexivity | exact IH].
        -- exact IH.
      * simpl. exists 0, n, []. split; [reflexivity |]. split; [reflexivity |].
        cbv zeta. simpl. rewrite Hadd. split; [exact Hatt |].
        unfold new_calls. simpl. rewrite <- app_assoc. apply skipn_length_app.
    + simpl. exists 0, n, []. split; [reflexivity |]. split; [reflexivity |].
      cbv zeta. simpl. rewrite Hadd. split; [reflexivity |].
      unfold new_calls. simpl. apply skipn_length_app.
Qed.

(** ** The install callback and the nodes *)

(** The run of the loop of [installCallback]: the first [k] nodes are
    updated, and [k] falls short of the list only at a refused update. *)
Lemma installCallback_loop_run m toState organizationID status nodes :
  forall w, exists k finished w',
      installCallback_loop m toState organizationID status nodes w = (Done finished, w')
      /\ k <= length nodes
      /\ calls w' = calls w ++ map (fun n => Call_UpdateNode
                                               (node_update toState organizationID status n))
                                   (firstn k nodes)
      /\ launched w' = launched w
      /\ (k < length nodes ->
          exists n e,
            0 < k /\ nth_error nodes (k - 1) = Some n
            /\ NodesClient.UpdateNode (Manager.nodesClient m) (k - 1 + now w)
                                      (node_update toState organizationID status n)
               = Err e).
Proof.
  induction nodes as [| n rest IH]; intro w.
  - exists 0, true, w. simpl. rewrite app_nil_r. repeat split; auto. intro H. inversion H.
  - cbn [installCallback_loop]. cbv zeta.
    fold (node_update toState organizationID status n).
    rewrite bind_call.
    destruct (NodesClient.UpdateNode (Manager.nodesClient m) (now w) _) as [u | e] eqn:Hupd.
    + rewrite bind_log.
      match goal with
      | |- context [installCallback_loop _ _ _ _ _ ?w1] =>
        destruct (IH w1) as (k & finished & w' & Hrun & Hk & Hcalls & Hmon & Hstop)
      end.
      exists (S k), finished, w'. split; [exact Hrun |]. split; [simpl; lia |].
      split; [rewrite Hcalls; simpl; rewrite <- app_assoc; reflexivity |].
      split; [rewrite Hmon; reflexivity |].
      intro Hlt. simpl in Hlt. destruct Hstop as (n' & e & Hpos & Hnth & Herr); [lia |].
      exists n', e. split; [lia |].
      rewrite now_write_log, now_record in Herr.
      destruct k as [| k]; [lia |]. simpl in *. rewrite Nat.sub_0_r in *.
      split; [exact Hnth |].
      replace (S (k + now w)) with (k + S (now w)) by lia. exact Herr.
    + rewrite bind_log. exists 1, false. eexists. split; [reflexivity |].
      split; [simpl; lia |]. split; [reflexivity |]. split; [reflexivity |].
      intros _. exists n, e. split; [lia |]. split; [reflexivity |]. exact Hupd.
Qed.

(** X28.  Handed a final response, the install callback always returns and
    launches nothing.  It writes one lifecycle state, FAILURE if the watch
    error is non-nil or the operation FAILED and INSTALLED otherwise,
    published if the registry took it.  Whether or not that write
    succeeded, and whether or not the install failed, it then lists the
    nodes of the cluster and updates them in the order listed, keeping the
    status of each node and setting its state from the status of the
    operation.  It stops short of the end of the list only at an update
    that the registry refused. *)
Theorem installCallback_outcome :
  forall (m : Manager.t) (toState : OpStatus -> NodeState)
         (requestID organizationID clusterID : string)
         (response : OpResponse.t) (err : option Error) (w : World),
    let status := OpResponse.Status response in
    let written :=
        state_update organizationID clusterID
                     (if operation_failed status err
                      then ClusterState_FAILURE else ClusterState_INSTALLED) in
    let transition :=
        Call_UpdateCluster written
          :: match ClustersClient.UpdateCluster (Manager.clusterClient m) (now w) written with
             | Ok _ => [Call_SendEvents (bus.UpdateClusterEvent written)]
             | Err _ => []
             end in
    let cID := ClusterId.mk organizationID clusterID in
    let listing := length transition + now w in
    let run := installCallback m toState requestID organizationID clusterID
                               (Some response) err in
    result run w = Done tt
    /\ new_monitors w (exec run w) = []
    /\ match NodesClient.ListNodes (Manager.nodesClient m) listing cID with
       | Err _ => new_calls w (exec run w) = transition ++ [Call_ListNodes cID]
       | Ok listed =>
         let nodes := NodeList.Nodes listed in
         exists k,
           k <= length nodes
           /\ new_calls w (exec run w)
              = transition ++ [Call_ListNodes cID]
                  ++ map (fun n => Call_UpdateNode
                                     (node_update toState organizationID status n))
                         (firstn k nodes)
           /\ (k < length nodes ->
               exists n e,
                 0 < k /\ nth_error nodes (k - 1) = Some n
                 /\ NodesClient.UpdateNode (Manager.nodesClient m) (k + listing)
                                           (node_update toState organizationID status n)
                    = Err e)
       end.
Proof.
  intros m toState requestID organizationID clusterID response err w status written
         transition cID listing run.
  subst run listing cID transition written status.
  unfold installCallback, updateClusterState, state_update.
  destruct err as [e |], (OpResponse.Status response) eqn:Hstatus; raw.
  all: destruct (ClustersClient.UpdateCluster _ _ _) as [c | uErr]; simpl;
    rewrite ?last_length.
  all: try (destruct (bus.BusManager.SendEvents _ _ _) as [bErr |]; simpl;
            rewrite ?last_length).
  all: destruct (NodesClient.ListNodes _ _ _) as [listed | lErr]; simpl.
  all: try (split; [reflexivity |]; split; [| tidy; reflexivity]; tidy; reflexivity).
  all: match goal with
       | |- context [installCallback_loop ?a ?b ?c ?d ?e ?w1] =>
         destruct (installCallback_loop_run a b c d e w1)
           as (k & finished & w' & Hrun & Hk & Hcalls & Hmon & Hstop);
           rewrite Hrun
       end.
  all: destruct finished; simpl.
  all: (split; [reflexivity |]; split; [rewrite Hmon; simpl; apply skipn_length_self |]).
  all: exists k; (split; [exact Hk |]); split;
    [ rewrite Hcalls; simpl; rewrite <- ?app_assoc; simpl; apply skipn_length_app
    | intro Hlt; destruct (Hstop Hlt) as (n & e' & Hpos & Hnth & Herr);
      exists n, e'; split; [exact Hpos |]; split; [exact Hnth |];
      unfold now in Herr; simpl in Herr; rewrite ?length_app in Herr; simpl in Herr;
      match goal with
      | |- NodesClient.UpdateNode _ ?t _ = _ =>
        match type of Herr with
        | NodesClient.UpdateNode _ ?t' _ = _ => replace t with t' by lia
        end
      end; exact Herr ].
Qed.
